(** * LEGO 3D printer: the G-code interpreter and the motion controller

    A shallow embedding of [gcode_handler.py] ([GCodeProcessor.parse_line],
    [find_gcode_files]), [printer.py] ([Printer.extrude],
    [Printer._calculate_velocity_components], [Printer.move], [Printer.home],
    [draw_centered_text], [file_selector], [prime_extruder]), of the
    start of [main.py] and its print loop, and of [manual.py].

    Python floats are the kernel's binary64 numbers ([PrimFloat]); Python
    strings are byte strings; the dictionary of raw parameters is a [gmap];
    actuator commands and waits are recorded, in order, in a trace. *)

From Stdlib Require Import ZArith List String Ascii Bool Lia Floats.
From stdpp Require Import base option list gmap strings pretty.
Import ListNotations.

#[local] Set Warnings "-inexact-float".
#[local] Open Scope Z_scope.

(* ===================================================================== *)
(** * The Python runtime: exceptions, strings, floats                     *)
(* ===================================================================== *)

Module Py.

(** The built-in exceptions that the modelled code can raise. *)
Inductive exn : Type :=
| ValueError
| OverflowError
| NameError
| ZeroDivisionError.

Inductive result (A : Type) : Type :=
| Ok (a : A)
| Raise (e : exn).
Arguments Ok {A} a.
Arguments Raise {A} e.

#[global] Instance result_ret : MRet result := λ A a, Ok a.
#[global] Instance result_bind : MBind result := λ A B f r,
  match r with
  | Ok a => f a
  | Raise e => Raise e
  end.

(** ** Strings *)

(** [str.isspace] on one byte, as MicroPython's character table has it:
    space, and tab to carriage return. *)
Definition isspace (c : ascii) : bool :=
  let n := N_of_ascii c in
  ((n =? 32) || ((9 <=? n) && (n <=? 13)))%N.

Fixpoint lstrip (s : string) : string :=
  match s with
  | EmptyString => EmptyString
  | String c s' => if isspace c then lstrip s' else s
  end.

Fixpoint rstrip (s : string) : string :=
  match s with
  | EmptyString => EmptyString
  | String c s' =>
      match rstrip s' with
      | EmptyString => if isspace c then EmptyString else String c EmptyString
      | r => String c r
      end
  end.

(** [s.strip()] *)
Definition strip (s : string) : string := rstrip (lstrip s).

(** [s.split()]: the maximal runs of non-whitespace bytes, in order. *)
Fixpoint split (s : string) : list string :=
  match s with
  | EmptyString => []
  | String c s' =>
      if isspace c then split s'
      else
        match s' with
        | EmptyString => [String c EmptyString]
        | String c' _ =>
            if isspace c' then String c EmptyString :: split s'
            else
              match split s' with
              | w :: ws => String c w :: ws
              | [] => [String c EmptyString]
              end
        end
  end.

(** [sep in s] for a one-byte separator. *)
Fixpoint contains (sep : ascii) (s : string) : bool :=
  match s with
  | EmptyString => false
  | String c s' => Ascii.eqb c sep || contains sep s'
  end.

(** [s.split(sep, 1)[0]]: what comes before the first separator. *)
Fixpoint split1_head (sep : ascii) (s : string) : string :=
  match s with
  | EmptyString => EmptyString
  | String c s' => if Ascii.eqb c sep then EmptyString else String c (split1_head sep s')
  end.

Definition upper_char (c : ascii) : ascii :=
  let n := N_of_ascii c in
  if ((97 <=? n) && (n <=? 122))%N then ascii_of_N (n - 32) else c.

Definition lower_char (c : ascii) : ascii :=
  let n := N_of_ascii c in
  if ((65 <=? n) && (n <=? 90))%N then ascii_of_N (n + 32) else c.

Fixpoint upper (s : string) : string :=
  match s with
  | EmptyString => EmptyString
  | String c s' => String (upper_char c) (upper s')
  end.

Fixpoint lower (s : string) : string :=
  match s with
  | EmptyString => EmptyString
  | String c s' => String (lower_char c) (lower s')
  end.

(** ['A' <= c <= 'Z'] *)
Definition is_upper_letter (c : ascii) : bool :=
  let n := N_of_ascii c in ((65 <=? n) && (n <=? 90))%N.

(** [len(s)] *)
Definition len (s : string) : Z := Z.of_nat (String.length s).

(** ** Floats *)

(** An integer as the nearest binary64 number. *)
Definition float_of_Z (z : Z) : float :=
  SF2Prim (binary_normalize prec emax z 0 false).

(** [int(f)]: truncation toward zero; [nan] and the infinities raise. *)
Definition int (f : float) : result Z :=
  match Prim2SF f with
  | S754_nan => Raise ValueError
  | S754_infinity _ => Raise OverflowError
  | S754_zero _ => Ok 0
  | S754_finite s m e => Ok (cond_Zopp s (Z.shiftl (Zpos m) e))
  end.

(** [neg] [m] * 10^[e], correctly rounded to binary64. *)
Definition float_of_decimal (neg : bool) (m e : Z) : float :=
  if m =? 0 then (if neg then neg_zero else zero)
  else if 310 <? e then (if neg then neg_infinity else infinity)
  else if Z.log2 m + 1 + 3 * e <? -1075 then (if neg then neg_zero else zero)
  else if 0 <=? e then
    SF2Prim (binary_normalize prec emax (cond_Zopp neg (m * 10 ^ e)) 0 neg)
  else
    let '(q, e', l) := SFdiv_core_binary prec emax m 0 (10 ^ (- e)) 0 in
    SF2Prim (binary_round_aux prec emax neg q e' l).

Definition digit_of (c : ascii) : option Z :=
  let n := N_of_ascii c in
  if ((48 <=? n) && (n <=? 57))%N then Some (Z.of_N n - 48) else None.

(** Reads a run of decimal digits: the number read so far, how many
    digits were read, and the rest of the string. *)
Fixpoint read_digits (s : string) (acc count : Z) : Z * Z * string :=
  match s with
  | EmptyString => (acc, count, s)
  | String c s' =>
      match digit_of c with
      | Some d => read_digits s' (10 * acc + d) (count + 1)
      | None => (acc, count, s)
      end
  end.

Definition read_sign (s : string) : bool * string :=
  match s with
  | String "-" s' => (true, s')
  | String "+" s' => (false, s')
  | _ => (false, s)
  end.

(** A reference implementation of the built-in [float(s)] on the decimal
    literals and the special values it accepts: optional sign, then
    [inf], [infinity] or [nan] in any case, or digits with an optional
    point and an optional exponent.  [None] stands for [ValueError]. *)
Definition float_of_string (s : string) : option float :=
  let s := strip s in
  let '(neg, s) := read_sign s in
  let l := lower s in
  if (String.eqb l "inf" || String.eqb l "infinity")%string
  then Some (if neg then neg_infinity else infinity)
  else if String.eqb l "nan" then Some nan
  else
    let '(ip, n1, s1) := read_digits s 0 0 in
    let '(m, n2, s2) :=
      match s1 with
      | String "." s1' => read_digits s1' ip 0
      | _ => (ip, 0, s1)
      end in
    if n1 + n2 =? 0 then None
    else
      match s2 with
      | EmptyString => Some (float_of_decimal neg m (- n2))
      | String c s3 =>
          if Ascii.eqb (lower_char c) "e" then
            let '(eneg, s4) := read_sign s3 in
            let '(ev, n3, s5) := read_digits s4 0 0 in
            if n3 =? 0 then None
            else
              match s5 with
              | EmptyString => Some (float_of_decimal neg m (cond_Zopp eneg ev - n2))
              | _ => None
              end
          else None
      end.

End Py.

(* ===================================================================== *)
(** * The order of binary64 numbers                                       *)
(* ===================================================================== *)

Module FloatOrder.

(** Where a number other than [nan] stands in the order: its class, then
    its exponent and its mantissa, both negated below zero. *)
Definition rank (f : spec_float) : Z * Z * Z :=
  match f with
  | S754_nan => (0, 0, 0)
  | S754_infinity true => (-2, 0, 0)
  | S754_infinity false => (2, 0, 0)
  | S754_zero _ => (0, 0, 0)
  | S754_finite true m e => (-1, - e, - Zpos m)
  | S754_finite false m e => (1, e, Zpos m)
  end.

Definition ordered (f : spec_float) : bool :=
  match f with S754_nan => false | _ => true end.

Definition lex_lt (a b : Z * Z * Z) : Prop :=
  a.1.1 < b.1.1 ∨ (a.1.1 = b.1.1 ∧ (a.1.2 < b.1.2 ∨ (a.1.2 = b.1.2 ∧ a.2 < b.2))).

End FloatOrder.

(* ===================================================================== *)
(** * gcode_handler.py: [GCodeProcessor]                                  *)
(* ===================================================================== *)

Module GCode.

(** The log levels of the class. *)
Definition LOG_ERROR : Z := 0.
Definition LOG_WARN : Z := 0.
Definition LOG_INFO : Z := 1.
Definition LOG_DEBUG : Z := 2.

(** The dictionary [parse_line] returns for G0 and G1: the keys
    ['command'] and ['extruding'] are always there, ['X'], ['Y'] and
    ['Z'] only when the line has them. *)
Record parsed_data : Type := {
  command : string;
  extruding : bool;
  coord_X : option float;
  coord_Y : option float;
  coord_Z : option float
}.

(** What [_log] is asked to print, one constructor per call site of
    [parse_line]. *)
Inductive log_msg : Type :=
| ParsingLine (stripped_line : string)
| ParsedRawParam (param_code : ascii) (param_value : float)
| ValueParseError (cleaned_line : string)
| ExtrusionDetected (current_e last_e : float)
| ParsedMoveData (d : parsed_data)
| ResetE (line_number : Z) (new_e : float)
| ResettingTracker
| EmptyG92 (line_number : Z)
| SkippingUnhandled (command : string).

(** The fields of the processor that [parse_line] reads or writes. *)
Record GCodeProcessor : Type := {
  verbose : Z;
  last_e_value : float
}.

(** [GCodeProcessor(verbose=v)], as far as [parse_line] is concerned. *)
Definition __init__ (v : Z) : GCodeProcessor :=
  {| verbose := v; last_e_value := 0 |}.

(** A method of the processor: it may update [self] and print. *)
Definition M (A : Type) : Type :=
  GCodeProcessor -> A * GCodeProcessor * list log_msg.

#[global] Instance M_ret : MRet M := λ A a self, (a, self, []).

#[global] Instance M_bind : MBind M := λ A B f m self,
  let '(a, self1, out1) := m self in
  let '(b, self2, out2) := f a self1 in
  (b, self2, out1 ++ out2).

Definition returned {A} (r : A * GCodeProcessor * list log_msg) : A := r.1.1.
Definition final {A} (r : A * GCodeProcessor * list log_msg) : GCodeProcessor := r.1.2.
Definition printed {A} (r : A * GCodeProcessor * list log_msg) : list log_msg := r.2.

Definition _log (level : Z) (message : log_msg) : M unit :=
  fun self => (tt, self, if verbose self >=? level then [message] else []).

Definition get_last_e_value : M float :=
  fun self => (last_e_value self, self, []).

Definition set_last_e_value (e : float) : M unit :=
  fun self => (tt, {| verbose := verbose self; last_e_value := e |}, []).

Definition is_warning (m : log_msg) : bool :=
  match m with ValueParseError _ => true | _ => false end.

(** How many warnings a call printed. *)
Definition warnings (out : list log_msg) : nat :=
  length (List.filter is_warning out).

Section ParseLine.

(** The built-in [float] on strings; [None] is [ValueError]. *)
Variable py_float : string -> option float.

(** The [for part in parts[1:]] loop, which runs inside the [try]:
    the boolean says whether [float] raised, which leaves the loop. *)
Fixpoint for_parts (parts : list string) (raw_params : gmap ascii float)
  : M (gmap ascii float * bool) :=
  match parts with
  | [] => mret (raw_params, false)
  | part :: rest =>
      let part := Py.strip part in
      if Py.len part >=? 2 then
        match part with
        | String c value_text =>
            let param_code := Py.upper_char c in
            if Py.is_upper_letter param_code then
              match py_float value_text with
              | Some param_value =>
                  _log LOG_DEBUG (ParsedRawParam param_code param_value);;
                  for_parts rest (<[param_code := param_value]> raw_params)
              | None => mret (raw_params, true)
              end
            else for_parts rest raw_params
        | EmptyString => for_parts rest raw_params
        end
      else for_parts rest raw_params
  end.

(** [parse_line] from [command = parts[0].upper()] on. *)
Definition parse_parts (cleaned_line part0 : string) (params : list string)
  (line_number : Z) : M (option parsed_data) :=
  let command := Py.upper part0 in
  '(raw_params, raised) ← for_parts params ∅;
  (if raised : bool then _log LOG_WARN (ValueParseError cleaned_line) else mret tt);;
  if (String.eqb command "G0" || String.eqb command "G1")%string then
    let parsed := fun (e : bool) =>
      {| command := command;
         extruding := e;
         coord_X := raw_params !! "X"%char;
         coord_Y := raw_params !! "Y"%char;
         coord_Z := raw_params !! "Z"%char |} in
    is_extruding ←
      match raw_params !! "E"%char with
      | Some current_e =>
          last ← get_last_e_value;
          if (last <? current_e)%float then
            set_last_e_value current_e;;
            _log LOG_DEBUG (ExtrusionDetected current_e current_e);;
            mret true
          else mret false
      | None => mret false
      end;
    _log LOG_DEBUG (ParsedMoveData (parsed is_extruding));;
    mret (Some (parsed is_extruding))
  else if String.eqb command "G92" then
    match raw_params !! "E"%char with
    | Some new_e =>
        _log LOG_INFO (ResetE line_number new_e);;
        _log LOG_DEBUG ResettingTracker;;
        set_last_e_value new_e
    | None => _log LOG_DEBUG (EmptyG92 line_number)
    end;;
    mret None
  else
    _log LOG_DEBUG (SkippingUnhandled command);;
    mret None.

Definition parse_line (gcode_line : string) (line_number : Z)
  : M (option parsed_data) :=
  _log LOG_DEBUG (ParsingLine (Py.strip gcode_line));;
  let gcode_line :=
    if Py.contains ";" gcode_line then Py.split1_head ";" gcode_line
    else gcode_line in
  let cleaned_line := Py.strip gcode_line in
  if String.eqb cleaned_line "" then mret None
  else
    match Py.split cleaned_line with
    | [] => mret None
    | part0 :: params => parse_parts cleaned_line part0 params line_number
    end.

(** The dictionary the loop builds and whether it was cut short; the
    processor only decides what is printed. *)
Fixpoint scan (parts : list string) (raw_params : gmap ascii float)
  : gmap ascii float * bool :=
  match parts with
  | [] => (raw_params, false)
  | part :: rest =>
      match Py.strip part with
      | String c value_text =>
          if (Py.len (Py.strip part) >=? 2)
             && Py.is_upper_letter (Py.upper_char c) then
            match py_float value_text with
            | Some v => scan rest (<[Py.upper_char c := v]> raw_params)
            | None => (raw_params, true)
            end
          else scan rest raw_params
      | EmptyString => scan rest raw_params
      end
  end.

(** The parts of a line, as [parse_line] splits it. *)
Definition tokens (gcode_line : string) : list string :=
  Py.split (Py.strip (if Py.contains ";" gcode_line
                      then Py.split1_head ";" gcode_line else gcode_line)).

(** The command code of a line, upcased. *)
Definition command_of (gcode_line : string) : option string :=
  match tokens gcode_line with
  | [] => None
  | part0 :: _ => Some (Py.upper part0)
  end.

(** The raw parameters [parse_line] has when it looks at the command. *)
Definition raw_params_of (gcode_line : string) : gmap ascii float :=
  match tokens gcode_line with
  | [] => ∅
  | _ :: params => (scan params ∅).1
  end.

(** Whether [float] raised on a part of the line, which ended the loop
    over its parts. *)
Definition cut_short (gcode_line : string) : bool :=
  match tokens gcode_line with
  | [] => false
  | _ :: params => (scan params ∅).2
  end.

Definition is_move (gcode_line : string) : bool :=
  match command_of gcode_line with
  | Some c => (String.eqb c "G0" || String.eqb c "G1")%string
  | None => false
  end.

Definition is_reset (gcode_line : string) : bool :=
  match command_of gcode_line with
  | Some c => String.eqb c "G92"
  | None => false
  end.

(** The E values that G0 and G1 lines carry, in order. *)
Definition seen_e (lines : list string) : list float :=
  omap (λ l, if is_move l then raw_params_of l !! "E"%char else None) lines.

(** Feeding the lines of a file to [parse_line], one after the other. *)
Fixpoint parse_lines (lines : list string) (line_number : Z)
  : M (list (option parsed_data)) :=
  match lines with
  | [] => mret []
  | line :: rest =>
      r ← parse_line line line_number;
      rs ← parse_lines rest (line_number + 1);
      mret (r :: rs)
  end.

End ParseLine.

(** [w] is one of [vs] and none of them compares greater. *)
Definition highest (w : float) (vs : list float) : Prop :=
  w ∈ vs ∧ ∀ v, v ∈ vs → (w <? v)%float = false.

End GCode.

(* ===================================================================== *)
(** * printer.py: [Printer]                                               *)
(* ===================================================================== *)

Module Printer.

Inductive motor : Type := x_motor | y_motor | z_motor | e_motor.

(** [pybricks.parameters.Stop] *)
Inductive Stop : Type := COAST | BRAKE | HOLD.

(** What the driver and the controller put on the screen. *)
Inductive screen_text : Type :=
| TextHoming
| TextPrinting
| TextPercent (line_count total_lines : nat)
| TextStopped.

(** The commands sent to the motors, the timed waits, and the screen
    and speaker calls, each named after the method called.  Numbers that
    are Python integers in the source and only ever act as speeds or
    rotation angles are written as the floats they equal. *)
Inductive event : Type :=
| run (m : motor) (speed : float)
| run_target (m : motor) (speed : float) (target_angle : Z) (then_ : Stop) (wait_ : bool)
| run_angle (m : motor) (speed : float) (rotation_angle : float) (then_ : Stop) (wait_ : bool)
| run_until_stalled (m : motor) (speed : float) (then_ : Stop) (duty_limit : Z)
| brake (m : motor)
| hold (m : motor)
| stop (m : motor)
| reset_angle (m : motor) (angle : Z)
| wait (time : Z)
| draw_centered_text (text : screen_text)
| beep.

(** The configuration [__init__] sets and the one piece of state kept
    afterwards, [extruding]. *)
Record Printer : Type := {
  xy_speed : float;
  z_speed : float;
  e_speed : float;
  max_xy_speed_multiplier : float;
  x_mm_per_degree : float;
  y_mm_per_degree : float;
  z_mm_per_degree : float;
  extruding : bool
}.

Definition __init__ : Printer :=
  {| xy_speed := 90;
     z_speed := 1000;
     e_speed := 500;
     max_xy_speed_multiplier := 3;
     x_mm_per_degree := 4 / 45;
     y_mm_per_degree := 4 / 45;
     z_mm_per_degree := 8 / 45;
     extruding := false |}.

Definition with_extruding (b : bool) (self : Printer) : Printer :=
  {| xy_speed := xy_speed self;
     z_speed := z_speed self;
     e_speed := e_speed self;
     max_xy_speed_multiplier := max_xy_speed_multiplier self;
     x_mm_per_degree := x_mm_per_degree self;
     y_mm_per_degree := y_mm_per_degree self;
     z_mm_per_degree := z_mm_per_degree self;
     extruding := b |}.

(** A method of the printer: it returns or raises, may update [self],
    and leaves a trace of events.  [_log] only prints and is left out. *)
Definition P (A : Type) : Type :=
  Printer -> Py.result A * Printer * list event.

#[global] Instance P_ret : MRet P := λ A a self, (Py.Ok a, self, []).

#[global] Instance P_bind : MBind P := λ A B f m self,
  match m self with
  | (Py.Ok a, self1, tr1) =>
      let '(r, self2, tr2) := f a self1 in (r, self2, tr1 ++ tr2)
  | (Py.Raise e, self1, tr1) => (Py.Raise e, self1, tr1)
  end.

Definition outcome {A} (r : Py.result A * Printer * list event) : Py.result A := r.1.1.
Definition final {A} (r : Py.result A * Printer * list event) : Printer := r.1.2.
Definition trace {A} (r : Py.result A * Printer * list event) : list event := r.2.

Definition get_self : P Printer := λ self, (Py.Ok self, self, []).
Definition set_extruding (b : bool) : P unit :=
  λ self, (Py.Ok tt, with_extruding b self, []).
Definition emit (e : event) : P unit := λ self, (Py.Ok tt, self, [e]).
Definition emits (es : list event) : P unit := λ self, (Py.Ok tt, self, es).
Definition raise {A} (e : Py.exn) : P A := λ self, (Py.Raise e, self, []).
Definition lift {A} (r : Py.result A) : P A := λ self, (r, self, []).

(** A polling loop [while not <condition>: wait(time)] whose condition
    the hardware makes true after [polls] failed polls. *)
Definition wait_loop (time : Z) (polls : nat) : P unit :=
  emits (repeat (wait time) polls).

(** ** The extruder *)

Definition _start_extruding : P unit :=
  self ← get_self;
  emit (run_until_stalled e_motor (e_speed self) HOLD 40);;
  emit (wait 450).

Definition _stop_extruding : P unit :=
  self ← get_self;
  emit (run_until_stalled e_motor (- e_speed self) BRAKE 40).

Definition extrude (extrude : bool) : P unit :=
  self ← get_self;
  if extrude && negb (extruding self) then
    set_extruding true;;
    _start_extruding
  else if negb extrude && extruding self then
    set_extruding false;;
    _stop_extruding
  else mret tt.

(** ** Velocity components *)

(** The coordinates are floats; the speed, an integer in the source (90,
    or 90 * 3), and the integer 0 that replaces a component are written
    as the floats they equal.  [sqrt] gets a sum of two squares, never a
    negative number, and [1.0 / distance] is only reached with a distance
    that is not below 0.05, so neither raises. *)
Definition _calculate_velocity_components
  (current_x current_y target_x target_y target_speed : float) : float * float :=
  let dx := (target_x - current_x)%float in
  let dy := (target_y - current_y)%float in
  let distance := sqrt (dx * dx + dy * dy)%float in
  if (distance <? 0.05)%float then (0%float, 0%float)
  else
    let inv_distance := (1 / distance)%float in
    let vx := (dx * inv_distance * target_speed)%float in
    let vy := (dy * inv_distance * target_speed)%float in
    let vx := if (abs dx <? 0.05)%float then 0%float else vx in
    let vy := if (abs dy <? 0.05)%float then 0%float else vy in
    (vx, vy).

(** ** Moves *)

(** What [move] reads from the hardware: how many times the barrier
    [while not (x done and y done) and not CENTER pressed: wait(5)]
    finds the motors busy, and the angles the X and Y motors report. *)
Record move_env : Type := {
  barrier_waits : nat;
  x_angle : Z;
  y_angle : Z
}.

(** Python's [a / b] on floats. *)
Definition truediv (a b : float) : Py.result float :=
  if (b =? 0)%float then Py.Raise Py.ZeroDivisionError else Py.Ok (a / b)%float.

Definition move (env : move_env) (x y z prev_x prev_y prev_z : float)
  (command : string) : P unit :=
  self ← get_self;
  let speeds :=
    if String.eqb command "G1" then
      Some (_calculate_velocity_components prev_x prev_y x y (xy_speed self))
    else if String.eqb command "G0" then
      Some (_calculate_velocity_components prev_x prev_y x y
              (xy_speed self * max_xy_speed_multiplier self)%float)
    else None in
  x ← lift (x' ← truediv x (x_mm_per_degree self); Py.int x');
  y ← lift (y' ← truediv y (y_mm_per_degree self); Py.int y');
  z ← lift (z' ← truediv z (z_mm_per_degree self); Py.int z');
  '(x_speed, y_speed) ←
    match speeds with
    | Some v => mret v
    | None => raise Py.NameError
    end;
  (if (prev_z <? Py.float_of_Z z)%float
   then emit (run_target z_motor (z_speed self) z BRAKE true)
   else mret tt);;
  wait_loop 5 (barrier_waits env);;
  (if (2 <? abs x_speed)%float && (2 <? Z.abs (x_angle env - x))
   then emit (run_target x_motor x_speed x HOLD false)
   else mret tt);;
  (if (2 <? abs y_speed)%float && (2 <? Z.abs (y_angle env - y))
   then emit (run_target y_motor y_speed y HOLD false)
   else mret tt);;
  (if (Py.float_of_Z z <? prev_z)%float
   then emit (run_target z_motor (z_speed self) z BRAKE true)
   else mret tt).

(** ** Homing *)

(** How many polls each seek of [home] makes before its touch sensor
    reports contact. *)
Record home_env : Type := {
  x_coarse_waits : nat;
  x_fine_waits : nat;
  y_coarse_waits : nat;
  y_fine_waits : nat;
  z_coarse_waits : nat;
  z_fine_waits : nat
}.

Definition home_xy (motor : motor) (coarse fine : nat) : P unit :=
  self ← get_self;
  emit (run motor (-2.5 * xy_speed self)%float);;
  wait_loop 5 coarse;;
  emit (brake motor);;
  emit (run_angle motor (xy_speed self) 45 BRAKE true);;
  emit (run motor (-0.5 * xy_speed self)%float);;
  wait_loop 5 fine;;
  emit (hold motor).

Definition offset (motor : motor) (offset speed : float) : P unit :=
  (if negb (offset =? 0)%float then
     emit (run_angle motor speed offset HOLD true);;
     emit (wait 500)
   else mret tt);;
  emit (reset_angle motor 0);;
  emit (stop motor).

Definition home_z (motor : motor) (coarse fine : nat) : P unit :=
  self ← get_self;
  emit (run motor (- z_speed self)%float);;
  wait_loop 5 coarse;;
  emit (brake motor);;
  emit (run_angle motor (z_speed self) 8 BRAKE true);;
  emit (run motor (-0.25 * z_speed self)%float);;
  wait_loop 5 fine;;
  emit (hold motor).

Definition Z_offset_up : float := 18.
Definition X_offset : float := 290.
Definition Y_offset : float := 0.
Definition Z_offset_down : float := -11.25.

(** The four offset steps that end [home]. *)
Definition home_offsets : P unit :=
  self ← get_self;
  offset z_motor Z_offset_up (z_speed self);;
  offset x_motor X_offset (xy_speed self);;
  offset y_motor Y_offset (xy_speed self);;
  offset z_motor Z_offset_down (z_speed self).

Definition home (env : home_env) : P unit :=
  emit (draw_centered_text TextHoming);;
  home_xy x_motor (x_coarse_waits env) (x_fine_waits env);;
  home_xy y_motor (y_coarse_waits env) (y_fine_waits env);;
  home_z z_motor (z_coarse_waits env) (z_fine_waits env);;
  home_offsets.

(** ** Counting actuations *)

(** [n] calls of the same method in a row. *)
Fixpoint calls (n : nat) (m : P unit) : P unit :=
  match n with
  | O => mret tt
  | S n' => m;; calls n' m
  end.

(** The physical sequences of the extruder. *)
Definition engage_sequence (self : Printer) : list event :=
  [run_until_stalled e_motor (e_speed self) HOLD 40; wait 450].

Definition disengage_sequence (self : Printer) : list event :=
  [run_until_stalled e_motor (- e_speed self) BRAKE 40].

(** How often a trace drives the extruder motor to a stall. *)
Definition actuations (tr : list event) : nat :=
  length (List.filter
            (λ e, match e with run_until_stalled e_motor _ _ _ => true | _ => false end)
            tr).

(** [a] and [b] differ by at most [tol]. *)
Definition within (tol a b : float) : bool := (abs (a - b) <=? tol)%float.

(** The commands that start the X or the Y motor toward a target. *)
Definition is_xy_command (e : event) : bool :=
  match e with
  | run_target x_motor _ _ _ _ | run_target y_motor _ _ _ _ => true
  | _ => false
  end.

End Printer.

(* ===================================================================== *)
(** * main.py: the print loop                                             *)
(* ===================================================================== *)

Module Main.

Import GCode Printer.

(** What the hardware shows while one line is processed: whether the
    centre button alone is pressed at the top of the iteration, how many
    polls pass until the buttons are released after a stop, and what
    [Printer.move] reads. *)
Record line_env : Type := {
  center_pressed : bool;
  release_waits : nat;
  motion : move_env
}.

(** The driver's variables that outlive an iteration. *)
Record locals : Type := {
  processor : GCodeProcessor;
  current_x : float;
  current_y : float;
  current_z : float
}.

Section PrintLoop.

Variable py_float : string -> option float.
(** The hardware, by line number. *)
Variable env : nat -> line_env.
Variable total_lines : nat.

(** The body of [if parsed_output:], for the dictionary [d] that
    [parse_line] returned. *)
Definition execute (line_count : nat) (d : parsed_data) (st : locals)
  : P locals :=
  let target_x := default (current_x st) (coord_X d) in
  let target_y := default (current_y st) (coord_Y d) in
  let target_z := default (current_z st) (coord_Z d) in
  let should_extrude := GCode.extruding d in
  (if should_extrude then extrude should_extrude else mret tt);;
  move (motion (env line_count)) target_x target_y target_z
    (current_x st) (current_y st) (current_z st) (command d);;
  (if negb should_extrude then extrude should_extrude else mret tt);;
  (if negb should_extrude then
     emit (draw_centered_text TextPrinting);;
     emit (draw_centered_text (TextPercent line_count total_lines))
   else mret tt);;
  mret {| processor := processor st;
          current_x := target_x;
          current_y := target_y;
          current_z := target_z |}.

(** [for line in lines:], with [line_count] lines already read. *)
Fixpoint for_lines (lines : list string) (line_count : nat) (st : locals)
  : P locals :=
  match lines with
  | [] => mret st
  | line :: rest =>
      let line_count := S line_count in
      if center_pressed (env line_count) then
        emit (draw_centered_text TextStopped);;
        emit beep;;
        wait_loop 100 (release_waits (env line_count));;
        mret st
      else
        let '(parsed_output, processor', _) :=
          parse_line py_float line (Z.of_nat line_count) (processor st) in
        let st := {| processor := processor';
                     current_x := current_x st;
                     current_y := current_y st;
                     current_z := current_z st |} in
        match parsed_output with
        | Some d =>
            st ← execute line_count d st;
            for_lines rest line_count st
        | None => for_lines rest line_count st
        end
  end.

End PrintLoop.

(** The job up to the end of the loop: the first progress display, which
    divides by the number of lines, then the loop over the lines. *)
Definition print_loop (py_float : string -> option float)
  (env : nat -> line_env) (lines : list string) (p : GCodeProcessor)
  : P locals :=
  let total_lines := length lines in
  emit (draw_centered_text TextPrinting);;
  (if Nat.eqb total_lines 0 then raise Py.ZeroDivisionError
   else emit (draw_centered_text (TextPercent 0 total_lines)));;
  for_lines py_float env total_lines lines 0
    {| processor := p; current_x := 0; current_y := 0; current_z := 0 |}.

(** The job: the loop, then [printer.extrude(False)]. *)
Definition print_job (py_float : string -> option float)
  (env : nat -> line_env) (lines : list string) (p : GCodeProcessor)
  : P locals :=
  st ← print_loop py_float env lines p;
  extrude false;;
  mret st.

(** Whether [int(v / ratio)] returns, that is, whether the coordinate [v]
    has a position in degrees. *)
Definition converts (ratio v : float) : bool :=
  match q ← truediv v ratio; Py.int q with
  | Py.Ok _ => true
  | Py.Raise _ => false
  end.

(** Whether the coordinates that a line carries all have a position in
    degrees on the printer [self]. *)
Definition line_converts (py_float : string -> option float) (self : Printer)
  (gcode_line : string) : bool :=
  let raw := raw_params_of py_float gcode_line in
  from_option (converts (x_mm_per_degree self)) true (raw !! "X"%char)
  && from_option (converts (y_mm_per_degree self)) true (raw !! "Y"%char)
  && from_option (converts (z_mm_per_degree self)) true (raw !! "Z"%char).

(** A printer at rest: no button pressed, the motors at angle zero, and
    one poll of the barrier before each move. *)
Definition idle : nat -> line_env :=
  fun _ => {| center_pressed := false; release_waits := 0;
              motion := {| barrier_waits := 1; x_angle := 0; y_angle := 0 |} |}.

End Main.

(* ===================================================================== *)
(** * Vocabulary for the properties of lines, motion and the job         *)
(* ===================================================================== *)

Module Lines.

(** A string of whitespace only. *)
Fixpoint all_space (s : string) : bool :=
  match s with
  | EmptyString => true
  | String c s' => Py.isspace c && all_space s'
  end.

(** Whether the loop over the parts ends at this part: a part of two
    characters or more that starts with a letter and whose rest [float]
    rejects. *)
Definition rejected (py_float : string → option float) (part : string) : bool :=
  match Py.strip part with
  | String c value_text =>
      (Py.len (Py.strip part) >=? 2)
      && Py.is_upper_letter (Py.upper_char c)
      && match py_float value_text with Some _ => false | None => true end
  | EmptyString => false
  end.

(** Whether the part starts with the letter [k], in either case. *)
Definition names (k : ascii) (part : string) : bool :=
  match Py.strip part with
  | String c _ => Ascii.eqb (Py.upper_char c) k
  | EmptyString => false
  end.

End Lines.

Module Motion.
Import Printer.

(** The commands that set a motor in motion. *)
Definition drives (m : motor) (e : event) : bool :=
  match e with
  | run m' _ | run_target m' _ _ _ _ | run_angle m' _ _ _ _
  | run_until_stalled m' _ _ _ =>
      match m, m' with
      | x_motor, x_motor | y_motor, y_motor | z_motor, z_motor
      | e_motor, e_motor => true
      | _, _ => false
      end
  | _ => false
  end.

(** [extrude] called with each of [wants], in order. *)
Fixpoint extrude_all (wants : list bool) : P unit :=
  match wants with
  | [] => mret tt
  | want :: rest => extrude want;; extrude_all rest
  end.

(** How often the wanted state differs from the state before it. *)
Fixpoint flips (state : bool) (wants : list bool) : nat :=
  match wants with
  | [] => 0%nat
  | want :: rest => ((if Bool.eqb want state then 0 else 1) + flips want rest)%nat
  end.

(** Where a trace leaves the button of the pen, from where it was: a run
    to the stall that holds presses it, one that brakes releases it. *)
Fixpoint pen_pressed (pressed : bool) (tr : list event) : bool :=
  match tr with
  | [] => pressed
  | run_until_stalled e_motor _ HOLD _ :: rest => pen_pressed true rest
  | run_until_stalled e_motor _ BRAKE _ :: rest => pen_pressed false rest
  | _ :: rest => pen_pressed pressed rest
  end.

(** How many commands of a trace set the motor [m] in motion. *)
Definition count (m : motor) (tr : list event) : nat :=
  length (List.filter (drives m) tr).

End Motion.

Module Flight.
Import Printer.

(** The events of one call of [move] that returns, for the targets in
    degrees and the speeds it has computed: Z first when it rises, the
    polls of the barrier, the X and the Y command, started without
    waiting for them, and Z last when it sinks. *)
Definition issued (env : move_env) (self : Printer) (prev_z : float)
  (x_speed y_speed : float) (xd yd zd : Z) : list event :=
  (if (prev_z <? Py.float_of_Z zd)%float
   then [run_target z_motor (z_speed self) zd BRAKE true] else [])
  ++ repeat (wait 5) (barrier_waits env)
  ++ (if (2 <? abs x_speed)%float && (2 <? Z.abs (x_angle env - xd))
      then [run_target x_motor x_speed xd HOLD false] else [])
  ++ (if (2 <? abs y_speed)%float && (2 <? Z.abs (y_angle env - yd))
      then [run_target y_motor y_speed yd HOLD false] else [])
  ++ (if (Py.float_of_Z zd <? prev_z)%float
      then [run_target z_motor (z_speed self) zd BRAKE true] else []).

(** Whether a trace releases the pen directly behind a command that was
    started with [wait=False]: nothing waits for that motion before the
    extruder motor is driven back. *)
Fixpoint released_in_flight (tr : list event) : bool :=
  match tr with
  | [] => false
  | run_target _ _ _ _ false :: rest =>
      match rest with
      | run_until_stalled e_motor _ BRAKE _ :: _ => true
      | _ => released_in_flight rest
      end
  | _ :: rest => released_in_flight rest
  end.

End Flight.

Module Axes.
Import Printer.

(** Whether an event is a call on the motor [m]. *)
Definition concerns (m : motor) (e : event) : bool :=
  match e with
  | run m' _ | run_target m' _ _ _ _ | run_angle m' _ _ _ _
  | run_until_stalled m' _ _ _ | brake m' | hold m' | stop m'
  | reset_angle m' _ =>
      match m, m' with
      | x_motor, x_motor | y_motor, y_motor | z_motor, z_motor
      | e_motor, e_motor => true
      | _, _ => false
      end
  | _ => false
  end.

(** The calls that a trace makes on the motor [m], in order. *)
Definition calls_on (m : motor) (tr : list event) : list event :=
  List.filter (concerns m) tr.

End Axes.

Module Job.
Import GCode Printer Main.

(** The values that the G0 and G1 lines give to the letter [k], in order. *)
Definition axis_seen (py_float : string → option float) (k : ascii)
  (lines : list string) : list float :=
  omap (λ l, if is_move l then raw_params_of py_float l !! k else None) lines.

(** What the loop does when it sees the centre button: the message, the
    beep, and the wait for the release. *)
Definition stopped (e : line_env) : P unit :=
  emit (draw_centered_text TextStopped);;
  emit beep;;
  wait_loop 100 (release_waits e).

(** The lines that the loop reads: those before the first line at which
    the centre button is seen. *)
Fixpoint lines_read (env : nat → line_env) (lines : list string)
  (line_count : nat) : list string :=
  match lines with
  | [] => []
  | line :: rest =>
      if center_pressed (env (S line_count)) then []
      else line :: lines_read env rest (S line_count)
  end.

End Job.

(* ===================================================================== *)
(** * [gcode_handler.py]: finding the G-code files                        *)
(* ===================================================================== *)

Module Files.

(** [s.endswith(suffix)] *)
Definition endswith (s suffix : string) : bool :=
  let n := String.length s in
  let m := String.length suffix in
  (m <=? n)%nat && String.eqb (String.substring (n - m) m s) suffix.

(** The fields of the processor that [find_gcode_files] reads. *)
Record GCodeProcessor : Type := {
  gcode_extension : string;
  models_dir : string;
  models_dir_valid : bool;
  verbose : Z
}.

(** What [_log] is asked to print, one constructor per call site. *)
Inductive log_msg : Type :=
| LookingFor (gcode_extension models_dir : string)
| DirectoryFound (models_dir : string)
| DirectoryNotValid (models_dir : string)
| EnsureSubdirectory (models_dir : string)
| Initialized
| ErrorAccessingPath (path : string)
| NotRegularFile (path : string)
| ErrorAccessingFile (path : string)
| Scanning (models_dir : string)
| ItemsFound (items : list string)
| MatchFound (item : string)
| ErrorScanning (models_dir : string)
| NoFilesFound (gcode_extension : string)
| FoundFiles (n : nat).

(** A method that prints: its result and what it printed. *)
Definition W (A : Type) : Type := A * list log_msg.

#[export] Instance W_ret : MRet W := λ A a, (a, []).

#[export] Instance W_bind : MBind W := λ A B f m,
  let '(a, out1) := m in
  let '(b, out2) := f a in
  (b, out1 ++ out2).

Definition _log (self_verbose level : Z) (message : log_msg) : W unit :=
  (tt, if self_verbose >=? level then [message] else []).

Section Os.

(** [os.stat(path)[0]], the mode of the path, and [os.listdir(path)];
    [None] is [OSError].  The masks [0o170000], [0o040000] and [0o100000]
    of the source are written in hexadecimal. *)
Variable os_stat : string → option Z.
Variable os_listdir : string → option (list string).

Definition _is_directory (self_verbose : Z) (path : string) : W bool :=
  match os_stat path with
  | Some st_mode => mret (Z.land st_mode 0xF000 =? 0x4000)
  | None =>
      _log self_verbose GCode.LOG_ERROR (ErrorAccessingPath path);;
      mret false
  end.

Definition _is_file (self_verbose : Z) (path : string) : W bool :=
  match os_stat path with
  | Some st_mode =>
      let is_file := Z.land st_mode 0xF000 =? 0x8000 in
      (if negb is_file
       then _log self_verbose GCode.LOG_DEBUG (NotRegularFile path)
       else mret tt);;
      mret is_file
  | None =>
      _log self_verbose GCode.LOG_ERROR (ErrorAccessingFile path);;
      mret false
  end.

Definition __init__ (models_subdir gcode_extension : string) (verbose : Z)
  : W GCodeProcessor :=
  let gcode_extension := Py.lower gcode_extension in
  _log verbose GCode.LOG_DEBUG (LookingFor gcode_extension models_subdir);;
  is_dir ← _is_directory verbose models_subdir;
  (if is_dir : bool then
     _log verbose GCode.LOG_DEBUG (DirectoryFound models_subdir)
   else
     _log verbose GCode.LOG_ERROR (DirectoryNotValid models_subdir);;
     _log verbose GCode.LOG_ERROR (EnsureSubdirectory models_subdir));;
  _log verbose GCode.LOG_INFO Initialized;;
  mret {| gcode_extension := gcode_extension;
          models_dir := models_subdir;
          models_dir_valid := is_dir;
          verbose := verbose |}.

(** [item if self.models_dir == '.' else self.models_dir + '/' + item] *)
Definition full_path (self : GCodeProcessor) (item : string) : string :=
  if String.eqb (models_dir self) "." then item
  else (models_dir self ++ "/" ++ item)%string.

(** The [for item in items] loop. *)
Fixpoint for_items (self : GCodeProcessor) (items gcode_files : list string)
  : W (list string) :=
  match items with
  | [] => mret gcode_files
  | item :: rest =>
      if endswith (Py.lower item) (gcode_extension self) then
        is_file ← _is_file (verbose self) (full_path self item);
        if is_file : bool then
          _log (verbose self) GCode.LOG_DEBUG (MatchFound item);;
          for_items self rest (gcode_files ++ [item])
        else for_items self rest gcode_files
      else for_items self rest gcode_files
  end.

Definition find_gcode_files (self : GCodeProcessor) : W (list string) :=
  if negb (models_dir_valid self) then mret []
  else
    _log (verbose self) GCode.LOG_DEBUG (Scanning (models_dir self));;
    match os_listdir (models_dir self) with
    | Some items =>
        _log (verbose self) GCode.LOG_DEBUG (ItemsFound items);;
        gcode_files ← for_items self items [];
        (match gcode_files with
         | [] => _log (verbose self) GCode.LOG_INFO (NoFilesFound (gcode_extension self))
         | _ => _log (verbose self) GCode.LOG_INFO (FoundFiles (length gcode_files))
         end);;
        mret gcode_files
    | None =>
        _log (verbose self) GCode.LOG_ERROR (ErrorScanning (models_dir self));;
        mret []
    end.

(** Whether [os.stat] shows a regular file at the path. *)
Definition regular (path : string) : bool :=
  match os_stat path with
  | Some st_mode => Z.land st_mode 0xF000 =? 0x8000
  | None => false
  end.

(** Whether [os.stat] shows a directory at the path. *)
Definition directory (path : string) : bool :=
  match os_stat path with
  | Some st_mode => Z.land st_mode 0xF000 =? 0x4000
  | None => false
  end.

(** The test that [find_gcode_files] makes on an item of the listing. *)
Definition is_gcode_file (self : GCodeProcessor) (item : string) : bool :=
  endswith (Py.lower item) (gcode_extension self)
  && regular (full_path self item).

End Os.

(** A file system for the examples: the directory [models] holds three
    regular files, a subdirectory and a name that [os.stat] fails on. *)
Definition example_stat (path : string) : option Z :=
  if String.eqb path "models" then Some 0x41ED
  else if String.eqb path "models/cube.gcode" then Some 0x81A4
  else if String.eqb path "models/Ring.GCODE" then Some 0x81A4
  else if String.eqb path "models/notes.txt" then Some 0x81A4
  else if String.eqb path "models/old.gcode" then Some 0x41ED
  else None.

Definition example_listdir (path : string) : option (list string) :=
  if String.eqb path "models"
  then Some ["cube.gcode"; "notes.txt"; "Ring.GCODE"; "old.gcode"; "gone.gcode"]%string
  else None.

End Files.

(* ===================================================================== *)
(** * [printer.py]: the screen and the buttons                            *)
(* ===================================================================== *)

Module Panel.

(** The buttons of the brick. *)
Inductive Button : Type := LEFT | RIGHT | UP | DOWN | CENTER.

#[export] Instance Button_eq_dec : EqDecision Button.
Proof. solve_decision. Defined.

(** The calls on the screen and the speaker, the timed waits, the
    commands to the motors that [Printer.event] has, and [dc], which
    only the manual control uses.  What the methods print on the console
    is left out. *)
Inductive event : Type :=
| clear
| draw_text (x y : Z) (text : string)
| beep (frequency duration : Z)
| wait (time : Z)
| machine (e : Printer.event)
| dc (m : Printer.motor) (duty : Z).

(** One turn of a loop that waits for the buttons: how many polls find
    no button pressed, what [pressed()] returns when it is read after
    them, and how many polls pass until the buttons are released. *)
Record round : Type := {
  idle_polls : nat;
  pressed_buttons : list Button;
  release_polls : nat
}.

(** [while <condition>: wait(100)], for the polls that the turn gives. *)
Definition polls (n : nat) : list event := repeat (wait 100) n.

(** [available_files[i]]; [None] is [IndexError]. *)
Definition getitem (available_files : list string) (i : Z) : option string :=
  let n := Z.of_nat (length available_files) in
  if (0 <=? i) && (i <? n) then available_files !! Z.to_nat i
  else if (- n <=? i) && (i <? 0) then available_files !! Z.to_nat (n + i)
  else None.

(** How [file_selector] ends: with an index, in an exception, or, when
    the turns run out, still waiting for a button. *)
Inductive selection : Type :=
| Selected (selected_file_index : Z)
| Waiting
| IndexError
| ZeroDivisionError.

Section Screen.

(** [self.screen.width], [self.screen.height], [self.font_size], and
    [self.font.text_width], where [None] is an exception. *)
Variable screen_width screen_height font_size : Z.
Variable text_width : string → option Z.

(** The width that [draw_centered_text] takes the text to have: the
    font's, or eight pixels a character when the font raises. *)
Definition text_width_pixels (text : string) : Z :=
  match text_width text with
  | Some w => w
  | None => Py.len text * 8
  end.

(** The point at which [draw_centered_text] draws. *)
Definition text_position (text : string) (line : Z) : Z * Z :=
  let x := (screen_width - text_width_pixels text) / 2 in
  let y := (screen_height - font_size) / 2 + line * font_size in
  (Z.max 0 x, Z.max 0 y).

Definition draw_centered_text (text : string) (do_clear : bool) (line : Z)
  : list event :=
  (if do_clear then [clear] else [])
  ++ [draw_text (text_position text line).1 (text_position text line).2 text].

(** The helper [draw_file] of [file_selector]. *)
Definition draw_file (file_name : string) : list event :=
  draw_centered_text "Select file:" true (-2)
  ++ draw_centered_text file_name false 0.

(** The [while True] loop of [file_selector]. *)
Fixpoint while_true (available_files : list string) (selected_file_index : Z)
  (rounds : list round) : selection * list event :=
  match rounds with
  | [] => (Waiting, [])
  | r :: rest =>
      let len := Z.of_nat (length available_files) in
      let turn (delta : Z) :=
        if len =? 0 then (ZeroDivisionError, polls (idle_polls r))
        else
          let selected_file_index := (selected_file_index + delta) mod len in
          match getitem available_files selected_file_index with
          | Some file_name =>
              let '(s, tr) := while_true available_files selected_file_index rest in
              (s, polls (idle_polls r) ++ draw_file file_name
                  ++ polls (release_polls r) ++ tr)
          | None => (IndexError, polls (idle_polls r))
          end in
      if bool_decide (LEFT ∈ pressed_buttons r) then turn (-1)
      else if bool_decide (RIGHT ∈ pressed_buttons r) then turn 1
      else if bool_decide (CENTER ∈ pressed_buttons r) then
        match getitem available_files selected_file_index with
        | Some file_name =>
            (Selected selected_file_index,
             polls (idle_polls r)
             ++ draw_centered_text "Selected:" true (-2)
             ++ draw_centered_text file_name false 0
             ++ [beep 750 50; wait 50; beep 1000 50]
             ++ polls (release_polls r))
        | None =>
            (IndexError,
             polls (idle_polls r) ++ draw_centered_text "Selected:" true (-2))
        end
      else
        let '(s, tr) := while_true available_files selected_file_index rest in
        (s, polls (idle_polls r) ++ tr)
  end.

Definition file_selector (available_files : list string) (rounds : list round)
  : selection * list event :=
  match getitem available_files 0 with
  | Some file_name =>
      let '(s, tr) := while_true available_files 0 rounds in
      (s, draw_file file_name ++ tr)
  | None => (IndexError, [])
  end.

End Screen.

(** What a turn does to the index: LEFT is looked at before RIGHT. *)
Definition moves (r : round) : Z :=
  if bool_decide (LEFT ∈ pressed_buttons r) then -1
  else if bool_decide (RIGHT ∈ pressed_buttons r) then 1
  else 0.

(** Whether a turn selects: CENTER counts only without LEFT and RIGHT. *)
Definition confirms (r : round) : bool :=
  negb (bool_decide (LEFT ∈ pressed_buttons r))
  && negb (bool_decide (RIGHT ∈ pressed_buttons r))
  && bool_decide (CENTER ∈ pressed_buttons r).

(** The turns before the first that selects. *)
Fixpoint before_confirm (rounds : list round) : list round :=
  match rounds with
  | [] => []
  | r :: rest => if confirms r then [] else r :: before_confirm rest
  end.

(** The sum of the moves of the turns. *)
Fixpoint net_moves (rounds : list round) : Z :=
  match rounds with
  | [] => 0
  | r :: rest => moves r + net_moves rest
  end.

End Panel.

(* ===================================================================== *)
(** * [main.py]: from the start of the script to the chosen file          *)
(* ===================================================================== *)

Module Startup.
Import Files Panel.

(** How the script gets on before it opens a file: it ends because
    [available_files] is empty, it shows that no files were found and
    exits, it is still in the selector, the selector raised, the index
    was refused, or a file is chosen. *)
Inductive chosen : Type :=
| NothingFound
| NoFilesShown
| StillSelecting
| SelectorRaised
| InvalidIndex
| Chosen (selected_file full_path : string).

Section Script.

Variable os_stat : string → option Z.
Variable os_listdir : string → option (list string).
Variable screen_width screen_height font_size : Z.
Variable text_width : string → option Z.

(** The script from [available_files = processor.find_gcode_files()] to
    [full_path = ...]; [exit_polls] is for the wait before [exit()].  The
    speaker's [beep()] is the library's [beep(500, 100)]. *)
Definition choose (processor : Files.GCodeProcessor) (rounds : list round)
  (exit_polls : nat) : chosen * list event :=
  let available_files := (find_gcode_files os_stat os_listdir processor).1 in
  match available_files with
  | [] => (NothingFound, [])
  | _ :: _ =>
      if 0 <? Z.of_nat (length available_files) then
        let '(s, tr) :=
          file_selector screen_width screen_height font_size text_width
            available_files rounds in
        match s with
        | Selected selected_file_index =>
            if (0 <=? selected_file_index)
               && (selected_file_index <? Z.of_nat (length available_files))
            then
              match getitem available_files selected_file_index with
              | Some selected_file =>
                  (Chosen selected_file (Files.full_path processor selected_file), tr)
              | None => (SelectorRaised, tr)
              end
            else (InvalidIndex, tr)
        | Waiting => (StillSelecting, tr)
        | IndexError | ZeroDivisionError => (SelectorRaised, tr)
        end
      else
        (NoFilesShown,
         draw_centered_text screen_width screen_height font_size text_width
           "No files found." true 0
         ++ [beep 500 100] ++ polls exit_polls)
  end.

End Script.

End Startup.

(* ===================================================================== *)
(** * [printer.py]: priming the extruder                                  *)
(* ===================================================================== *)

Module Priming.
Import Panel.

(** What the buttons show during [prime_extruder]: the polls before a
    button is pressed, what [pressed()] returns then, and whether CENTER
    is among the buttons read after second [i] of the countdown. *)
Record priming_env : Type := {
  ready_polls : nat;
  ready_pressed : list Button;
  center_after : nat → bool
}.

(** The commands to the motors in a trace. *)
Definition motor_events (tr : list event) : list Printer.event :=
  omap (λ e, match e with machine e => Some e | _ => None end) tr.

Section Method.

Variable screen_width screen_height font_size : Z.
Variable text_width : string → option Z.
(** [self.wait_time] *)
Variable wait_time : Z.
Variable env : priming_env.

(** [for i in range(self.wait_time)], with [remaining] values of [i]
    still to come. *)
Fixpoint countdown (remaining i : nat) : list event :=
  match remaining with
  | O => []
  | S remaining' =>
      draw_centered_text screen_width screen_height font_size text_width
        "Heating Nozzle..." true (-1)
      ++ draw_centered_text screen_width screen_height font_size text_width
           (pretty (wait_time - Z.of_nat i) +:+ " seconds left") false 1
      ++ [wait 1000]
      ++ (if center_after env i then [] else countdown remaining' (S i))
  end.

(** Neither [_start_extruding] nor [_stop_extruding] raises, so the
    method is given by the printer it leaves and the trace. *)
Definition prime_extruder (self : Printer.Printer) : Printer.Printer * list event :=
  let prompt :=
    draw_centered_text screen_width screen_height font_size text_width
      "Is the pen ready?" true (-1)
    ++ draw_centered_text screen_width screen_height font_size text_width
         "YES            NO" false 1
    ++ polls (ready_polls env) in
  let '(self', primed) :=
    if bool_decide (RIGHT ∈ ready_pressed env) then
      let r := (Printer._start_extruding;; Printer._stop_extruding) self in
      (Printer.final r,
       map machine (Printer.trace r) ++ countdown (Z.to_nat wait_time) 0)
    else
      let r := Printer._stop_extruding self in
      (Printer.final r, map machine (Printer.trace r)) in
  (self',
   prompt ++ primed
   ++ draw_centered_text screen_width screen_height font_size text_width
        "Extruder primed." true 0
   ++ [wait 1000; clear]).

End Method.

End Priming.

(* ===================================================================== *)
(** * [manual.py]: moving the axes by hand                                *)
(* ===================================================================== *)

Module Manual.
Import Panel.

(** The two modes of the script: the buttons move X and Y, or the
    extruder and Z. *)
Inductive mode : Type := XY | EZ.

Definition other (m : mode) : mode :=
  match m with XY => EZ | EZ => XY end.

(** One turn of a mode's loop: the polls before a button is pressed, the
    buttons read then, and the polls of the three loops that wait for the
    release, after LEFT or RIGHT, after UP or DOWN, and after CENTER. *)
Record turn_env : Type := {
  idle_polls : nat;
  pressed_buttons : list Button;
  horizontal_release : nat;
  vertical_release : nat;
  center_release : nat
}.

(** [while ...: wait(10)] *)
Definition polls10 (n : nat) : list event := repeat (wait 10) n.

(** [motor.dc(duty)], the wait for the release, [motor.brake()]. *)
Definition jog (m : Printer.motor) (duty : Z) (release : nat) : list event :=
  [dc m duty] ++ polls10 release ++ [machine (Printer.brake m)].

(** The body of a mode's loop. *)
Definition turn (m : mode) (r : turn_env) : list event :=
  let pressed b := bool_decide (b ∈ pressed_buttons r) in
  polls10 (idle_polls r)
  ++ match m with
     | XY =>
         (if pressed LEFT then jog Printer.x_motor (-100) (horizontal_release r)
          else if pressed RIGHT then jog Printer.x_motor 100 (horizontal_release r)
          else [])
         ++ (if pressed UP then jog Printer.y_motor 100 (vertical_release r)
             else if pressed DOWN then jog Printer.y_motor (-100) (vertical_release r)
             else [])
     | EZ =>
         (if pressed LEFT then
            [machine (Printer.run_until_stalled Printer.e_motor 500 Printer.HOLD 40)]
            ++ polls10 (horizontal_release r)
          else if pressed RIGHT then
            [machine (Printer.run_until_stalled Printer.e_motor (-500) Printer.BRAKE 40)]
            ++ polls10 (horizontal_release r)
          else [])
         ++ (if pressed UP then jog Printer.z_motor 100 (vertical_release r)
             else if pressed DOWN then jog Printer.z_motor (-100) (vertical_release r)
             else [])
     end
  ++ (if pressed CENTER then polls10 (center_release r) else []).

(** Whether the turn leaves the mode's loop. *)
Definition switches (r : turn_env) : bool :=
  bool_decide (CENTER ∈ pressed_buttons r).

Section Script.

Variable screen_width screen_height : Z.
Variable text_width : string → option Z.

(** The script creates its printer with [font_size=25]. *)
Definition feedback (m : mode) : list event :=
  let draw := draw_centered_text screen_width screen_height 25 text_width in
  match m with
  | XY => draw "Y+" true (-2) ++ draw "X-             X+" false 0 ++ draw "Y-" false 2
  | EZ => draw "Z+" true (-2) ++ draw "E-             E+" false 0 ++ draw "Z-" false 2
  end.

(** The loops of the script from inside the mode [m], for the turns
    given; the script itself never ends. *)
Fixpoint loops (m : mode) (turns : list turn_env) : list event :=
  match turns with
  | [] => []
  | r :: rest =>
      turn m r
      ++ (if switches r then feedback (other m) ++ loops (other m) rest
          else loops m rest)
  end.

Definition manual (turns : list turn_env) : list event :=
  feedback XY ++ loops XY turns.

End Script.

(** The mode after the turns, by the parity of the turns that read
    CENTER. *)
Definition mode_after (m : mode) (turns : list turn_env) : mode :=
  if Nat.even (length (List.filter switches turns)) then m else other m.

Definition motor_eqb (a b : Printer.motor) : bool :=
  match a, b with
  | Printer.x_motor, Printer.x_motor | Printer.y_motor, Printer.y_motor
  | Printer.z_motor, Printer.z_motor | Printer.e_motor, Printer.e_motor => true
  | _, _ => false
  end.

(** Whether a trace powers one motor at a time with [dc] and brakes it,
    with nothing but waits in between, before anything else happens and
    before the trace ends; [powered] is the motor under power at the
    start. *)
Fixpoint settled (powered : option Printer.motor) (tr : list event) : bool :=
  match tr with
  | [] => match powered with None => true | Some _ => false end
  | e :: rest =>
      match powered, e with
      | None, dc m _ => settled (Some m) rest
      | None, _ => settled None rest
      | Some m, wait _ => settled (Some m) rest
      | Some m, machine (Printer.brake m') => motor_eqb m m' && settled None rest
      | Some _, _ => false
      end
  end.

(** The motors that a trace commands, by [dc] or otherwise. *)
Definition commanded (e : event) : option Printer.motor :=
  match e with
  | dc m _ => Some m
  | machine (Printer.run m _) | machine (Printer.run_target m _ _ _ _)
  | machine (Printer.run_angle m _ _ _ _)
  | machine (Printer.run_until_stalled m _ _ _)
  | machine (Printer.brake m) | machine (Printer.hold m) | machine (Printer.stop m)
  | machine (Printer.reset_angle m _) => Some m
  | _ => None
  end.

(** The motors that belong to a mode. *)
Definition of_mode (md : mode) (m : Printer.motor) : bool :=
  match md, m with
  | XY, Printer.x_motor | XY, Printer.y_motor
  | EZ, Printer.e_motor | EZ, Printer.z_motor => true
  | _, _ => false
  end.

End Manual.

(* ===================================================================== *)
(** * Facts about the order of floats                                     *)
(* ===================================================================== *)

Module FloatFacts.
Import FloatOrder.

(** [SFltb] is the lexicographic order of ranks, away from [nan]. *)
Lemma SFltb_rank (f g : spec_float) :
  SFltb f g = true ↔ ordered f = true ∧ ordered g = true ∧ lex_lt (rank f) (rank g).
Proof.
  unfold SFltb, SFcompare, lex_lt.
  destruct f as [s1|s1| |s1 m1 e1], g as [s2|s2| |s2 m2 e2];
    try destruct s1; try destruct s2; simpl;
    try (split; [intros; discriminate | intros (? & ? & ?); try discriminate; lia]);
    try (split; [intros; repeat split; lia | reflexivity]).
  all: change (Pos.compare_cont Eq m1 m2) with (Pos.compare m1 m2).
  all: destruct (Z.compare_spec e1 e2); simpl;
    try destruct (Pos.compare_spec m1 m2); simpl;
    (split; [intros; try discriminate; repeat split; lia
            | intros (? & ? & ?); try reflexivity; lia]).
Qed.

Lemma ltb_rank (x y : float) :
  (x <? y)%float = true ↔
  ordered (Prim2SF x) = true ∧ ordered (Prim2SF y) = true
  ∧ lex_lt (rank (Prim2SF x)) (rank (Prim2SF y)).
Proof. rewrite FloatAxioms.ltb_spec. apply SFltb_rank. Qed.

Lemma ltb_irrefl (x : float) : (x <? x)%float = false.
Proof.
  destruct (x <? x)%float eqn:H; [|reflexivity].
  apply ltb_rank in H. unfold lex_lt in H. lia.
Qed.

(** When [a] is not above [w] and [w] is below [e], [a] is not above [e]
    either; [nan] is above nothing and below nothing. *)
Lemma ltb_not_above (w a e : float) :
  (w <? a)%float = false → (w <? e)%float = true → (e <? a)%float = false.
Proof.
  intros Hwa Hwe.
  destruct (e <? a)%float eqn:Hea; [|reflexivity].
  apply ltb_rank in Hwe as (Hw & He & Hlt1).
  apply ltb_rank in Hea as (_ & Ha & Hlt2).
  assert (H : (w <? a)%float = true).
  { apply ltb_rank. repeat split; try assumption. unfold lex_lt in *. lia. }
  congruence.
Qed.

(** A distance that is not below the dead zone is not zero, so
    [1.0 / distance] never raises [ZeroDivisionError]. *)
Lemma eqb_zero_ltb (d : float) : (d =? 0)%float = true → (d <? 0.05)%float = true.
Proof.
  rewrite FloatAxioms.eqb_spec, FloatAxioms.ltb_spec.
  set (z := Prim2SF 0). vm_compute in z. subst z.
  set (c := Prim2SF 0.05). vm_compute in c. subst c.
  unfold SFeqb, SFltb, SFcompare.
  destruct (Prim2SF d) as [s|s| |s m e]; try destruct s;
    intros; try discriminate; reflexivity.
Qed.

End FloatFacts.

(* ===================================================================== *)
(** * The line interpreter                                                *)
(* ===================================================================== *)

Module GCodeFacts.
Import GCode.

Ltac unfold_M :=
  unfold mbind, mret, M_bind, M_ret, _log, get_last_e_value, set_last_e_value,
    returned, final, printed in *.

Lemma warnings_app (a b : list log_msg) :
  warnings (a ++ b) = (warnings a + warnings b)%nat.
Proof. unfold warnings. rewrite List.filter_app, length_app. reflexivity. Qed.

Lemma warnings_debug (v level : Z) (m : log_msg) :
  is_warning m = false → warnings (if v >=? level then [m] else []) = 0%nat.
Proof. intros H. destruct (v >=? level); unfold warnings; simpl; rewrite ?H; reflexivity. Qed.

Section Facts.
Variable py_float : string → option float.

Lemma for_parts_scan (parts : list string) (raw : gmap ascii float) (p : GCodeProcessor) :
  returned (for_parts py_float parts raw p) = scan py_float parts raw
  ∧ final (for_parts py_float parts raw p) = p
  ∧ warnings (printed (for_parts py_float parts raw p)) = 0%nat.
Proof.
  revert raw. induction parts as [|part rest IH]; intros raw; [done|].
  cbn [for_parts scan].
  destruct (Py.strip part) as [|c v] eqn:Hs.
  { destruct (Py.len "" >=? 2); apply IH. }
  destruct (Py.len (String c v) >=? 2); cbn [andb]; [|apply IH].
  destruct (Py.is_upper_letter (Py.upper_char c)); [|apply IH].
  destruct (py_float v) as [x|]; [|done].
  specialize (IH (<[Py.upper_char c:=x]> raw)).
  unfold_M.
  destruct (for_parts py_float rest (<[Py.upper_char c:=x]> raw) p) as [[r p'] out].
  cbn [fst snd] in *. destruct IH as (-> & -> & Hw).
  split; [done|]. split; [done|].
  rewrite warnings_app, Hw, warnings_debug; done.
Qed.

Lemma parse_parts_move (cl part0 : string) (params : list string) (n : Z) (p : GCodeProcessor) :
  (String.eqb (Py.upper part0) "G0" || String.eqb (Py.upper part0) "G1")%string = true →
  let raw := (scan py_float params ∅).1 in
  let r := parse_parts py_float cl part0 params n p in
  returned r =
    Some {| command := Py.upper part0;
            extruding := match raw !! "E"%char with
                         | Some e => (last_e_value p <? e)%float
                         | None => false
                         end;
            coord_X := raw !! "X"%char;
            coord_Y := raw !! "Y"%char;
            coord_Z := raw !! "Z"%char |}
  ∧ last_e_value (final r) =
      match raw !! "E"%char with
      | Some e => if (last_e_value p <? e)%float then e else last_e_value p
      | None => last_e_value p
      end
  ∧ verbose (final r) = verbose p
  ∧ warnings (printed r) =
      if (scan py_float params ∅).2 && (verbose p >=? 0) then 1%nat else 0%nat.
Proof.
  intros Hc raw r. subst raw r. unfold parse_parts.
  pose proof (for_parts_scan params ∅ p) as H.
  unfold_M.
  destruct (for_parts py_float params ∅ p) as [[[raw ab] p1] out1].
  cbn [fst snd] in H. destruct H as (<- & -> & Hw).
  cbn [fst snd]. rewrite Hc. unfold LOG_WARN, LOG_DEBUG.
  destruct ab; destruct (raw !! "E"%char) as [e|];
    try destruct (last_e_value p <? e)%float;
    cbn [fst snd verbose last_e_value andb];
    (split; [reflexivity|]); (split; [reflexivity|]); (split; [reflexivity|]);
    rewrite ?warnings_app, Hw;
    repeat match goal with |- context [verbose p >=? ?k] => destruct (verbose p >=? k) end;
    reflexivity.
Qed.

Lemma parse_parts_reset (cl part0 : string) (params : list string) (n : Z) (p : GCodeProcessor) :
  String.eqb (Py.upper part0) "G92" = true →
  let raw := (scan py_float params ∅).1 in
  let r := parse_parts py_float cl part0 params n p in
  returned r = None
  ∧ last_e_value (final r) = default (last_e_value p) (raw !! "E"%char)
  ∧ verbose (final r) = verbose p
  ∧ warnings (printed r) =
      if (scan py_float params ∅).2 && (verbose p >=? 0) then 1%nat else 0%nat.
Proof.
  intros Hc raw r. subst raw r. unfold parse_parts.
  pose proof (for_parts_scan params ∅ p) as H.
  unfold_M.
  destruct (for_parts py_float params ∅ p) as [[[raw ab] p1] out1].
  cbn [fst snd] in H. destruct H as (<- & -> & Hw).
  cbn [fst snd].
  assert (Hm : (String.eqb (Py.upper part0) "G0" || String.eqb (Py.upper part0) "G1")%string = false).
  { apply String.eqb_eq in Hc. rewrite Hc. reflexivity. }
  rewrite Hm, Hc. unfold LOG_WARN, LOG_DEBUG, LOG_INFO.
  destruct ab; destruct (raw !! "E"%char) as [e|];
    cbn [fst snd verbose last_e_value andb default];
    (split; [reflexivity|]); (split; [reflexivity|]); (split; [reflexivity|]);
    rewrite ?warnings_app, Hw;
    repeat match goal with |- context [verbose p >=? ?k] => destruct (verbose p >=? k) end;
    reflexivity.
Qed.

Lemma parse_parts_other (cl part0 : string) (params : list string) (n : Z) (p : GCodeProcessor) :
  (String.eqb (Py.upper part0) "G0" || String.eqb (Py.upper part0) "G1")%string = false →
  String.eqb (Py.upper part0) "G92" = false →
  let r := parse_parts py_float cl part0 params n p in
  returned r = None ∧ final r = p.
Proof.
  intros Hm Hc r. subst r. unfold parse_parts.
  pose proof (for_parts_scan params ∅ p) as H.
  unfold_M.
  destruct (for_parts py_float params ∅ p) as [[[raw ab] p1] out1].
  cbn [fst snd] in H. destruct H as (_ & -> & _).
  cbn [fst snd]. rewrite Hm, Hc.
  destruct ab; split; reflexivity.
Qed.

(** [parse_line] on a line with no part: nothing is returned or changed. *)
Lemma parse_line_blank (line : string) (n : Z) (p : GCodeProcessor) :
  tokens line = [] →
  returned (parse_line py_float line n p) = None
  ∧ final (parse_line py_float line n p) = p
  ∧ warnings (printed (parse_line py_float line n p)) = 0%nat.
Proof.
  unfold tokens, parse_line. intros Ht. unfold_M. unfold LOG_DEBUG.
  destruct (String.eqb _ ""); cbn [fst snd];
    [|rewrite Ht; cbn [fst snd]];
    (split; [reflexivity|]); (split; [reflexivity|]);
    destruct (verbose p >=? 2); reflexivity.
Qed.

(** [parse_line] on a line with parts is [parse_parts] on them, after
    the debug line that announces the parse. *)
Lemma parse_line_parts (line part0 : string) (params : list string) (n : Z) (p : GCodeProcessor) :
  tokens line = part0 :: params →
  ∃ cl,
    let r := parse_parts py_float cl part0 params n p in
    returned (parse_line py_float line n p) = returned r
    ∧ final (parse_line py_float line n p) = final r
    ∧ warnings (printed (parse_line py_float line n p)) = warnings (printed r).
Proof.
  unfold tokens, parse_line. intros Ht.
  set (cl := Py.strip _) in *. exists cl.
  destruct (String.eqb cl "") eqn:He.
  { apply String.eqb_eq in He. rewrite He in Ht. discriminate. }
  rewrite Ht. unfold mbind, M_bind, _log, returned, final, printed.
  destruct (parse_parts py_float cl part0 params n p) as [[r p'] out].
  cbn [fst snd].
  split; [reflexivity|]. split; [reflexivity|].
  rewrite warnings_app. unfold LOG_DEBUG. destruct (verbose p >=? 2); reflexivity.
Qed.

(** The watermark after one line, whatever the line. *)
Lemma parse_line_watermark (line : string) (n : Z) (p : GCodeProcessor) :
  last_e_value (final (parse_line py_float line n p)) =
    if is_move line then
      match raw_params_of py_float line !! "E"%char with
      | Some e => if (last_e_value p <? e)%float then e else last_e_value p
      | None => last_e_value p
      end
    else if is_reset line then
      default (last_e_value p) (raw_params_of py_float line !! "E"%char)
    else last_e_value p.
Proof.
  unfold is_move, is_reset, command_of, raw_params_of.
  destruct (tokens line) as [|part0 params] eqn:Ht.
  { destruct (parse_line_blank line n p Ht) as (_ & -> & _). reflexivity. }
  destruct (parse_line_parts line part0 params n p Ht) as (cl & _ & -> & _).
  destruct (String.eqb (Py.upper part0) "G0" || String.eqb (Py.upper part0) "G1")%string eqn:Hm.
  { destruct (parse_parts_move cl part0 params n p Hm) as (_ & -> & _). reflexivity. }
  destruct (String.eqb (Py.upper part0) "G92") eqn:Hr.
  { destruct (parse_parts_reset cl part0 params n p Hr) as (_ & -> & _). reflexivity. }
  destruct (parse_parts_other cl part0 params n p Hm Hr) as (_ & ->). reflexivity.
Qed.

Lemma parse_lines_cons (line : string) (rest : list string) (n : Z) (p : GCodeProcessor) :
  final (parse_lines py_float (line :: rest) n p) =
    final (parse_lines py_float rest (n + 1) (final (parse_line py_float line n p)))
  ∧ returned (parse_lines py_float (line :: rest) n p) =
      returned (parse_line py_float line n p)
      :: returned (parse_lines py_float rest (n + 1) (final (parse_line py_float line n p))).
Proof.
  cbn [parse_lines]. unfold mbind, M_bind, mret, M_ret, final, returned.
  destruct (parse_line py_float line n p) as [[r p1] out1]. cbn [fst snd].
  destruct (parse_lines py_float rest (n + 1) p1) as [[rs p2] out2]. done.
Qed.

(** The invariant behind the watermark: it stays the highest of what has
    been seen when the lines that follow hold no G92. *)
Lemma running_maximum (lines : list string) (n : Z) (p : GCodeProcessor) (vs : list float) :
  Forall (λ l, is_reset l = false) lines →
  highest (last_e_value p) vs →
  highest (last_e_value (final (parse_lines py_float lines n p)))
          (vs ++ seen_e py_float lines).
Proof.
  revert n p vs. induction lines as [|l ls IH]; intros n p vs Hall Hhi.
  { cbn. rewrite app_nil_r. exact Hhi. }
  apply Forall_cons in Hall as [Hl Hls].
  destruct (parse_lines_cons l ls n p) as [-> _].
  unfold seen_e. cbn [omap list_omap].
  pose proof (parse_line_watermark l n p) as Hw. rewrite Hl in Hw.
  destruct (is_move l).
  - destruct (raw_params_of py_float l !! "E"%char) as [e|].
    + replace (vs ++ e :: omap _ ls) with ((vs ++ [e]) ++ seen_e py_float ls)
        by (rewrite <- app_assoc; reflexivity).
      apply IH; [exact Hls|]. rewrite Hw.
      destruct Hhi as [Hin Hmax].
      destruct (last_e_value p <? e)%float eqn:Hlt; split.
      * apply elem_of_app. right. apply list_elem_of_singleton. reflexivity.
      * intros v [Hv | ->%list_elem_of_singleton]%elem_of_app.
        -- eapply FloatFacts.ltb_not_above; [apply Hmax, Hv | exact Hlt].
        -- apply FloatFacts.ltb_irrefl.
      * apply elem_of_app. left. exact Hin.
      * intros v [Hv | ->%list_elem_of_singleton]%elem_of_app; [apply Hmax, Hv | exact Hlt].
    + apply IH; [exact Hls|]. rewrite Hw. exact Hhi.
  - apply IH; [exact Hls|]. rewrite Hw. exact Hhi.
Qed.

(** A G0 or G1 line: what is returned, the watermark afterwards, and
    the warnings printed, from the raw parameters of the line. *)
Lemma parse_line_move (line : string) (n : Z) (p : GCodeProcessor) :
  is_move line = true →
  let raw := raw_params_of py_float line in
  let r := parse_line py_float line n p in
  returned r =
    Some {| command := default ""%string (command_of line);
            extruding := match raw !! "E"%char with
                         | Some e => (last_e_value p <? e)%float
                         | None => false
                         end;
            coord_X := raw !! "X"%char;
            coord_Y := raw !! "Y"%char;
            coord_Z := raw !! "Z"%char |}
  ∧ last_e_value (final r) =
      match raw !! "E"%char with
      | Some e => if (last_e_value p <? e)%float then e else last_e_value p
      | None => last_e_value p
      end
  ∧ verbose (final r) = verbose p
  ∧ warnings (printed r) =
      if cut_short py_float line && (verbose p >=? 0) then 1%nat else 0%nat.
Proof.
  unfold is_move, command_of, raw_params_of, cut_short.
  destruct (tokens line) as [|part0 params] eqn:Ht; [discriminate|].
  intros Hm. cbn [default].
  destruct (parse_line_parts line part0 params n p Ht) as (cl & -> & -> & ->).
  apply parse_parts_move, Hm.
Qed.

Lemma parse_line_reset (line : string) (n : Z) (p : GCodeProcessor) :
  is_reset line = true →
  let raw := raw_params_of py_float line in
  let r := parse_line py_float line n p in
  returned r = None
  ∧ last_e_value (final r) = default (last_e_value p) (raw !! "E"%char)
  ∧ verbose (final r) = verbose p
  ∧ warnings (printed r) =
      if cut_short py_float line && (verbose p >=? 0) then 1%nat else 0%nat.
Proof.
  unfold is_reset, command_of, raw_params_of, cut_short.
  destruct (tokens line) as [|part0 params] eqn:Ht; [discriminate|].
  intros Hm.
  destruct (parse_line_parts line part0 params n p Ht) as (cl & -> & -> & ->).
  apply parse_parts_reset, Hm.
Qed.

Lemma parse_line_not_move (line : string) (n : Z) (p : GCodeProcessor) :
  is_move line = false → returned (parse_line py_float line n p) = None.
Proof.
  unfold is_move, command_of.
  destruct (tokens line) as [|part0 params] eqn:Ht.
  { intros _. apply (parse_line_blank line n p Ht). }
  intros Hm.
  destruct (parse_line_parts line part0 params n p Ht) as (cl & -> & _).
  destruct (String.eqb (Py.upper part0) "G92") eqn:Hr.
  - apply (parse_parts_reset cl part0 params n p Hr).
  - apply (parse_parts_other cl part0 params n p Hm Hr).
Qed.

End Facts.

Lemma processor_eq (p q : GCodeProcessor) :
  verbose p = verbose q → last_e_value p = last_e_value q → p = q.
Proof. destruct p, q. cbn. intros -> ->. reflexivity. Qed.

(** C2 (what the code does): a part whose value [float] rejects ends the
    loop over the parts, so the parts after it are never read; on
    ["G1 Xfoo Y5"] the command comes back without [X] and without [Y], and
    one warning is printed. *)
Theorem malformed_part_cuts_line_short :
  (∀ (py_float : string → option float) (c : ascii) (v : string)
     (rest : list string) (raw : gmap ascii float) (p : GCodeProcessor),
     Py.strip (String c v) = String c v →
     Py.len (String c v) >= 2 →
     Py.is_upper_letter (Py.upper_char c) = true →
     py_float v = None →
     for_parts py_float (String c v :: rest) raw p = ((raw, true), p, []))
  ∧ (∀ (n v : Z) (w : float),
       let p := {| verbose := v; last_e_value := w |} in
       let r := parse_line Py.float_of_string "G1 Xfoo Y5" n p in
       returned r =
         Some {| command := "G1"; extruding := false;
                 coord_X := None; coord_Y := None; coord_Z := None |}
       ∧ final r = p
       ∧ warnings (printed r) = if v >=? 0 then 1%nat else 0%nat).
Proof.
  split.
  - intros py_float c v rest raw p Hs Hl Hu Hf.
    cbn [for_parts]. rewrite Hs, Hu, Hf.
    destruct (Py.len (String c v) >=? 2) eqn:Hge; [reflexivity|lia].
  - intros n v w p r.
    assert (Hm : is_move "G1 Xfoo Y5" = true) by (vm_compute; reflexivity).
    destruct (parse_line_move Py.float_of_string "G1 Xfoo Y5" n p Hm)
      as (Hr & He & Hv & Hw).
    fold r in Hr, He, Hv, Hw.
    replace (raw_params_of Py.float_of_string "G1 Xfoo Y5") with (∅ : gmap ascii float)
      in Hr, He by (vm_compute; reflexivity).
    replace (cut_short Py.float_of_string "G1 Xfoo Y5") with true
      in Hw by (vm_compute; reflexivity).
    split; [exact Hr|]. split; [|exact Hw].
    apply processor_eq; assumption.
Qed.

(** C10: a part shorter than two characters, or whose first character is
    not a letter A to Z after upcasing, is passed over: the loop goes on
    with the next part, with the same raw parameters and nothing printed.
    On ["G1 X Y5"] the command has [Y] = 5 and no [X], and no warning is
    printed. *)
Theorem short_or_nonletter_part_is_ignored :
  (∀ (py_float : string → option float) (part : string)
     (rest : list string) (raw : gmap ascii float),
     (Py.len (Py.strip part) < 2
      ∨ ∃ c v, Py.strip part = String c v
               ∧ Py.is_upper_letter (Py.upper_char c) = false) →
     for_parts py_float (part :: rest) raw = for_parts py_float rest raw)
  ∧ (∀ (n v : Z) (w : float),
       let p := {| verbose := v; last_e_value := w |} in
       let r := parse_line Py.float_of_string "G1 X Y5" n p in
       returned r =
         Some {| command := "G1"; extruding := false;
                 coord_X := None; coord_Y := Some 5%float; coord_Z := None |}
       ∧ final r = p
       ∧ warnings (printed r) = 0%nat).
Proof.
  split.
  - intros py_float part rest raw H. cbn [for_parts].
    destruct H as [Hlt | (c & v & Hs & Hu)].
    + destruct (Py.len (Py.strip part) >=? 2) eqn:Hge; [lia|reflexivity].
    + rewrite Hs, Hu. destruct (Py.len (String c v) >=? 2); reflexivity.
  - intros n v w p r.
    assert (Hm : is_move "G1 X Y5" = true) by (vm_compute; reflexivity).
    destruct (parse_line_move Py.float_of_string "G1 X Y5" n p Hm)
      as (Hr & He & Hv & Hw).
    fold r in Hr, He, Hv, Hw.
    replace (raw_params_of Py.float_of_string "G1 X Y5")
      with (<["Y"%char := 5%float]> (∅ : gmap ascii float))
      in Hr, He by (vm_compute; reflexivity).
    replace (cut_short Py.float_of_string "G1 X Y5") with false
      in Hw by (vm_compute; reflexivity).
    split; [exact Hr|]. split; [|exact Hw].
    apply processor_eq; assumption.
Qed.

Lemma short_or_nonletter_part_is_ignored_witness :
  for_parts Py.float_of_string ["X"; "Y5"]%string ∅
  = for_parts Py.float_of_string ["Y5"]%string ∅
  ∧ for_parts Py.float_of_string ["5X"; "Y5"]%string ∅
    = for_parts Py.float_of_string ["Y5"]%string ∅.
Proof.
  split.
  - apply (proj1 short_or_nonletter_part_is_ignored). left. vm_compute. reflexivity.
  - apply (proj1 short_or_nonletter_part_is_ignored). right.
    exists "5"%char, "X"%string. split; reflexivity.
Defined.

(** C3 (amended): on a G0 or G1 line [extruding] is true exactly when an
    E parameter was parsed and is strictly above the watermark; then the
    watermark becomes that value, and otherwise it stays.  So, over lines
    that hold no G92, the watermark is the highest of the value it started
    from and the E values that the G0 and G1 lines carried. *)
Theorem extruding_iff_above_watermark (py_float : string → option float) :
  (∀ (p : GCodeProcessor) (line : string) (n : Z),
     is_move line = true →
     let r := parse_line py_float line n p in
     let e := raw_params_of py_float line !! "E"%char in
     ∃ d, returned r = Some d
          ∧ (extruding d = true ↔
             ∃ v, e = Some v ∧ (last_e_value p <? v)%float = true)
          ∧ (∀ v, extruding d = true → e = Some v → last_e_value (final r) = v)
          ∧ (extruding d = false → last_e_value (final r) = last_e_value p))
  ∧ (∀ (p : GCodeProcessor) (lines : list string) (n : Z),
       Forall (λ l, is_reset l = false) lines →
       highest (last_e_value (final (parse_lines py_float lines n p)))
               (last_e_value p :: seen_e py_float lines)).
Proof.
  split.
  - intros p line n Hm r e.
    destruct (parse_line_move py_float line n p Hm) as (Hr & He & _).
    fold r in Hr, He. fold e in Hr, He.
    eexists. split; [exact Hr|]. cbn [extruding].
    destruct e as [v|].
    + destruct (last_e_value p <? v)%float eqn:Hlt.
      * split; [split; [intros _; exists v; done | done]|].
        split; [intros v' _ [= <-]; exact He | discriminate].
      * split; [split; [discriminate | intros (v' & [= <-] & H); congruence]|].
        split; [discriminate | intros _; exact He].
    + split; [split; [discriminate | intros (v' & H & _); discriminate]|].
      split; [discriminate | intros _; exact He].
  - intros p lines n Hall.
    apply (running_maximum py_float lines n p [last_e_value p] Hall).
    split; [apply list_elem_of_singleton; reflexivity|].
    intros v ->%list_elem_of_singleton. apply FloatFacts.ltb_irrefl.
Qed.

Lemma extruding_iff_above_watermark_witness :
  (∃ d, returned (parse_line Py.float_of_string "G1 X10 Y5 E2.5" 1 (__init__ 0)) = Some d
        ∧ (extruding d = true ↔
           ∃ v, raw_params_of Py.float_of_string "G1 X10 Y5 E2.5" !! "E"%char = Some v
                ∧ (last_e_value (__init__ 0) <? v)%float = true)
        ∧ (∀ v, extruding d = true →
                raw_params_of Py.float_of_string "G1 X10 Y5 E2.5" !! "E"%char = Some v →
                last_e_value (final (parse_line Py.float_of_string "G1 X10 Y5 E2.5" 1 (__init__ 0))) = v)
        ∧ (extruding d = false →
           last_e_value (final (parse_line Py.float_of_string "G1 X10 Y5 E2.5" 1 (__init__ 0)))
           = last_e_value (__init__ 0)))
  ∧ highest
      (last_e_value
         (final (parse_lines Py.float_of_string
                   ["G1 X1 E1"; "G1 X2 E3"; "G0 X5"; "G1 X3 E2"]%string 1 (__init__ 0))))
      (last_e_value (__init__ 0)
       :: seen_e Py.float_of_string ["G1 X1 E1"; "G1 X2 E3"; "G0 X5"; "G1 X3 E2"]%string).
Proof.
  split.
  - apply (proj1 (extruding_iff_above_watermark Py.float_of_string)).
    vm_compute. reflexivity.
  - apply (proj2 (extruding_iff_above_watermark Py.float_of_string)).
    repeat (constructor; [vm_compute; reflexivity|]). constructor.
Defined.

(** C3 (as stated, refuted): after ["G92 E5"] the line ["G1 E3"] leaves the
    watermark at 5, which is not among the E values seen through G0 and G1
    since the reset. *)
Lemma watermark_above_every_seen_value :
  let p := final (parse_lines Py.float_of_string ["G92 E5"; "G1 E3"]%string 1 (__init__ 0)) in
  seen_e Py.float_of_string ["G1 E3"]%string = [3%float]
  ∧ last_e_value p = 5%float
  ∧ ¬ highest (last_e_value p) (seen_e Py.float_of_string ["G1 E3"]%string).
Proof.
  cbv zeta.
  replace (seen_e Py.float_of_string ["G1 E3"]%string) with [3%float]
    by (vm_compute; reflexivity).
  replace (last_e_value _) with 5%float by (vm_compute; reflexivity).
  split; [reflexivity|]. split; [reflexivity|].
  intros [Hin _]. apply list_elem_of_singleton in Hin.
  assert (H : (5 =? 5)%float = (5 =? 3)%float) by (rewrite <- Hin; reflexivity).
  vm_compute in H. discriminate.
Qed.

(** C4 (what the code does): a G92 line whose E parameter stands behind a
    part that [float] rejects does not reset the watermark: on
    ["G92 Xfoo E5"] the loop over the parts is left at ["Xfoo"], [E5] is
    never read, the watermark stays where it was and one warning is
    printed; the move to the same E that follows then extrudes. *)
Theorem reset_behind_malformed_part_is_lost :
  let r := parse_line Py.float_of_string "G92 Xfoo E5" 1 (__init__ 0) in
  let rs := parse_lines Py.float_of_string ["G92 Xfoo E5"; "G1 X1 E5"]%string 1
              (__init__ 0) in
  returned r = None
  ∧ final r = __init__ 0
  ∧ warnings (printed r) = 1%nat
  ∧ raw_params_of Py.float_of_string "G92 Xfoo E5" = ∅
  ∧ returned rs =
      [None;
       Some {| command := "G1"; extruding := true; coord_X := Some 1%float;
               coord_Y := None; coord_Z := None |}]
  ∧ last_e_value (final rs) = 5%float.
Proof. vm_compute. repeat split; reflexivity. Qed.

End GCodeFacts.

(* ===================================================================== *)
(** * The extruder, the velocity components, moves and homing            *)
(* ===================================================================== *)

Module PrinterFacts.
Import Printer.

Ltac unfold_P :=
  unfold mbind, mret, P_bind, P_ret, get_self, set_extruding, emit, emits,
    raise, lift, wait_loop, outcome, final, trace in *.

Ltac norm_app :=
  repeat first [rewrite <- app_assoc | rewrite app_nil_r | progress cbn [app]].

(** What one call of [extrude] does, by the state it finds. *)
Lemma extrude_spec (want : bool) (self : Printer) :
  extrude want self =
    (Py.Ok tt, with_extruding want self,
     if want then (if extruding self then [] else engage_sequence self)
     else (if extruding self then disengage_sequence self else [])).
Proof.
  unfold extrude, _start_extruding, _stop_extruding, engage_sequence,
    disengage_sequence. unfold_P.
  destruct self as [a b c d e f g ext].
  destruct want, ext; reflexivity.
Qed.

Lemma with_extruding_same (self : Printer) :
  with_extruding (extruding self) self = self.
Proof. destruct self. reflexivity. Qed.

Lemma calls_extrude (n : nat) (want : bool) (self : Printer) :
  calls (S n) (extrude want) self = extrude want self.
Proof.
  revert self. induction n as [|n IH]; intros self.
  - cbn [calls]. unfold mbind, P_bind, mret, P_ret.
    destruct (extrude want self) as [[[[]|e] s] tr]; [rewrite app_nil_r|]; reflexivity.
  - change (calls (S (S n)) (extrude want)) with (extrude want;; calls (S n) (extrude want)).
    unfold mbind, P_bind. rewrite extrude_spec, IH, extrude_spec.
    destruct self as [a b c d e f g ext].
    destruct want, ext; reflexivity.
Qed.

(** C6: [extrude] does nothing when the extruder is already in the wanted
    state; any number of identical calls in a row does what the first one
    does, so the extruder motor is driven at most once; and two calls of
    [extrude(True)] on an extruder that is off engage it exactly once. *)
Theorem extrude_is_idempotent (self : Printer) (want : bool) (n : nat) :
  (want = extruding self → extrude want self = (Py.Ok tt, self, []))
  ∧ calls (S n) (extrude want) self = extrude want self
  ∧ (actuations (trace (calls n (extrude want) self)) ≤ 1)%nat
  ∧ (extruding self = false →
     trace ((extrude true;; extrude true) self) = engage_sequence self
     ∧ actuations (trace ((extrude true;; extrude true) self)) = 1%nat).
Proof.
  split; [|split; [|split]].
  - intros ->. rewrite extrude_spec, with_extruding_same.
    destruct (extruding self); reflexivity.
  - apply calls_extrude.
  - destruct n as [|n]; [cbn; lia|].
    rewrite calls_extrude, extrude_spec. unfold trace. cbn [snd].
    destruct want, (extruding self); cbn; lia.
  - intros Hoff. unfold mbind, P_bind. rewrite extrude_spec.
    cbv beta iota. rewrite extrude_spec. unfold trace. cbn [snd].
    destruct self as [a b c d e f g ext]. cbn [extruding] in Hoff. subst ext.
    split; reflexivity.
Qed.

Lemma extrude_is_idempotent_witness :
  extrude false __init__ = (Py.Ok tt, __init__, [])
  ∧ trace ((extrude true;; extrude true) __init__) = engage_sequence __init__
  ∧ actuations (trace ((extrude true;; extrude true) __init__)) = 1%nat.
Proof.
  split.
  - apply (proj1 (extrude_is_idempotent __init__ false 0)). reflexivity.
  - apply (proj2 (proj2 (proj2 (extrude_is_idempotent __init__ true 0)))). reflexivity.
Defined.

(** C7: below the dead zone of 0.05 mm the components are (0, 0);
    otherwise each is the displacement times the inverse distance times
    the speed, or 0 when that axis moves by less than 0.05 mm.  From
    (0, 0) to (3, 4) they are the speed times 3 * (1/5) and 4 * (1/5),
    which are 0.6 and 0.8 up to the last binary digit; at the cruise speed
    90 that is (54, 72) up to 1e-12. *)
Theorem velocity_components :
  (∀ current_x current_y target_x target_y target_speed : float,
     let dx := (target_x - current_x)%float in
     let dy := (target_y - current_y)%float in
     let distance := sqrt (dx * dx + dy * dy)%float in
     _calculate_velocity_components current_x current_y target_x target_y target_speed =
       if (distance <? 0.05)%float then (0%float, 0%float)
       else (if (abs dx <? 0.05)%float then 0%float
             else (dx * (1 / distance) * target_speed)%float,
             if (abs dy <? 0.05)%float then 0%float
             else (dy * (1 / distance) * target_speed)%float))
  ∧ (∀ S : float,
       _calculate_velocity_components 0 0 3 4 S =
         ((3 * (1 / 5) * S)%float, (4 * (1 / 5) * S)%float))
  ∧ within 0x1p-52 (3 * (1 / 5)) 0.6 = true
  ∧ within 0x1p-52 (4 * (1 / 5)) 0.8 = true
  ∧ (let v := _calculate_velocity_components 0 0 3 4 (xy_speed __init__) in
     within 1e-12 v.1 (0.6 * 90) = true ∧ within 1e-12 v.2 (0.8 * 90) = true).
Proof.
  split; [|split; [|split; [|split]]].
  - intros. reflexivity.
  - intros S. vm_compute. reflexivity.
  - vm_compute. reflexivity.
  - vm_compute. reflexivity.
  - split; vm_compute; reflexivity.
Qed.

(** The trace of one offset step. *)
Lemma offset_spec (m : motor) (o s : float) (self : Printer) :
  offset m o s self =
    (Py.Ok tt, self,
     if (o =? 0)%float then [reset_angle m 0; stop m]
     else [run_angle m s o HOLD true; wait 500; reset_angle m 0; stop m]).
Proof.
  unfold offset. unfold_P. destruct (o =? 0)%float; reflexivity.
Qed.

Lemma bind_trace {A B} (m : P A) (f : A → P B) (self : Printer) :
  trace ((m ≫= f) self) =
    match outcome (m self) with
    | Py.Ok a => trace (m self) ++ trace (f a (final (m self)))
    | Py.Raise _ => trace (m self)
    end.
Proof.
  unfold mbind, P_bind, trace, outcome, final.
  destruct (m self) as [[[a|e] s] tr]; cbn [fst snd]; [|reflexivity].
  destruct (f a s) as [[r s'] tr']. reflexivity.
Qed.

(** The seeks of the three axes, which come before the offsets. *)
Lemma home_seeks_ok (env : home_env) (self : Printer) :
  ∃ tr,
    (emit (draw_centered_text TextHoming);;
     home_xy x_motor (x_coarse_waits env) (x_fine_waits env);;
     home_xy y_motor (y_coarse_waits env) (y_fine_waits env);;
     home_z z_motor (z_coarse_waits env) (z_fine_waits env)) self
    = (Py.Ok tt, self, tr ++ [hold z_motor]).
Proof.
  unfold home_xy, home_z. unfold_P. eexists.
  cbv beta iota. f_equal.
  rewrite !app_assoc. reflexivity.
Qed.

(** What [move] does: the conversions to degrees may raise, then comes
    the Z command when the target in degrees is above the previous Z, the
    barrier, the X and Y commands, and the Z command when the target in
    degrees is below the previous Z. *)
Lemma move_spec (env : move_env) (x y z prev_x prev_y prev_z : float)
  (command : string) (self : Printer) :
  move env x y z prev_x prev_y prev_z command self =
    match x' ← truediv x (x_mm_per_degree self); Py.int x' with
    | Py.Raise e => (Py.Raise e, self, [])
    | Py.Ok xd =>
    match y' ← truediv y (y_mm_per_degree self); Py.int y' with
    | Py.Raise e => (Py.Raise e, self, [])
    | Py.Ok yd =>
    match z' ← truediv z (z_mm_per_degree self); Py.int z' with
    | Py.Raise e => (Py.Raise e, self, [])
    | Py.Ok zd =>
    match
      (if String.eqb command "G1" then
         Some (_calculate_velocity_components prev_x prev_y x y (xy_speed self))
       else if String.eqb command "G0" then
         Some (_calculate_velocity_components prev_x prev_y x y
                 (xy_speed self * max_xy_speed_multiplier self)%float)
       else None)
    with
    | None => (Py.Raise Py.NameError, self, [])
    | Some (x_speed, y_speed) =>
        (Py.Ok tt, self,
         (if (prev_z <? Py.float_of_Z zd)%float
          then [run_target z_motor (z_speed self) zd BRAKE true] else [])
         ++ repeat (wait 5) (barrier_waits env)
         ++ (if (2 <? abs x_speed)%float && (2 <? Z.abs (x_angle env - xd))
             then [run_target x_motor x_speed xd HOLD false] else [])
         ++ (if (2 <? abs y_speed)%float && (2 <? Z.abs (y_angle env - yd))
             then [run_target y_motor y_speed yd HOLD false] else [])
         ++ (if (Py.float_of_Z zd <? prev_z)%float
             then [run_target z_motor (z_speed self) zd BRAKE true] else []))
    end end end end.
Proof.
  unfold move. unfold_P.
  destruct (Py.result_bind _ _ _ (truediv x _)) as [xd|e]; [|reflexivity].
  destruct (Py.result_bind _ _ _ (truediv y _)) as [yd|e]; [|reflexivity].
  destruct (Py.result_bind _ _ _ (truediv z _)) as [zd|e]; [|reflexivity].
  cbv beta iota.
  match goal with
  | |- context [match ?s with Some v => _ | None => _ end] => destruct s as [[x_speed y_speed]|]
  end; [|reflexivity].
  cbv beta iota.
  destruct (prev_z <? Py.float_of_Z zd)%float;
    destruct ((2 <? abs x_speed)%float && (2 <? Z.abs (x_angle env - xd)));
    destruct ((2 <? abs y_speed)%float && (2 <? Z.abs (y_angle env - yd)));
    destruct (Py.float_of_Z zd <? prev_z)%float;
    cbv beta iota; f_equal; norm_app; reflexivity.
Qed.

(** [move] leaves the state of the printer as it is. *)
Lemma move_final (env : move_env) (x y z prev_x prev_y prev_z : float)
  (command : string) (self : Printer) :
  final (move env x y z prev_x prev_y prev_z command self) = self.
Proof.
  rewrite move_spec. unfold final.
  repeat match goal with
         | |- context [match ?s with _ => _ end] => destruct s
         end; reflexivity.
Qed.

(** Below the dead zone no command goes to the X or the Y motor. *)
Lemma dead_zone_issues_no_xy_command (env : move_env)
  (x y z prev_x prev_y prev_z : float) (command : string) (self : Printer) :
  (sqrt ((x - prev_x) * (x - prev_x) + (y - prev_y) * (y - prev_y)) <? 0.05)%float = true →
  Forall (λ e, is_xy_command e = false)
         (trace (move env x y z prev_x prev_y prev_z command self)).
Proof.
  intros Hd. rewrite move_spec. unfold _calculate_velocity_components.
  rewrite Hd.
  replace (2 <? abs 0)%float with false by (vm_compute; reflexivity).
  cbn [andb].
  destruct (x' ← truediv x (x_mm_per_degree self); Py.int x'); [|constructor].
  destruct (y' ← truediv y (y_mm_per_degree self); Py.int y'); [|constructor].
  destruct (z' ← truediv z (z_mm_per_degree self); Py.int z') as [zd|]; [|constructor].
  assert (Hz : ∀ b : bool,
             Forall (λ e, is_xy_command e = false)
                    (if b then [run_target z_motor (z_speed self) zd BRAKE true] else [])).
  { intros []; repeat constructor. }
  assert (Hw : Forall (λ e, is_xy_command e = false)
                      (repeat (wait 5) (barrier_waits env))).
  { apply List.Forall_forall. intros e He. apply repeat_spec in He. subst e. reflexivity. }
  destruct (String.eqb command "G1"); [|destruct (String.eqb command "G0")];
    unfold trace; cbn [snd]; try constructor;
    repeat (apply Forall_app; split); auto; constructor.
Qed.

(** C1 (what the code does): [move] compares the target Z in degrees with
    the previous Z in millimetres.  With Z unchanged at 1 mm the Z motor is
    still commanded; lowering Z from 2 mm to 1 mm commands the Z motor
    before the barrier and the X command; raising Z from 0.1 mm to 0.15 mm
    commands it after the X command. *)
Theorem move_compares_degrees_with_millimetres (k : nat) :
  let env := {| barrier_waits := k; x_angle := 0; y_angle := 0 |} in
  trace (move env 0 0 1 0 0 1 "G1" __init__)
  = [run_target z_motor 1000 5 BRAKE true] ++ repeat (wait 5) k
  ∧ trace (move env 10 0 1 0 0 2 "G1" __init__)
    = [run_target z_motor 1000 5 BRAKE true] ++ repeat (wait 5) k
      ++ [run_target x_motor 90 112 HOLD false]
  ∧ trace (move env 10 0 0.15 0 0 0.1 "G0" __init__)
    = repeat (wait 5) k
      ++ [run_target x_motor 270 112 HOLD false;
          run_target z_motor 1000 0 BRAKE true].
Proof.
  intros env. rewrite !move_spec. unfold trace.
  split; [|split]; cbv -[repeat app]; rewrite ?app_nil_r; reflexivity.
Qed.

End PrinterFacts.

(* ===================================================================== *)
(** * The print loop                                                      *)
(* ===================================================================== *)

Module MainFacts.
Import Printer Main Flight.
Import PrinterFacts.

Lemma with_extruding_ratios (b : bool) (self : Printer) :
  x_mm_per_degree (with_extruding b self) = x_mm_per_degree self
  ∧ y_mm_per_degree (with_extruding b self) = y_mm_per_degree self
  ∧ z_mm_per_degree (with_extruding b self) = z_mm_per_degree self.
Proof. destruct self. done. Qed.

Lemma with_extruding_twice (a b : bool) (self : Printer) :
  with_extruding a (with_extruding b self) = with_extruding a self.
Proof. destruct self. reflexivity. Qed.

(** C5 (amended): for an accepted command whose targets have a position
    in degrees, the body of the loop engages the extruder before anything
    of the move when the command extrudes; when it does not, the extruder
    is released after [move] has returned, that is after the Z motion,
    which [move] waits for, and after the X and Y commands, which it
    starts without waiting: nothing stands between them and the release.
    The progress display comes last. *)
Theorem extruder_switches_around_issued_move (env : nat → line_env)
  (total_lines line_count : nat) (d : GCode.parsed_data) (st : locals)
  (self : Printer) (xd yd zd : Z) :
  let target_x := default (current_x st) (GCode.coord_X d) in
  let target_y := default (current_y st) (GCode.coord_Y d) in
  let target_z := default (current_z st) (GCode.coord_Z d) in
  let target_speed :=
    if String.eqb (GCode.command d) "G1" then xy_speed self
    else (xy_speed self * max_xy_speed_multiplier self)%float in
  let speeds :=
    _calculate_velocity_components (current_x st) (current_y st)
      target_x target_y target_speed in
  let moved :=
    issued (motion (env line_count)) self (current_z st) speeds.1 speeds.2 xd yd zd in
  (String.eqb (GCode.command d) "G0" || String.eqb (GCode.command d) "G1")%string = true →
  (x' ← truediv target_x (x_mm_per_degree self); Py.int x') = Py.Ok xd →
  (y' ← truediv target_y (y_mm_per_degree self); Py.int y') = Py.Ok yd →
  (z' ← truediv target_z (z_mm_per_degree self); Py.int z') = Py.Ok zd →
  execute env total_lines line_count d st self =
    (Py.Ok {| processor := processor st;
              current_x := target_x; current_y := target_y; current_z := target_z |},
     with_extruding (GCode.extruding d) self,
     if GCode.extruding d then
       (if extruding self then [] else engage_sequence self) ++ moved
     else
       moved
       ++ (if extruding self then disengage_sequence self else [])
       ++ [draw_centered_text TextPrinting;
           draw_centered_text (TextPercent line_count total_lines)]).
Proof.
  intros target_x target_y target_z target_speed speeds moved Hc Hx Hy Hz.
  destruct (with_extruding_ratios true self) as (Rx & Ry & Rz).
  assert (Hmv : ∀ b,
    move (motion (env line_count)) target_x target_y target_z
      (current_x st) (current_y st) (current_z st) (GCode.command d)
      (with_extruding b self)
    = (Py.Ok tt, with_extruding b self,
       issued (motion (env line_count)) (with_extruding b self) (current_z st)
         speeds.1 speeds.2 xd yd zd)).
  { intros b. rewrite move_spec.
    destruct (with_extruding_ratios b self) as (-> & -> & ->).
    rewrite Hx, Hy, Hz.
    assert (Hs : xy_speed (with_extruding b self) = xy_speed self
                 ∧ max_xy_speed_multiplier (with_extruding b self)
                   = max_xy_speed_multiplier self) by (destruct self; done).
    destruct Hs as [-> ->].
    subst speeds target_speed.
    destruct (String.eqb (GCode.command d) "G1").
    - destruct (_calculate_velocity_components _ _ _ _ _); reflexivity.
    - cbn [orb] in Hc. rewrite Bool.orb_false_r in Hc. rewrite Hc.
      destruct (_calculate_velocity_components _ _ _ _ _); reflexivity. }
  assert (Hi : ∀ b, issued (motion (env line_count)) (with_extruding b self)
                      (current_z st) speeds.1 speeds.2 xd yd zd = moved).
  { intros b. subst moved. unfold issued. destruct self; reflexivity. }
  unfold execute. fold target_x target_y target_z.
  destruct (GCode.extruding d); cbn [negb].
  - unfold mbind, P_bind, mret, P_ret. rewrite extrude_spec. cbv beta iota.
    rewrite (Hmv true), Hi. cbv beta iota. cbn [app]. rewrite app_nil_r. reflexivity.
  - unfold mbind, P_bind, mret, P_ret, emit.
    rewrite <- (with_extruding_same self) at 1.
    rewrite (Hmv (extruding self)), Hi, with_extruding_same. cbv beta iota.
    rewrite extrude_spec. cbv beta iota. cbn [app]. rewrite ?app_nil_r. reflexivity.
Qed.

Lemma extruder_switches_around_issued_move_witness :
  let d := {| GCode.command := "G1"; GCode.extruding := false;
              GCode.coord_X := Some 10%float; GCode.coord_Y := None;
              GCode.coord_Z := Some 0.4%float |} in
  let st := {| processor := GCode.__init__ 0;
               current_x := 0; current_y := 0; current_z := 0 |} in
  let self := with_extruding true __init__ in
  execute idle 2 1 d st self =
    (Py.Ok {| processor := GCode.__init__ 0;
              current_x := 10; current_y := 0; current_z := 0.4 |},
     with_extruding false self,
     issued (motion (idle 1%nat)) self 0
       (_calculate_velocity_components 0 0 10 0 90).1
       (_calculate_velocity_components 0 0 10 0 90).2 112 0 2
     ++ disengage_sequence self
     ++ [draw_centered_text TextPrinting; draw_centered_text (TextPercent 1 2)]).
Proof.
  intros d st self.
  apply (extruder_switches_around_issued_move idle 2 1 d st self 112 0 2).
  - reflexivity.
  - vm_compute. reflexivity.
  - vm_compute. reflexivity.
  - vm_compute. reflexivity.
Defined.

(** C5 (as stated, refuted): on a printer that is extruding, the line
    ["G1 X10"] does not extrude; the body of the loop starts the X motor
    toward 112 degrees with [wait=False] and drives the extruder motor
    back at once, with no wait between the two: the pen is released while
    the move is under way, not after it has completed. *)
Lemma extruder_is_released_while_axes_travel :
  let d := {| GCode.command := "G1"; GCode.extruding := false;
              GCode.coord_X := Some 10%float; GCode.coord_Y := None;
              GCode.coord_Z := None |} in
  let st := {| processor := GCode.__init__ 0;
               current_x := 0; current_y := 0; current_z := 0 |} in
  let r := execute idle 2 1 d st (with_extruding true __init__) in
  GCode.returned (GCode.parse_line Py.float_of_string "G1 X10" 1 (GCode.__init__ 0))
    = Some d
  ∧ trace r = [wait 5;
               run_target x_motor 90 112 HOLD false;
               run_until_stalled e_motor (-500) BRAKE 40;
               draw_centered_text TextPrinting;
               draw_centered_text (TextPercent 1 2)]
  ∧ released_in_flight (trace r) = true.
Proof. vm_compute. repeat split; reflexivity. Qed.

(** A move whose command is G0 or G1 and whose target has a position in
    degrees returns. *)
Lemma move_returns (env : move_env) (x y z prev_x prev_y prev_z : float)
  (command : string) (self : Printer) :
  (String.eqb command "G0" || String.eqb command "G1")%string = true →
  converts (x_mm_per_degree self) x = true →
  converts (y_mm_per_degree self) y = true →
  converts (z_mm_per_degree self) z = true →
  outcome (move env x y z prev_x prev_y prev_z command self) = Py.Ok tt.
Proof.
  unfold converts. intros Hc Hx Hy Hz. rewrite move_spec.
  destruct (x' ← truediv x (x_mm_per_degree self); Py.int x'); [|discriminate].
  destruct (y' ← truediv y (y_mm_per_degree self); Py.int y'); [|discriminate].
  destruct (z' ← truediv z (z_mm_per_degree self); Py.int z'); [|discriminate].
  destruct (String.eqb command "G1").
  - destruct (_calculate_velocity_components _ _ _ _ _). reflexivity.
  - destruct (String.eqb command "G0"); [|discriminate].
    destruct (_calculate_velocity_components _ _ _ _ _). reflexivity.
Qed.

(** The body of the loop returns when its move does, with the position
    moved to the target and the extruder as the command wants it. *)
Lemma execute_returns (env : nat → line_env) (total_lines line_count : nat)
  (d : GCode.parsed_data) (st : locals) (self : Printer) :
  (String.eqb (GCode.command d) "G0" || String.eqb (GCode.command d) "G1")%string = true →
  converts (x_mm_per_degree self) (default (current_x st) (GCode.coord_X d)) = true →
  converts (y_mm_per_degree self) (default (current_y st) (GCode.coord_Y d)) = true →
  converts (z_mm_per_degree self) (default (current_z st) (GCode.coord_Z d)) = true →
  let r := execute env total_lines line_count d st self in
  outcome r =
    Py.Ok {| processor := processor st;
             current_x := default (current_x st) (GCode.coord_X d);
             current_y := default (current_y st) (GCode.coord_Y d);
             current_z := default (current_z st) (GCode.coord_Z d) |}
  ∧ final r = with_extruding (GCode.extruding d) self.
Proof.
  intros Hc Hx Hy Hz r. subst r. unfold execute.
  set (tx := default (current_x st) (GCode.coord_X d)) in *.
  set (ty := default (current_y st) (GCode.coord_Y d)) in *.
  set (tz := default (current_z st) (GCode.coord_Z d)) in *.
  destruct (with_extruding_ratios true self) as (Rx & Ry & Rz).
  destruct (GCode.extruding d); cbn [negb].
  - pose proof (move_returns (motion (env line_count)) tx ty tz
                  (current_x st) (current_y st) (current_z st) (GCode.command d)
                  (with_extruding true self) Hc) as Hm.
    rewrite Rx, Ry, Rz in Hm. specialize (Hm Hx Hy Hz).
    pose proof (move_final (motion (env line_count)) tx ty tz
                  (current_x st) (current_y st) (current_z st) (GCode.command d)
                  (with_extruding true self)) as Hf.
    unfold mbind, P_bind, mret, P_ret. rewrite extrude_spec. cbv beta iota.
    unfold outcome, final in *.
    destruct (move _ _ _ _ _ _ _ _ _) as [[[[]|e] s] tr]; cbn [fst snd] in *;
      [|discriminate].
    subst s. split; reflexivity.
  - pose proof (move_returns (motion (env line_count)) tx ty tz
                  (current_x st) (current_y st) (current_z st) (GCode.command d)
                  self Hc Hx Hy Hz) as Hm.
    pose proof (move_final (motion (env line_count)) tx ty tz
                  (current_x st) (current_y st) (current_z st) (GCode.command d)
                  self) as Hf.
    unfold mbind, P_bind, mret, P_ret, emit.
    unfold outcome, final in *.
    destruct (move _ _ _ _ _ _ _ _ _) as [[[[]|e] s] tr]; cbn [fst snd] in *;
      [|discriminate].
    subst s. rewrite extrude_spec. cbv beta iota. cbn [fst snd].
    split; reflexivity.
Qed.

(** The loop returns when every line's coordinates have a position in
    degrees and so has the position it starts from. *)
Lemma for_lines_returns (py_float : string → option float) (env : nat → line_env)
  (total_lines : nat) (self0 : Printer) (lines : list string) :
  Forall (λ l, line_converts py_float self0 l = true) lines →
  ∀ (line_count : nat) (st : locals) (self : Printer),
    (∃ b, self = with_extruding b self0) →
    converts (x_mm_per_degree self0) (current_x st) = true →
    converts (y_mm_per_degree self0) (current_y st) = true →
    converts (z_mm_per_degree self0) (current_z st) = true →
    ∃ st', outcome (for_lines py_float env total_lines lines line_count st self) = Py.Ok st'.
Proof.
  induction 1 as [|line rest Hl _ IH]; intros line_count st self [b ->] Hx Hy Hz.
  { eexists. reflexivity. }
  cbn [for_lines].
  destruct (center_pressed (env (S line_count))).
  { eexists. reflexivity. }
  destruct (GCode.is_move line) eqn:Hm.
  - destruct (GCodeFacts.parse_line_move py_float line (Z.of_nat (S line_count))
                (processor st) Hm) as (Hr & _).
    destruct (GCode.parse_line py_float line (Z.of_nat (S line_count)) (processor st))
      as [[r p'] out].
    unfold GCode.returned in Hr. cbn [fst snd] in Hr. subst r.
    set (d := {| GCode.command := _ |}).
    set (st1 := {| processor := p' |}).
    unfold line_converts in Hl.
    apply andb_prop in Hl as [Hl Hlz]. apply andb_prop in Hl as [Hlx Hly].
    destruct (with_extruding_ratios b self0) as (Rx & Ry & Rz).
    assert (Hc : (String.eqb (GCode.command d) "G0"
                  || String.eqb (GCode.command d) "G1")%string = true).
    { subst d. cbn [GCode.command]. unfold GCode.is_move in Hm.
      destruct (GCode.command_of line); [exact Hm | discriminate]. }
    assert (Hx' : converts (x_mm_per_degree self0)
                    (default (current_x st1) (GCode.coord_X d)) = true).
    { subst d st1. cbn [GCode.coord_X current_x].
      destruct (GCode.raw_params_of py_float line !! "X"%char); assumption. }
    assert (Hy' : converts (y_mm_per_degree self0)
                    (default (current_y st1) (GCode.coord_Y d)) = true).
    { subst d st1. cbn [GCode.coord_Y current_y].
      destruct (GCode.raw_params_of py_float line !! "Y"%char); assumption. }
    assert (Hz' : converts (z_mm_per_degree self0)
                    (default (current_z st1) (GCode.coord_Z d)) = true).
    { subst d st1. cbn [GCode.coord_Z current_z].
      destruct (GCode.raw_params_of py_float line !! "Z"%char); assumption. }
    destruct (execute_returns env total_lines (S line_count) d st1
                (with_extruding b self0) Hc) as (Ho & Hf);
      [rewrite Rx; exact Hx' | rewrite Ry; exact Hy' | rewrite Rz; exact Hz' |].
    rewrite with_extruding_twice in Hf.
    unfold mbind, P_bind. unfold outcome, final in Ho, Hf.
    destruct (execute env total_lines (S line_count) d st1 (with_extruding b self0))
      as [[r s] tr]. cbn [fst snd] in Ho, Hf. subst r s.
    destruct (IH (S line_count)
                {| processor := processor st1;
                   current_x := default (current_x st1) (GCode.coord_X d);
                   current_y := default (current_y st1) (GCode.coord_Y d);
                   current_z := default (current_z st1) (GCode.coord_Z d) |}
                (with_extruding (GCode.extruding d) self0))
      as [st' Hst']; [eexists; reflexivity | exact Hx' | exact Hy' | exact Hz' |].
    unfold outcome in *.
    destruct (for_lines _ _ _ _ _ _ _) as [[r s] tr']. cbn [fst snd] in *.
    exists st'. exact Hst'.
  - pose proof (GCodeFacts.parse_line_not_move py_float line (Z.of_nat (S line_count))
                  (processor st) Hm) as Hr.
    destruct (GCode.parse_line py_float line (Z.of_nat (S line_count)) (processor st))
      as [[r p'] out].
    unfold GCode.returned in Hr. cbn [fst snd] in Hr. subst r.
    apply IH; [eexists; reflexivity | assumption..].
Qed.

(** C9 (amended): when the loop over the lines ends, by running out of
    lines or by the stop button, [extrude(False)] is called next and the
    extruder is off when the job completes; when an exception leaves the
    loop the job ends there, with the extruder as the loop left it.  For
    polling loops that end, as [env] has them, the loop over the lines
    does end when the file has a line and every coordinate of its lines,
    and the origin, has a position in degrees: its quotient by the
    millimetres per degree is a number that [int] accepts. *)
Theorem job_ends_with_extruder_off (py_float : string → option float)
  (env : nat → line_env) (lines : list string) (p : GCode.GCodeProcessor)
  (self : Printer) :
  let loop := print_loop py_float env lines p self in
  let job := print_job py_float env lines p self in
  match outcome loop with
  | Py.Ok st =>
      job = (Py.Ok st, with_extruding false (final loop),
             trace loop
             ++ (if extruding (final loop) then disengage_sequence (final loop) else []))
      ∧ extruding (final job) = false
  | Py.Raise e => job = (Py.Raise e, final loop, trace loop)
  end
  ∧ (lines ≠ [] →
     converts (x_mm_per_degree self) 0 = true →
     converts (y_mm_per_degree self) 0 = true →
     converts (z_mm_per_degree self) 0 = true →
     Forall (λ l, line_converts py_float self l = true) lines →
     ∃ st, outcome job = Py.Ok st ∧ extruding (final job) = false).
Proof.
  intros loop job.
  assert (H1 : match outcome loop with
               | Py.Ok st =>
                   job = (Py.Ok st, with_extruding false (final loop),
                          trace loop
                          ++ (if extruding (final loop)
                              then disengage_sequence (final loop) else []))
                   ∧ extruding (final job) = false
               | Py.Raise e => job = (Py.Raise e, final loop, trace loop)
               end).
  { subst job. unfold print_job. fold loop.
    unfold mbind, P_bind, outcome, final, trace. fold loop.
    destruct loop as [[[st|e] s] tr]; cbn [fst snd]; [|reflexivity].
    rewrite extrude_spec. cbv beta iota. cbn [fst snd].
    split; [|reflexivity]. f_equal. norm_app. reflexivity. }
  split; [exact H1|].
  intros Hne Hx Hy Hz Hall.
  assert (H2 : ∃ st, outcome loop = Py.Ok st).
  { subst loop. unfold print_loop.
    destruct lines as [|l ls]; [congruence|]. cbn [length Nat.eqb].
    destruct (for_lines_returns py_float env (length (l :: ls)) self (l :: ls) Hall 0%nat
                {| processor := p; current_x := 0; current_y := 0; current_z := 0 |}
                self) as [st Hst];
      [exists (extruding self); symmetry; apply with_extruding_same | assumption..|].
    exists st. unfold mbind, P_bind, emit, outcome in *.
    cbv beta iota.
    destruct (for_lines _ _ _ _ _ _ _) as [[r s] tr]. cbn [fst snd] in *. exact Hst. }
  destruct H2 as [st Hst]. rewrite Hst in H1. destruct H1 as [Hjob Hoff].
  exists st. split; [|exact Hoff]. rewrite Hjob. reflexivity.
Qed.

Lemma job_ends_with_extruder_off_witness :
  ∃ st,
    outcome (print_job Py.float_of_string idle ["G1 X10 E1"; "G1 X20 Z0.2 E2"]%string
               (GCode.__init__ 0) __init__) = Py.Ok st
    ∧ extruding (final (print_job Py.float_of_string idle
                          ["G1 X10 E1"; "G1 X20 Z0.2 E2"]%string
                          (GCode.__init__ 0) __init__)) = false.
Proof.
  apply (proj2 (job_ends_with_extruder_off Py.float_of_string idle
                  ["G1 X10 E1"; "G1 X20 Z0.2 E2"]%string (GCode.__init__ 0) __init__)).
  - discriminate.
  - vm_compute. reflexivity.
  - vm_compute. reflexivity.
  - vm_compute. reflexivity.
  - repeat (constructor; [vm_compute; reflexivity|]). constructor.
Defined.

(** C9 (as stated, refuted): the job of the one line ["G1 Xinf E1"]
    engages the extruder, then [move] raises [OverflowError] on
    [int(inf / ...)]; nothing catches it, and the extruder stays on. *)
Lemma job_with_infinite_target_leaves_extruder_on :
  let r := print_job Py.float_of_string idle ["G1 Xinf E1"]%string
             (GCode.__init__ 0) __init__ in
  outcome r = Py.Raise Py.OverflowError
  ∧ extruding (final r) = true
  ∧ trace r = [draw_centered_text TextPrinting;
               draw_centered_text (TextPercent 0 1);
               run_until_stalled e_motor 500 HOLD 40; wait 450].
Proof. vm_compute. repeat split; reflexivity. Qed.

(** A coordinate need not be infinite to have no position in degrees:
    [1e308] is finite, its quotient by 4/45 is not, and [int] raises on
    it as it does on [inf]. *)
Example job_with_huge_target_leaves_extruder_on :
  let r := print_job Py.float_of_string idle ["G1 X1e308 E1"]%string
             (GCode.__init__ 0) __init__ in
  line_converts Py.float_of_string __init__ "G1 X1e308 E1" = false
  ∧ outcome r = Py.Raise Py.OverflowError
  ∧ extruding (final r) = true.
Proof. vm_compute. repeat split; reflexivity. Qed.

(** A job whose last move extrudes, and one stopped at its second line:
    both end with the extruder driven off. *)
Example job_ending_on_extruding_move :
  let r := print_job Py.float_of_string idle ["G1 X10 E1"; "G1 X20 E2"]%string
             (GCode.__init__ 0) __init__ in
  extruding (final r) = false
  ∧ trace r = [draw_centered_text TextPrinting;
               draw_centered_text (TextPercent 0 2);
               run_until_stalled e_motor 500 HOLD 40; wait 450;
               wait 5; run_target x_motor 90 112 HOLD false;
               wait 5; run_target x_motor 90 225 HOLD false;
               run_until_stalled e_motor (-500) BRAKE 40].
Proof. vm_compute. split; reflexivity. Qed.

Example job_stopped_at_second_line :
  let env := λ n, {| center_pressed := Nat.eqb n 2; release_waits := 2;
                     motion := {| barrier_waits := 1; x_angle := 0; y_angle := 0 |} |} in
  let r := print_job Py.float_of_string env ["G1 X10 E1"; "G1 X20 E2"]%string
             (GCode.__init__ 0) __init__ in
  extruding (final r) = false
  ∧ trace r = [draw_centered_text TextPrinting;
               draw_centered_text (TextPercent 0 2);
               run_until_stalled e_motor 500 HOLD 40; wait 450;
               wait 5; run_target x_motor 90 112 HOLD false;
               draw_centered_text TextStopped; beep; wait 100; wait 100;
               run_until_stalled e_motor (-500) BRAKE 40].
Proof. vm_compute. split; reflexivity. Qed.

End MainFacts.

(* ===================================================================== *)
(** * More on the line interpreter                                        *)
(* ===================================================================== *)

Module LineFacts.
Import GCode GCodeFacts Lines.

Lemma lstrip_all_space (s : string) : all_space s = true → Py.lstrip s = ""%string.
Proof.
  induction s as [|c s IH]; [reflexivity|]. cbn [all_space Py.lstrip].
  intros [Hc Hs]%andb_prop. rewrite Hc. apply IH, Hs.
Qed.

Lemma split1_head_absent (sep : ascii) (s : string) :
  Py.contains sep s = false → Py.split1_head sep s = s.
Proof.
  induction s as [|c s IH]; [reflexivity|]. cbn [Py.contains Py.split1_head].
  intros [Hc Hs]%orb_false_elim. rewrite Hc, IH by exact Hs. reflexivity.
Qed.

Lemma split1_head_append (sep : ascii) (a b : string) :
  Py.contains sep a = false →
  Py.contains sep (a ++ String sep b) = true
  ∧ Py.split1_head sep (a ++ String sep b) = a.
Proof.
  induction a as [|c a IH]; simpl.
  - intros _. rewrite Ascii.eqb_refl. done.
  - intros [Hc Ha]%orb_false_elim. rewrite Hc. destruct (IH Ha) as [-> ->]. done.
Qed.

(** The part of the line that [parse_line] reads: what stands before the
    first semicolon. *)
Lemma tokens_before_semicolon (line : string) :
  tokens line = Py.split (Py.strip (Py.split1_head ";" line)).
Proof.
  unfold tokens. destruct (Py.contains ";" line) eqn:H; [reflexivity|].
  rewrite split1_head_absent by exact H. reflexivity.
Qed.

Section Facts.
Variable py_float : string → option float.

Lemma parse_line_verbose (line : string) (n : Z) (p : GCodeProcessor) :
  verbose (final (parse_line py_float line n p)) = verbose p.
Proof.
  destruct (is_move line) eqn:Hm.
  { apply (parse_line_move py_float line n p Hm). }
  destruct (is_reset line) eqn:Hr.
  { apply (parse_line_reset py_float line n p Hr). }
  unfold is_move, is_reset, command_of in Hm, Hr.
  destruct (tokens line) as [|part0 params] eqn:Ht.
  { destruct (parse_line_blank py_float line n p Ht) as (_ & -> & _). reflexivity. }
  destruct (parse_line_parts py_float line part0 params n p Ht) as (cl & _ & -> & _).
  destruct (parse_parts_other py_float cl part0 params n p Hm Hr) as (_ & ->).
  reflexivity.
Qed.

(** What a line returns and the state it leaves depend on its parts only. *)
Lemma parse_line_by_tokens (l1 l2 : string) (n1 n2 : Z) (p : GCodeProcessor) :
  tokens l1 = tokens l2 →
  returned (parse_line py_float l1 n1 p) = returned (parse_line py_float l2 n2 p)
  ∧ final (parse_line py_float l1 n1 p) = final (parse_line py_float l2 n2 p).
Proof.
  intros Ht.
  assert (Hm : is_move l1 = is_move l2) by (unfold is_move, command_of; rewrite Ht; reflexivity).
  assert (Hr : is_reset l1 = is_reset l2) by (unfold is_reset, command_of; rewrite Ht; reflexivity).
  assert (Hc : command_of l1 = command_of l2) by (unfold command_of; rewrite Ht; reflexivity).
  assert (Hp : raw_params_of py_float l1 = raw_params_of py_float l2)
    by (unfold raw_params_of; rewrite Ht; reflexivity).
  split.
  - destruct (is_move l1) eqn:Hm1.
    + destruct (parse_line_move py_float l1 n1 p Hm1) as (-> & _).
      symmetry in Hm.
      destruct (parse_line_move py_float l2 n2 p Hm) as (-> & _).
      rewrite Hc, Hp. reflexivity.
    + symmetry in Hm.
      rewrite (parse_line_not_move py_float l1 n1 p Hm1).
      rewrite (parse_line_not_move py_float l2 n2 p Hm). reflexivity.
  - apply processor_eq.
    + rewrite !parse_line_verbose. reflexivity.
    + rewrite !parse_line_watermark, Hm, Hr, Hp. reflexivity.
Qed.

End Facts.

(** X1: what follows a semicolon is a comment: it changes neither what
    the line returns nor the state it leaves. *)
Theorem comment_is_ignored (py_float : string → option float) (a b : string)
  (n : Z) (p : GCodeProcessor) :
  Py.contains ";" a = false →
  returned (parse_line py_float (a ++ String ";" b) n p)
  = returned (parse_line py_float a n p)
  ∧ final (parse_line py_float (a ++ String ";" b) n p)
    = final (parse_line py_float a n p).
Proof.
  intros Ha. apply parse_line_by_tokens.
  rewrite !tokens_before_semicolon.
  destruct (split1_head_append ";" a b Ha) as [_ ->].
  rewrite split1_head_absent by exact Ha. reflexivity.
Qed.

Lemma comment_is_ignored_witness :
  returned (parse_line Py.float_of_string "G1 X5 E2 ; then E100 X9" 3 (__init__ 0))
  = returned (parse_line Py.float_of_string "G1 X5 E2 " 3 (__init__ 0))
  ∧ final (parse_line Py.float_of_string "G1 X5 E2 ; then E100 X9" 3 (__init__ 0))
    = final (parse_line Py.float_of_string "G1 X5 E2 " 3 (__init__ 0)).
Proof.
  apply (comment_is_ignored Py.float_of_string "G1 X5 E2 " " then E100 X9" 3 (__init__ 0)).
  reflexivity.
Defined.

(** X2: a line that is blank before its first semicolon (an empty line,
    a line of spaces, a comment line) returns nothing, leaves the
    processor as it is and prints no warning. *)
Theorem blank_line_returns_nothing (py_float : string → option float)
  (line : string) (n : Z) (p : GCodeProcessor) :
  all_space (Py.split1_head ";" line) = true →
  returned (parse_line py_float line n p) = None
  ∧ final (parse_line py_float line n p) = p
  ∧ warnings (printed (parse_line py_float line n p)) = 0%nat.
Proof.
  intros Hs. apply parse_line_blank.
  rewrite tokens_before_semicolon. unfold Py.strip.
  rewrite lstrip_all_space by exact Hs. reflexivity.
Qed.

Lemma blank_line_returns_nothing_witness :
  returned (parse_line Py.float_of_string "  ; comment only" 1 (__init__ 2)) = None
  ∧ final (parse_line Py.float_of_string "  ; comment only" 1 (__init__ 2)) = __init__ 2
  ∧ warnings (printed (parse_line Py.float_of_string "  ; comment only" 1 (__init__ 2))) = 0%nat.
Proof.
  apply (blank_line_returns_nothing Py.float_of_string "  ; comment only" 1 (__init__ 2)).
  reflexivity.
Defined.

(** X3: a line whose command is none of G0, G1 and G92 returns nothing and
    leaves the processor as it is, whatever parameters it carries. *)
Theorem other_command_changes_nothing (py_float : string → option float)
  (line : string) (n : Z) (p : GCodeProcessor) :
  is_move line = false → is_reset line = false →
  returned (parse_line py_float line n p) = None
  ∧ final (parse_line py_float line n p) = p.
Proof.
  intros Hm Hr. split; [apply parse_line_not_move, Hm|].
  apply processor_eq; [apply parse_line_verbose|].
  rewrite parse_line_watermark, Hm, Hr. reflexivity.
Qed.

Lemma other_command_changes_nothing_witness :
  returned (parse_line Py.float_of_string "M82 E5" 1 (__init__ 0)) = None
  ∧ final (parse_line Py.float_of_string "M82 E5" 1 (__init__ 0)) = __init__ 0.
Proof.
  apply (other_command_changes_nothing Py.float_of_string "M82 E5" 1 (__init__ 0));
    reflexivity.
Defined.

(** X4: the dictionary that [parse_line] returns always has the command
    G0 or G1, in capitals, so [Printer.move] always finds its speeds. *)
Theorem returned_command_is_a_move (py_float : string → option float)
  (line : string) (n : Z) (p : GCodeProcessor) (d : parsed_data) :
  returned (parse_line py_float line n p) = Some d →
  (command d = "G0" ∨ command d = "G1")%string
  ∧ is_move line = true
  ∧ coord_X d = raw_params_of py_float line !! "X"%char
  ∧ coord_Y d = raw_params_of py_float line !! "Y"%char
  ∧ coord_Z d = raw_params_of py_float line !! "Z"%char.
Proof.
  intros Hd. destruct (is_move line) eqn:Hm.
  2: { rewrite (parse_line_not_move py_float line n p Hm) in Hd. discriminate. }
  destruct (parse_line_move py_float line n p Hm) as (Hr & _).
  rewrite Hr in Hd. injection Hd as <-. cbn [command coord_X coord_Y coord_Z].
  split; [|done].
  unfold is_move in Hm. destruct (command_of line) as [c|]; [|discriminate].
  cbn [default]. apply orb_prop in Hm as [H|H]; apply String.eqb_eq in H; auto.
Qed.

Lemma returned_command_is_a_move_witness :
  (GCode.command
     {| command := "G0"; extruding := false; coord_X := Some 3%float;
        coord_Y := None; coord_Z := None |} = "G0"
   ∨ GCode.command
       {| command := "G0"; extruding := false; coord_X := Some 3%float;
          coord_Y := None; coord_Z := None |} = "G1")%string
  ∧ is_move "g0 x3" = true
  ∧ Some 3%float = raw_params_of Py.float_of_string "g0 x3" !! "X"%char
  ∧ None = raw_params_of Py.float_of_string "g0 x3" !! "Y"%char
  ∧ None = raw_params_of Py.float_of_string "g0 x3" !! "Z"%char.
Proof.
  apply (returned_command_is_a_move Py.float_of_string "g0 x3" 1 (__init__ 0)).
  vm_compute. reflexivity.
Defined.

Lemma upper_char_facts (c : ascii) :
  Py.upper_char (Py.upper_char c) = Py.upper_char c
  ∧ Py.isspace (Py.upper_char c) = Py.isspace c.
Proof.
  destruct c as [[] [] [] [] [] [] [] []]; split; reflexivity.
Qed.

Lemma upper_idempotent (s : string) : Py.upper (Py.upper s) = Py.upper s.
Proof.
  induction s as [|c s IH]; [reflexivity|]. cbn [Py.upper].
  rewrite IH, (proj1 (upper_char_facts c)). reflexivity.
Qed.

Lemma rstrip_cons (c : ascii) (v : string) :
  Py.isspace c = false → Py.rstrip (String c v) = String c (Py.rstrip v).
Proof.
  intros Hc. cbn [Py.rstrip]. rewrite Hc. destruct (Py.rstrip v); reflexivity.
Qed.

(** What [strip] leaves of a part, by its first character. *)
Lemma strip_cons (c : ascii) (v : string) :
  Py.strip (String c v) =
    if Py.isspace c then Py.strip v else String c (Py.rstrip v).
Proof.
  unfold Py.strip. cbn [Py.lstrip].
  destruct (Py.isspace c) eqn:Hc; [reflexivity|]. apply rstrip_cons, Hc.
Qed.

(** X5: the command code and the letters of the parameters are read
    without regard to case: upcasing the first letter of a part, or the
    command, changes nothing in what is returned, kept and printed. *)
Theorem letters_are_case_insensitive (py_float : string → option float) :
  (∀ (c : ascii) (v : string) (rest : list string) (raw : gmap ascii float),
     for_parts py_float (String (Py.upper_char c) v :: rest) raw
     = for_parts py_float (String c v :: rest) raw)
  ∧ (∀ (cl part0 : string) (params : list string) (n : Z),
       parse_parts py_float cl (Py.upper part0) params n
       = parse_parts py_float cl part0 params n).
Proof.
  split.
  - intros c v rest raw. cbn [for_parts]. rewrite !strip_cons.
    destruct (upper_char_facts c) as [Hi Hs]. rewrite Hs.
    destruct (Py.isspace c); [reflexivity|].
    cbn [Py.len String.length]. rewrite Hi. reflexivity.
  - intros cl part0 params n. unfold parse_parts. rewrite upper_idempotent. reflexivity.
Qed.

(** Reading the parts [a ++ b] is reading [a] and then, unless [float]
    raised, reading [b]. *)
Lemma scan_app (py_float : string → option float) (a b : list string)
  (raw : gmap ascii float) :
  scan py_float (a ++ b) raw =
    if (scan py_float a raw).2 then scan py_float a raw
    else scan py_float b (scan py_float a raw).1.
Proof.
  revert raw. induction a as [|part a IH]; intros raw; [reflexivity|].
  cbn [app scan].
  destruct (Py.strip part) as [|c v]; [apply IH|].
  destruct (_ && _); [|apply IH].
  destruct (py_float v); [apply IH|reflexivity].
Qed.

(** X6: when a letter comes twice on a line, the later value is the one
    kept: after any parts that were read to the end, a well-formed part
    for a letter sets that letter, whatever was there, and no other. *)
Theorem later_value_wins (py_float : string → option float)
  (parts : list string) (c : ascii) (v : string) (x : float)
  (raw : gmap ascii float) (p : GCodeProcessor) :
  (returned (for_parts py_float parts raw p)).2 = false →
  Py.isspace c = false → Py.rstrip v = v → v ≠ ""%string →
  Py.is_upper_letter (Py.upper_char c) = true →
  py_float v = Some x →
  let r := returned (for_parts py_float (parts ++ [String c v]) raw p) in
  r.1 !! Py.upper_char c = Some x
  ∧ r.2 = false
  ∧ ∀ k, k ≠ Py.upper_char c →
         r.1 !! k = (returned (for_parts py_float parts raw p)).1 !! k.
Proof.
  rewrite !(proj1 (for_parts_scan py_float _ _ p)).
  intros Hcut Hc Hv Hne Hu Hf r. subst r. rewrite scan_app, Hcut.
  cbn [scan]. rewrite strip_cons, Hc, Hv, Hu.
  assert (Hl : (Py.len (String c v) >=? 2) = true).
  { destruct v as [|c' v']; [congruence|]. unfold Py.len. cbn [String.length].
    apply Z.geb_le. lia. }
  rewrite Hl, Hf. cbn [andb fst snd].
  split; [apply lookup_insert_eq|]. split; [reflexivity|].
  intros k Hk. apply lookup_insert_ne. congruence.
Qed.

Lemma later_value_wins_witness :
  (returned (for_parts Py.float_of_string (["X1"%string; "Y7"%string] ++ ["x2"%string])
               ∅ (__init__ 0))).1 !! Py.upper_char "x" = Some 2%float
  ∧ (returned (for_parts Py.float_of_string (["X1"%string; "Y7"%string] ++ ["x2"%string])
                 ∅ (__init__ 0))).2 = false
  ∧ ∀ k, k ≠ Py.upper_char "x" →
         (returned (for_parts Py.float_of_string
                      (["X1"%string; "Y7"%string] ++ ["x2"%string]) ∅ (__init__ 0))).1 !! k
         = (returned (for_parts Py.float_of_string ["X1"%string; "Y7"%string]
                        ∅ (__init__ 0))).1 !! k.
Proof.
  apply (later_value_wins Py.float_of_string ["X1"; "Y7"]%string "x" "2" 2%float ∅
           (__init__ 0));
    try (vm_compute; reflexivity).
  discriminate.
Defined.

End LineFacts.

(* ===================================================================== *)
(** * Resetting the watermark                                            *)
(* ===================================================================== *)

Module ResetFacts.
Import GCode GCodeFacts Lines.

Section Facts.
Variable py_float : string → option float.

Lemma scan_accepts (parts : list string) :
  ∀ raw, existsb (rejected py_float) parts = false →
         (scan py_float parts raw).2 = false.
Proof.
  induction parts as [|part rest IH]; intros raw H; [reflexivity|].
  cbn [existsb] in H. apply orb_false_elim in H as [Hp Hr].
  cbn [scan]. unfold rejected in Hp.
  destruct (Py.strip part) as [|c v]; [apply IH, Hr|].
  destruct ((Py.len (String c v) >=? 2) && Py.is_upper_letter (Py.upper_char c));
    [|apply IH, Hr].
  cbn [andb] in Hp.
  destruct (py_float v); [apply IH, Hr|discriminate].
Qed.

Lemma scan_keeps (k : ascii) (parts : list string) :
  ∀ raw, existsb (names k) parts = false →
         (scan py_float parts raw).1 !! k = raw !! k.
Proof.
  induction parts as [|part rest IH]; intros raw H; [reflexivity|].
  cbn [existsb] in H. apply orb_false_elim in H as [Hp Hr].
  cbn [scan]. unfold names in Hp.
  destruct (Py.strip part) as [|c v]; [apply IH, Hr|].
  destruct ((Py.len (String c v) >=? 2) && Py.is_upper_letter (Py.upper_char c));
    [|apply IH, Hr].
  destruct (py_float v); [|reflexivity].
  rewrite IH by exact Hr. apply lookup_insert_ne.
  intros E. rewrite E, Ascii.eqb_refl in Hp. discriminate.
Qed.

End Facts.

(** X23: a G92 line resets the watermark to the value of its E part
    when no part before that one is rejected by [float] and no later part
    names E, whatever the watermark was and whatever else the line
    carries; it returns nothing. *)
Theorem reset_reads_e_behind_accepted_parts (py_float : string → option float)
  (line part0 value_text : string) (pre post : list string) (c : ascii)
  (v : float) (n : Z) (p : GCodeProcessor) :
  tokens line = part0 :: pre ++ String c value_text :: post →
  Py.upper part0 = "G92"%string →
  existsb (rejected py_float) pre = false →
  Py.upper_char c = "E"%char →
  value_text ≠ ""%string → Py.rstrip value_text = value_text →
  py_float value_text = Some v →
  existsb (names "E") post = false →
  returned (parse_line py_float line n p) = None
  ∧ last_e_value (final (parse_line py_float line n p)) = v
  ∧ verbose (final (parse_line py_float line n p)) = verbose p.
Proof.
  intros Ht H92 Hpre Hc Hne Hrs Hf Hpost.
  assert (Hr : is_reset line = true).
  { unfold is_reset, command_of. rewrite Ht, H92. reflexivity. }
  destruct (parse_line_reset py_float line n p Hr) as (H1 & H2 & H3 & _).
  split; [exact H1|]. split; [|exact H3].
  rewrite H2. unfold raw_params_of. rewrite Ht.
  rewrite LineFacts.scan_app, (scan_accepts py_float pre ∅ Hpre).
  cbn [scan].
  assert (Hsp : Py.isspace c = false).
  { destruct (LineFacts.upper_char_facts c) as [_ <-]. rewrite Hc. reflexivity. }
  rewrite LineFacts.strip_cons, Hsp, Hrs, Hc.
  assert (Hl : (Py.len (String c value_text) >=? 2) = true).
  { destruct value_text as [|c' v']; [congruence|]. unfold Py.len. cbn [String.length].
    apply Z.geb_le. lia. }
  rewrite Hl, Hf. cbn [andb].
  change (Py.is_upper_letter "E") with true. cbv iota.
  rewrite (scan_keeps py_float "E" post _ Hpost), lookup_insert_eq. reflexivity.
Qed.

Lemma reset_reads_e_behind_accepted_parts_witness :
  returned (parse_line Py.float_of_string "g92 X Y3 e1.5 Zfoo ; reset" 7
              {| verbose := 0; last_e_value := 40 |}) = None
  ∧ last_e_value (final (parse_line Py.float_of_string "g92 X Y3 e1.5 Zfoo ; reset" 7
                           {| verbose := 0; last_e_value := 40 |})) = 1.5%float
  ∧ verbose (final (parse_line Py.float_of_string "g92 X Y3 e1.5 Zfoo ; reset" 7
                      {| verbose := 0; last_e_value := 40 |})) = 0.
Proof.
  apply (reset_reads_e_behind_accepted_parts Py.float_of_string
           "g92 X Y3 e1.5 Zfoo ; reset" "g92" "1.5" ["X"; "Y3"]%string ["Zfoo"]%string
           "e" 1.5%float 7 {| verbose := 0; last_e_value := 40 |}).
  - vm_compute. reflexivity.
  - reflexivity.
  - vm_compute. reflexivity.
  - reflexivity.
  - discriminate.
  - reflexivity.
  - vm_compute. reflexivity.
  - reflexivity.
Defined.

(** X24: after a G92 line from which the value [v] of E was read, a move
    line with the same E does not extrude, and the move line after it
    extrudes when its E is strictly above [v]. *)
Theorem move_after_reset_compares_with_reset_value
  (py_float : string → option float) (p : GCodeProcessor) (l1 l2 l3 : string)
  (n : Z) (v v' : float) :
  is_reset l1 = true → raw_params_of py_float l1 !! "E"%char = Some v →
  is_move l2 = true → raw_params_of py_float l2 !! "E"%char = Some v →
  is_move l3 = true → raw_params_of py_float l3 !! "E"%char = Some v' →
  (v <? v')%float = true →
  ∃ d2 d3,
    returned (parse_lines py_float [l1; l2; l3] n p) = [None; Some d2; Some d3]
    ∧ extruding d2 = false ∧ extruding d3 = true.
Proof.
  intros R1 E1 M2 E2 M3 E3 Hlt.
  destruct (parse_lines_cons py_float l1 [l2; l3] n p) as [_ ->].
  destruct (parse_line_reset py_float l1 n p R1) as (-> & W1 & _).
  rewrite E1 in W1. cbn [default] in W1.
  set (p1 := final (parse_line py_float l1 n p)) in *.
  destruct (parse_lines_cons py_float l2 [l3] (n + 1) p1) as [_ ->].
  destruct (parse_line_move py_float l2 (n + 1) p1 M2) as (-> & W2 & _).
  rewrite E2, W1, FloatFacts.ltb_irrefl in W2. cbv beta iota in W2.
  set (p2 := final (parse_line py_float l2 (n + 1) p1)) in *.
  destruct (parse_lines_cons py_float l3 [] (n + 1 + 1) p2) as [_ ->].
  destruct (parse_line_move py_float l3 (n + 1 + 1) p2 M3) as (-> & _).
  eexists _, _. split; [reflexivity|]. cbn [extruding].
  unfold id in W1, W2. rewrite E2, E3, W1, W2, FloatFacts.ltb_irrefl, Hlt. done.
Qed.

Lemma move_after_reset_compares_with_reset_value_witness :
  ∃ d2 d3,
    returned (parse_lines Py.float_of_string
                ["G92 E2.5"; "G1 X1 E2.5"; "G1 X2 E2.51"]%string 1
                {| verbose := 0; last_e_value := 40 |}) = [None; Some d2; Some d3]
    ∧ extruding d2 = false ∧ extruding d3 = true.
Proof.
  apply (move_after_reset_compares_with_reset_value Py.float_of_string
           {| verbose := 0; last_e_value := 40 |}
           "G92 E2.5" "G1 X1 E2.5" "G1 X2 E2.51" 1 2.5%float 2.51%float);
    vm_compute; reflexivity.
Defined.

End ResetFacts.

(* ===================================================================== *)
(** * More on the extruder and on moves                                   *)
(* ===================================================================== *)

Module MotionFacts.
Import Printer PrinterFacts Motion.

Lemma ltb_asym (a b : float) : (a <? b)%float = true → (b <? a)%float = false.
Proof.
  intros H. destruct (b <? a)%float eqn:H'; [|reflexivity].
  apply FloatFacts.ltb_rank in H as (_ & _ & H).
  apply FloatFacts.ltb_rank in H' as (_ & _ & H').
  unfold FloatOrder.lex_lt in *. lia.
Qed.

Lemma extrude_all_cons (want : bool) (rest : list bool) (self : Printer) :
  extrude_all (want :: rest) self =
    let r := extrude_all rest (with_extruding want self) in
    (outcome r, final r,
     (if want then (if extruding self then [] else engage_sequence self)
      else (if extruding self then disengage_sequence self else []))
     ++ trace r).
Proof.
  cbn [extrude_all]. unfold mbind, P_bind. rewrite extrude_spec. cbv beta iota zeta.
  destruct (extrude_all rest (with_extruding want self)) as [[r s] tr]. reflexivity.
Qed.

Lemma actuations_app (a b : list event) :
  actuations (a ++ b) = (actuations a + actuations b)%nat.
Proof. unfold actuations. rewrite List.filter_app, length_app. reflexivity. Qed.

Lemma pen_pressed_app (b : bool) (a c : list event) :
  pen_pressed b (a ++ c) = pen_pressed (pen_pressed b a) c.
Proof.
  revert b. induction a as [|e a IH]; intros b; [reflexivity|].
  cbn [app pen_pressed].
  destruct e as [| | |m s t d| | | | | | |]; try apply IH.
  destruct m; try apply IH. destruct t; apply IH.
Qed.

Lemma last_cons {A} (a d : A) (l : list A) : List.last (a :: l) d = List.last l a.
Proof.
  revert a d. induction l as [|b l IH]; intros a d; [reflexivity|].
  change (List.last (a :: b :: l) d) with (List.last (b :: l) d).
  rewrite !IH. reflexivity.
Qed.

(** X7: however [extrude] is called, the flag [extruding] ends as the last
    call wanted it, the extruder motor has been driven once for every
    change of the wanted state and never otherwise, and the flag says where
    the trace left the button of the pen. *)
Theorem extruder_flag_mirrors_pen (wants : list bool) (self : Printer) :
  let r := extrude_all wants self in
  outcome r = Py.Ok tt
  ∧ extruding (final r) = List.last wants (extruding self)
  ∧ actuations (trace r) = flips (extruding self) wants
  ∧ pen_pressed (extruding self) (trace r) = extruding (final r).
Proof.
  revert self. induction wants as [|want rest IH]; intros self r.
  { subst r. repeat split. }
  subst r. rewrite extrude_all_cons. cbv zeta.
  specialize (IH (with_extruding want self)). cbv zeta in IH.
  destruct IH as (Ho & Hl & Ha & Hp).
  assert (He : extruding (with_extruding want self) = want) by (destruct self; reflexivity).
  rewrite He in Hl, Ha, Hp.
  unfold outcome, final, trace in *. cbn [fst snd].
  split; [exact Ho|]. split.
  { rewrite Hl, last_cons. reflexivity. }
  rewrite actuations_app, pen_pressed_app, Ha. cbn [flips].
  split.
  - f_equal. destruct want, (extruding self); reflexivity.
  - rewrite <- Hp. f_equal. destruct want, (extruding self); reflexivity.
Qed.

Lemma count_app (m : motor) (a b : list event) :
  count m (a ++ b) = (count m a + count m b)%nat.
Proof. unfold count. rewrite List.filter_app, length_app. reflexivity. Qed.

Lemma count_waits (m : motor) (time : Z) (k : nat) :
  count m (repeat (wait time) k) = 0%nat.
Proof. induction k as [|k IH]; [reflexivity|]. exact IH. Qed.

Lemma count_if (m m' : motor) (b : bool) (e : event) :
  drives m e = false → count m (if b then [e] else []) = 0%nat.
Proof. intros H. destruct b; unfold count; cbn [List.filter]; rewrite ?H; reflexivity. Qed.

Lemma count_if_le (m : motor) (b : bool) (e : event) :
  (count m (if b then [e] else []) ≤ 1)%nat.
Proof. destruct b; unfold count; cbn [List.filter]; [destruct (drives m e)|]; cbn; lia. Qed.

(** X8: a move never sends two commands to the same motor, and none to
    the extruder motor: the test for lifting Z first and the test for
    lowering it last cannot both hold. *)
Theorem move_commands_each_motor_once (env : move_env)
  (x y z prev_x prev_y prev_z : float) (command : string) (self : Printer)
  (m : motor) :
  let tr := trace (move env x y z prev_x prev_y prev_z command self) in
  (count m tr ≤ 1)%nat ∧ count e_motor tr = 0%nat.
Proof.
  intros tr. subst tr. rewrite move_spec.
  destruct (x' ← truediv x (x_mm_per_degree self); Py.int x') as [xd|];
    [|split; cbn; lia].
  destruct (y' ← truediv y (y_mm_per_degree self); Py.int y') as [yd|];
    [|split; cbn; lia].
  destruct (z' ← truediv z (z_mm_per_degree self); Py.int z') as [zd|];
    [|split; cbn; lia].
  match goal with
  | |- context [match ?s with Some v => _ | None => _ end] =>
      destruct s as [[x_speed y_speed]|]
  end; [|split; cbn; lia].
  unfold trace. cbn [snd]. rewrite !count_app, !count_waits.
  split.
  - destruct (prev_z <? Py.float_of_Z zd)%float eqn:Hup.
    + rewrite (ltb_asym _ _ Hup).
      destruct m;
        repeat match goal with
               | |- context [count ?a (if ?b then [?e] else [])] =>
                   first [ rewrite (count_if a a b e) by reflexivity
                         | pose proof (count_if_le a b e);
                           generalize dependent (count a (if b then [e] else [])); intros ]
               end; cbn; lia.
    + destruct m;
        repeat match goal with
               | |- context [count ?a (if ?b then [?e] else [])] =>
                   first [ rewrite (count_if a a b e) by reflexivity
                         | pose proof (count_if_le a b e);
                           generalize dependent (count a (if b then [e] else [])); intros ]
               end; cbn; lia.
  - rewrite !(count_if e_motor e_motor) by reflexivity. reflexivity.
Qed.

(** X9: a move returns exactly when its command is G0 or G1 and its three
    coordinates have a position in degrees; when it raises, it does so
    before any command has gone to a motor; either way it leaves the
    printer's state as it was. *)
Theorem move_fails_before_any_command (env : move_env)
  (x y z prev_x prev_y prev_z : float) (command : string) (self : Printer) :
  let r := move env x y z prev_x prev_y prev_z command self in
  final r = self
  ∧ (outcome r = Py.Ok tt ↔
     (String.eqb command "G0" || String.eqb command "G1")%string = true
     ∧ Main.converts (x_mm_per_degree self) x = true
     ∧ Main.converts (y_mm_per_degree self) y = true
     ∧ Main.converts (z_mm_per_degree self) z = true)
  ∧ (outcome r ≠ Py.Ok tt → trace r = []).
Proof.
  intros r. subst r. split; [apply move_final|].
  rewrite move_spec. unfold Main.converts, outcome, trace.
  destruct (x' ← truediv x (x_mm_per_degree self); Py.int x') as [xd|];
    [|cbn [fst snd]; split; [split; [discriminate | intros (_ & ? & _); discriminate] | done]].
  destruct (y' ← truediv y (y_mm_per_degree self); Py.int y') as [yd|];
    [|cbn [fst snd]; split; [split; [discriminate | intros (_ & _ & ? & _); discriminate] | done]].
  destruct (z' ← truediv z (z_mm_per_degree self); Py.int z') as [zd|];
    [|cbn [fst snd]; split; [split; [discriminate | intros (_ & _ & _ & ?); discriminate] | done]].
  destruct (String.eqb command "G1"), (String.eqb command "G0");
    try destruct (_calculate_velocity_components _ _ _ _ _);
    cbn [fst snd orb];
    (split;
     [split; [first [done | discriminate] | first [done | intros (? & _); discriminate]]
     | first [done | intros H; contradiction H; reflexivity]]).
Qed.

(** A number minus itself is zero, or [nan] when the number is not
    finite. *)
Lemma sub_diag_class (x : float) :
  Prim2SF (x - x) = S754_nan ∨ ∃ s, Prim2SF (x - x) = S754_zero s.
Proof.
  rewrite FloatAxioms.sub_spec. unfold SF64sub, SFsub.
  destruct (Prim2SF x) as [s|s| |s m e].
  - right. destruct s; eexists; reflexivity.
  - left. destruct s; reflexivity.
  - left. reflexivity.
  - right. exists false. rewrite Z.sub_diag. reflexivity.
Qed.

Lemma ltb_nan_r (a b : float) : Prim2SF b = S754_nan → (a <? b)%float = false.
Proof.
  intros H. rewrite FloatAxioms.ltb_spec, H. unfold SFltb, SFcompare.
  destruct (Prim2SF a); reflexivity.
Qed.

Lemma abs_nan (a : float) : Prim2SF a = S754_nan → Prim2SF (abs a) = S754_nan.
Proof. intros H. rewrite FloatAxioms.abs_spec, H. reflexivity. Qed.

Lemma mul_nan_l (a b : float) : Prim2SF a = S754_nan → Prim2SF (a * b) = S754_nan.
Proof. intros H. rewrite FloatAxioms.mul_spec, H. reflexivity. Qed.

Lemma abs_zero_below (a : float) (s : bool) :
  Prim2SF a = S754_zero s → (abs a <? 0.05)%float = true.
Proof.
  intros H. rewrite FloatAxioms.ltb_spec, FloatAxioms.abs_spec, H.
  set (c := Prim2SF 0.05). vm_compute in c. subst c. reflexivity.
Qed.

Lemma ltb_nan_l (a b : float) : Prim2SF a = S754_nan → (a <? b)%float = false.
Proof.
  intros H. rewrite FloatAxioms.ltb_spec, H. reflexivity.
Qed.

(** The component of an axis whose target is where it is already is never
    above the threshold of 2 that [move] asks of a speed. *)
Lemma held_axis_is_slow (d inv S : float) (near : bool) :
  (Prim2SF d = S754_nan ∨ ∃ s, Prim2SF d = S754_zero s) →
  (2 <? abs (if near then 0
             else if (abs d <? 0.05) then 0 else d * inv * S))%float = false.
Proof.
  intros Hd. destruct near; [vm_compute; reflexivity|].
  destruct Hd as [Hn | [s Hz]].
  - rewrite (ltb_nan_l (abs d) 0.05) by (apply abs_nan, Hn).
    apply ltb_nan_r, abs_nan, mul_nan_l, mul_nan_l, Hn.
  - rewrite (abs_zero_below d s Hz). vm_compute. reflexivity.
Qed.

Lemma held_x_component (cx cy ty S : float) :
  (2 <? abs (_calculate_velocity_components cx cy cx ty S).1)%float = false.
Proof.
  unfold _calculate_velocity_components.
  set (dx := (cx - cx)%float). set (dy := (ty - cy)%float).
  set (distance := sqrt (dx * dx + dy * dy)%float).
  pose proof (held_axis_is_slow dx (1 / distance) S (distance <? 0.05)%float
                (sub_diag_class cx)) as H.
  destruct (distance <? 0.05)%float; exact H.
Qed.

Lemma held_y_component (cx cy tx S : float) :
  (2 <? abs (_calculate_velocity_components cx cy tx cy S).2)%float = false.
Proof.
  unfold _calculate_velocity_components.
  set (dx := (tx - cx)%float). set (dy := (cy - cy)%float).
  set (distance := sqrt (dx * dx + dy * dy)%float).
  pose proof (held_axis_is_slow dy (1 / distance) S (distance <? 0.05)%float
                (sub_diag_class cy)) as H.
  destruct (distance <? 0.05)%float; exact H.
Qed.

Lemma held_x_move (env : move_env) (x y z prev_y prev_z : float)
  (command : string) (self : Printer) :
  count x_motor (trace (move env x y z x prev_y prev_z command self)) = 0%nat.
Proof.
  rewrite move_spec.
  destruct (x' ← truediv x (x_mm_per_degree self); Py.int x') as [xd|]; [|reflexivity].
  destruct (y' ← truediv y (y_mm_per_degree self); Py.int y') as [yd|]; [|reflexivity].
  destruct (z' ← truediv z (z_mm_per_degree self); Py.int z') as [zd|]; [|reflexivity].
  destruct (String.eqb command "G1"); [|destruct (String.eqb command "G0")];
    [| |reflexivity].
  all: match goal with
       | |- context [_calculate_velocity_components ?a ?b ?c ?d ?S] =>
           pose proof (held_x_component a b d S) as Hx;
           destruct (_calculate_velocity_components a b c d S) as [x_speed y_speed]
       end;
    cbn [fst] in Hx; unfold trace; cbn [snd];
    rewrite Hx; cbn [andb];
    rewrite !count_app, !count_waits, !(count_if x_motor x_motor) by reflexivity;
    reflexivity.
Qed.

Lemma held_y_move (env : move_env) (x y z prev_x prev_z : float)
  (command : string) (self : Printer) :
  count y_motor (trace (move env x y z prev_x y prev_z command self)) = 0%nat.
Proof.
  rewrite move_spec.
  destruct (x' ← truediv x (x_mm_per_degree self); Py.int x') as [xd|]; [|reflexivity].
  destruct (y' ← truediv y (y_mm_per_degree self); Py.int y') as [yd|]; [|reflexivity].
  destruct (z' ← truediv z (z_mm_per_degree self); Py.int z') as [zd|]; [|reflexivity].
  destruct (String.eqb command "G1"); [|destruct (String.eqb command "G0")];
    [| |reflexivity].
  all: match goal with
       | |- context [_calculate_velocity_components ?a ?b ?c ?d ?S] =>
           pose proof (held_y_component a b c S) as Hy;
           destruct (_calculate_velocity_components a b c d S) as [x_speed y_speed]
       end;
    cbn [snd] in Hy; unfold trace; cbn [snd];
    rewrite Hy; cbn [andb];
    rewrite !count_app, !count_waits, !(count_if y_motor y_motor) by reflexivity;
    reflexivity.
Qed.

(** X10: a move whose target X is the previous X sends no command to the
    X motor, whatever the other coordinates are, and likewise for Y: an
    axis that is to hold its position is left alone. *)
Theorem held_axis_gets_no_command (env : move_env)
  (x y z prev_x prev_y prev_z : float) (command : string) (self : Printer) :
  (x = prev_x →
   count x_motor (trace (move env x y z prev_x prev_y prev_z command self)) = 0%nat)
  ∧ (y = prev_y →
     count y_motor (trace (move env x y z prev_x prev_y prev_z command self)) = 0%nat).
Proof.
  split; intros ->; [apply held_x_move | apply held_y_move].
Qed.

Lemma held_axis_gets_no_command_witness :
  count x_motor (trace (move (Main.motion (Main.idle 0%nat)) 5 20 0.4 5 0 0.4 "G1" __init__)) = 0%nat
  ∧ count y_motor (trace (move (Main.motion (Main.idle 0%nat)) 9 7 0.4 5 7 0.4 "G0" __init__)) = 0%nat.
Proof.
  split.
  - apply (proj1 (held_axis_gets_no_command _ 5 20 0.4 5 0 0.4 "G1" __init__)). reflexivity.
  - apply (proj2 (held_axis_gets_no_command _ 9 7 0.4 5 7 0.4 "G0" __init__)). reflexivity.
Defined.

(** X11: a move whose target lies less than 0.05 mm from the previous
    position in the X-Y plane sends no command to the X motor and none to
    the Y motor. *)
Theorem small_move_sends_no_xy_command (env : move_env)
  (x y z prev_x prev_y prev_z : float) (command : string) (self : Printer) :
  (sqrt ((x - prev_x) * (x - prev_x) + (y - prev_y) * (y - prev_y)) <? 0.05)%float = true →
  let tr := trace (move env x y z prev_x prev_y prev_z command self) in
  count x_motor tr = 0%nat ∧ count y_motor tr = 0%nat.
Proof.
  intros Hd tr. subst tr. rewrite move_spec. unfold _calculate_velocity_components.
  rewrite Hd.
  destruct (x' ← truediv x (x_mm_per_degree self); Py.int x'); [|done].
  destruct (y' ← truediv y (y_mm_per_degree self); Py.int y'); [|done].
  destruct (z' ← truediv z (z_mm_per_degree self); Py.int z') as [zd|]; [|done].
  destruct (String.eqb command "G1"); [|destruct (String.eqb command "G0")];
    [| |done].
  all: unfold trace; cbn [snd]; cbv beta iota;
    replace (2 <? abs 0)%float with false by (vm_compute; reflexivity);
    cbn [andb];
    rewrite !count_app, !count_waits,
      !(count_if x_motor x_motor), !(count_if y_motor y_motor) by reflexivity;
    done.
Qed.

Lemma small_move_sends_no_xy_command_witness :
  let tr := trace (move (Main.motion (Main.idle 0%nat)) 5.03 7 0.4 5 7.03 0.2 "G1" __init__) in
  count x_motor tr = 0%nat ∧ count y_motor tr = 0%nat.
Proof.
  apply (small_move_sends_no_xy_command _ 5.03 7 0.4 5 7.03 0.2 "G1" __init__).
  vm_compute. reflexivity.
Defined.

End MotionFacts.

(* ===================================================================== *)
(** * More on homing                                                      *)
(* ===================================================================== *)

Module HomingFacts.
Import Printer PrinterFacts Axes.

Lemma calls_on_app (m : motor) (a b : list event) :
  calls_on m (a ++ b) = calls_on m a ++ calls_on m b.
Proof. apply List.filter_app. Qed.

Lemma calls_on_waits (m : motor) (time : Z) (k : nat) :
  calls_on m (repeat (wait time) k) = [].
Proof. induction k as [|k IH]; [reflexivity|]. exact IH. Qed.

(** The whole trace of [home]. *)
Lemma home_trace (env : home_env) (self : Printer) :
  home env self =
    (Py.Ok tt, self,
     ([draw_centered_text TextHoming; run x_motor (-2.5 * xy_speed self)]
      ++ repeat (wait 5) (x_coarse_waits env)
      ++ [brake x_motor; run_angle x_motor (xy_speed self) 45 BRAKE true;
          run x_motor (-0.5 * xy_speed self)]
      ++ repeat (wait 5) (x_fine_waits env)
      ++ [hold x_motor; run y_motor (-2.5 * xy_speed self)]
      ++ repeat (wait 5) (y_coarse_waits env)
      ++ [brake y_motor; run_angle y_motor (xy_speed self) 45 BRAKE true;
          run y_motor (-0.5 * xy_speed self)]
      ++ repeat (wait 5) (y_fine_waits env)
      ++ [hold y_motor; run z_motor (- z_speed self)]
      ++ repeat (wait 5) (z_coarse_waits env)
      ++ [brake z_motor; run_angle z_motor (z_speed self) 8 BRAKE true;
          run z_motor (-0.25 * z_speed self)]
      ++ repeat (wait 5) (z_fine_waits env)
      ++ [hold z_motor;
          run_angle z_motor (z_speed self) Z_offset_up HOLD true; wait 500;
          reset_angle z_motor 0; stop z_motor;
          run_angle x_motor (xy_speed self) X_offset HOLD true; wait 500;
          reset_angle x_motor 0; stop x_motor;
          reset_angle y_motor 0; stop y_motor;
          run_angle z_motor (z_speed self) Z_offset_down HOLD true; wait 500;
          reset_angle z_motor 0; stop z_motor])%float).
Proof.
  unfold home, home_offsets, home_xy, home_z, offset. unfold_P.
  cbv beta iota.
  replace (Z_offset_up =? 0)%float with false by (vm_compute; reflexivity).
  replace (X_offset =? 0)%float with false by (vm_compute; reflexivity).
  replace (Y_offset =? 0)%float with true by (vm_compute; reflexivity).
  replace (Z_offset_down =? 0)%float with false by (vm_compute; reflexivity).
  cbv beta iota. cbn [negb].
  f_equal. norm_app. reflexivity.
Qed.

(** C8: when the three axes have been zeroed, each sensor having made
    contact after the polls that [env] gives, the trace of [home] is the
    seek of X, the seek of Y and the seek of Z, each a fast run to the
    sensor, a brake, a back-off, a slow run and a hold, followed by the
    four offset steps in the order Z up, X, Y, Z down.  A step with a
    nonzero offset moves, pauses 500 ms and only then resets the angle of
    its motor to zero; a step with a zero offset, as Y's is, neither moves
    nor pauses and still resets the angle. *)
Theorem home_offset_sequence (env : home_env) (self : Printer) :
  (∀ (m : motor) (o s : float),
     offset m o s self =
       (Py.Ok tt, self,
        if (o =? 0)%float then [reset_angle m 0; stop m]
        else [run_angle m s o HOLD true; wait 500; reset_angle m 0; stop m]))
  ∧ trace (home env self) =
      ([draw_centered_text TextHoming]
       ++ [run x_motor (-2.5 * xy_speed self)]
       ++ repeat (wait 5) (x_coarse_waits env)
       ++ [brake x_motor; run_angle x_motor (xy_speed self) 45 BRAKE true;
           run x_motor (-0.5 * xy_speed self)]
       ++ repeat (wait 5) (x_fine_waits env)
       ++ [hold x_motor]
       ++ [run y_motor (-2.5 * xy_speed self)]
       ++ repeat (wait 5) (y_coarse_waits env)
       ++ [brake y_motor; run_angle y_motor (xy_speed self) 45 BRAKE true;
           run y_motor (-0.5 * xy_speed self)]
       ++ repeat (wait 5) (y_fine_waits env)
       ++ [hold y_motor]
       ++ [run z_motor (- z_speed self)]
       ++ repeat (wait 5) (z_coarse_waits env)
       ++ [brake z_motor; run_angle z_motor (z_speed self) 8 BRAKE true;
           run z_motor (-0.25 * z_speed self)]
       ++ repeat (wait 5) (z_fine_waits env)
       ++ [hold z_motor]
       ++ [run_angle z_motor (z_speed self) Z_offset_up HOLD true; wait 500;
           reset_angle z_motor 0; stop z_motor]
       ++ [run_angle x_motor (xy_speed self) X_offset HOLD true; wait 500;
           reset_angle x_motor 0; stop x_motor]
       ++ [reset_angle y_motor 0; stop y_motor]
       ++ [run_angle z_motor (z_speed self) Z_offset_down HOLD true; wait 500;
           reset_angle z_motor 0; stop z_motor])%float.
Proof.
  split; [intros; apply offset_spec|].
  rewrite home_trace. unfold trace. cbn [snd].
  norm_app. reflexivity.
Qed.

(** X12: when each sensor makes contact, after whatever number of polls,
    [home] leaves the state of the printer unchanged and each axis goes
    through its phases in order: fast run to the sensor, brake, back off,
    slow run to the sensor, hold, then its offset (none for Y, two for Z)
    and the reset of its angle to zero; the extruder motor is not
    touched. *)
Theorem home_phases_per_axis (env : home_env) (self : Printer) :
  let r := home env self in
  final r = self
  ∧ calls_on x_motor (trace r) =
      [run x_motor (-2.5 * xy_speed self); brake x_motor;
       run_angle x_motor (xy_speed self) 45 BRAKE true;
       run x_motor (-0.5 * xy_speed self); hold x_motor;
       run_angle x_motor (xy_speed self) 290 HOLD true;
       reset_angle x_motor 0; stop x_motor]%float
  ∧ calls_on y_motor (trace r) =
      [run y_motor (-2.5 * xy_speed self); brake y_motor;
       run_angle y_motor (xy_speed self) 45 BRAKE true;
       run y_motor (-0.5 * xy_speed self); hold y_motor;
       reset_angle y_motor 0; stop y_motor]%float
  ∧ calls_on z_motor (trace r) =
      [run z_motor (- z_speed self); brake z_motor;
       run_angle z_motor (z_speed self) 8 BRAKE true;
       run z_motor (-0.25 * z_speed self); hold z_motor;
       run_angle z_motor (z_speed self) 18 HOLD true;
       reset_angle z_motor 0; stop z_motor;
       run_angle z_motor (z_speed self) (-11.25) HOLD true;
       reset_angle z_motor 0; stop z_motor]%float
  ∧ calls_on e_motor (trace r) = [].
Proof.
  intros r. subst r. rewrite home_trace. unfold final, trace. cbn [fst snd].
  split; [reflexivity|].
  rewrite !calls_on_app, !calls_on_waits.
  repeat split; reflexivity.
Qed.

End HomingFacts.

(* ===================================================================== *)
(** * More on the print loop                                              *)
(* ===================================================================== *)

Module JobFacts.
Import Printer PrinterFacts Main MainFacts Motion MotionFacts Job.

(** The trace of the body of the loop. *)
Lemma execute_trace (env : nat → line_env) (total_lines line_count : nat)
  (d : GCode.parsed_data) (st : locals) (self : Printer) :
  let mv :=
    move (motion (env line_count))
      (default (current_x st) (GCode.coord_X d))
      (default (current_y st) (GCode.coord_Y d))
      (default (current_z st) (GCode.coord_Z d))
      (current_x st) (current_y st) (current_z st) (GCode.command d) in
  trace (execute env total_lines line_count d st self) =
    if GCode.extruding d then
      (if extruding self then [] else engage_sequence self)
      ++ trace (mv (with_extruding true self))
    else
      trace (mv self)
      ++ match outcome (mv self) with
         | Py.Ok _ =>
             (if extruding self then disengage_sequence self else [])
             ++ [draw_centered_text TextPrinting;
                 draw_centered_text (TextPercent line_count total_lines)]
         | Py.Raise _ => []
         end.
Proof.
  intros mv. unfold execute. fold mv.
  destruct (GCode.extruding d); cbn [negb].
  - rewrite bind_trace, extrude_spec. unfold outcome, final, trace at 1. cbn [fst snd].
    f_equal.
    pose proof (move_final (motion (env line_count))
                  (default (current_x st) (GCode.coord_X d))
                  (default (current_y st) (GCode.coord_Y d))
                  (default (current_z st) (GCode.coord_Z d))
                  (current_x st) (current_y st) (current_z st) (GCode.command d)
                  (with_extruding true self)) as Hf.
    fold mv in Hf. unfold final in Hf.
    unfold mbind, P_bind, mret, P_ret, trace.
    destruct (mv (with_extruding true self)) as [[[[]|e] s] tr]; cbn [fst snd] in *.
    all: norm_app; reflexivity.
  - pose proof (move_final (motion (env line_count))
                  (default (current_x st) (GCode.coord_X d))
                  (default (current_y st) (GCode.coord_Y d))
                  (default (current_z st) (GCode.coord_Z d))
                  (current_x st) (current_y st) (current_z st) (GCode.command d)
                  self) as Hf.
    fold mv in Hf. unfold final in Hf.
    unfold mbind, P_bind, mret, P_ret, emit, trace, outcome.
    destruct (mv self) as [[[[]|e] s] tr]; cbn [fst snd] in *.
    2: { norm_app; reflexivity. }
    subst s. rewrite extrude_spec. cbv beta iota. cbn [snd].
    norm_app. reflexivity.
Qed.

(** What the body of the loop returns, when it returns. *)
Lemma execute_outcome (env : nat → line_env) (total_lines line_count : nat)
  (d : GCode.parsed_data) (st st' : locals) (self : Printer) :
  outcome (execute env total_lines line_count d st self) = Py.Ok st' →
  st' = {| processor := processor st;
           current_x := default (current_x st) (GCode.coord_X d);
           current_y := default (current_y st) (GCode.coord_Y d);
           current_z := default (current_z st) (GCode.coord_Z d) |}.
Proof.
  unfold execute, outcome, mbind, P_bind, mret, P_ret, emit.
  destruct (GCode.extruding d); cbn [negb]; rewrite ?extrude_spec; cbv beta iota.
  - destruct (move _ _ _ _ _ _ _ _ _) as [[[[]|e] s] tr]; cbn [fst snd];
      [|discriminate]. intros [= <-]. reflexivity.
  - destruct (move _ _ _ _ _ _ _ _ _) as [[[[]|e] s] tr]; cbn [fst snd];
      [|discriminate]. rewrite extrude_spec. cbv beta iota. cbn [fst snd].
    intros [= <-]. reflexivity.
Qed.

Lemma count_extruder_sequences (m : motor) (self : Printer) (b : bool) :
  m ≠ e_motor →
  count m (if b then [] else engage_sequence self) = 0%nat
  ∧ count m (if b then disengage_sequence self else []) = 0%nat.
Proof. intros Hm. destruct m, b; try congruence; split; reflexivity. Qed.

(** X13: a G0 or G1 line that does not name X keeps the X position and
    sends no command to the X motor, and likewise for Y. *)
Theorem unnamed_axis_is_left_alone (env : nat → line_env)
  (total_lines line_count : nat) (d : GCode.parsed_data) (st : locals)
  (self : Printer) :
  let r := execute env total_lines line_count d st self in
  (GCode.coord_X d = None →
   count x_motor (trace r) = 0%nat
   ∧ ∀ st', outcome r = Py.Ok st' → current_x st' = current_x st)
  ∧ (GCode.coord_Y d = None →
     count y_motor (trace r) = 0%nat
     ∧ ∀ st', outcome r = Py.Ok st' → current_y st' = current_y st).
Proof.
  intros r. subst r. split; intros Hn.
  - split.
    + rewrite execute_trace. rewrite Hn. cbn [default].
      destruct (GCode.extruding d); rewrite count_app.
      * rewrite (proj1 (count_extruder_sequences x_motor self _ ltac:(discriminate))).
        rewrite held_x_move. reflexivity.
      * rewrite held_x_move.
        destruct (outcome _); [|reflexivity].
        rewrite count_app.
        rewrite (proj2 (count_extruder_sequences x_motor self _ ltac:(discriminate))).
        reflexivity.
    + intros st' H. apply execute_outcome in H. subst st'. rewrite Hn. reflexivity.
  - split.
    + rewrite execute_trace. rewrite Hn. cbn [default].
      destruct (GCode.extruding d); rewrite count_app.
      * rewrite (proj1 (count_extruder_sequences y_motor self _ ltac:(discriminate))).
        rewrite held_y_move. reflexivity.
      * rewrite held_y_move.
        destruct (outcome _); [|reflexivity].
        rewrite count_app.
        rewrite (proj2 (count_extruder_sequences y_motor self _ ltac:(discriminate))).
        reflexivity.
    + intros st' H. apply execute_outcome in H. subst st'. rewrite Hn. reflexivity.
Qed.

Lemma unnamed_axis_is_left_alone_witness :
  let d := {| GCode.command := "G1"; GCode.extruding := false;
              GCode.coord_X := None; GCode.coord_Y := Some 5%float;
              GCode.coord_Z := None |} in
  let st := {| processor := GCode.__init__ 0;
               current_x := 3; current_y := 0; current_z := 0 |} in
  let r := execute idle 10 1 d st __init__ in
  count x_motor (trace r) = 0%nat
  ∧ ∀ st', outcome r = Py.Ok st' → current_x st' = 3%float.
Proof.
  intros d st.
  apply (proj1 (unnamed_axis_is_left_alone idle 10 1 d st __init__)).
  reflexivity.
Defined.

Lemma P_bind_assoc {A B C} (m : P A) (f : A → P B) (g : B → P C) (self : Printer) :
  ((m ≫= f) ≫= g) self = (m ≫= (λ a, f a ≫= g)) self.
Proof.
  unfold mbind, P_bind.
  destruct (m self) as [[[a|e] s] tr]; [|reflexivity].
  destruct (f a s) as [[[b|e] s1] tr1]; [|reflexivity].
  destruct (g b s1) as [[r s2] tr2]. rewrite app_assoc. reflexivity.
Qed.

Lemma P_bind_ext {A B} (m : P A) (f g : A → P B) (self : Printer) :
  (∀ a s, f a s = g a s) → (m ≫= f) self = (m ≫= g) self.
Proof.
  intros H. unfold mbind, P_bind.
  destruct (m self) as [[[a|e] s] tr]; [|reflexivity].
  rewrite H. reflexivity.
Qed.

Lemma lines_read_length (env : nat → line_env) (lines : list string) (n : nat) :
  (length (lines_read env lines n) ≤ length lines)%nat.
Proof.
  revert n. induction lines as [|l rest IH]; intros n; cbn [lines_read]; [done|].
  destruct (center_pressed _); cbn [length]; [lia|]. specialize (IH (S n)). lia.
Qed.

(** X14: the loop over the lines of the file is the loop over the lines
    before the first press of the stop button, followed, when there was
    one, by the message, the beep and the wait for the release; no line
    from the stop on is parsed or executed. *)
Theorem stop_button_ends_the_loop (py_float : string → option float)
  (env : nat → line_env) (total_lines : nat) (lines : list string)
  (line_count : nat) (st : locals) (self : Printer) :
  let read := lines_read env lines line_count in
  for_lines py_float env total_lines lines line_count st self =
    (st' ← for_lines py_float env total_lines read line_count st;
     (if (length read <? length lines)%nat
      then stopped (env (S (line_count + length read)))
      else mret tt);;
     mret st') self.
Proof.
  revert line_count st self.
  induction lines as [|l rest IH]; intros n st self; cbn zeta.
  { reflexivity. }
  cbn [lines_read]. destruct (center_pressed (env (S n))) eqn:Hc.
  { cbn [for_lines length]. rewrite Hc, Nat.add_0_r.
    change (0 <? S (length rest))%nat with true. cbv iota.
    unfold stopped, mbind, P_bind, mret, P_ret, emit, wait_loop, emits.
    norm_app. reflexivity. }
  cbn [for_lines length]. rewrite Hc.
  change (S (length (lines_read env rest (S n))) <? S (length rest))%nat
    with (length (lines_read env rest (S n)) <? length rest)%nat.
  replace (S (n + S (length (lines_read env rest (S n)))))
    with (S (S n + length (lines_read env rest (S n)))) by lia.
  destruct (GCode.parse_line py_float l (Z.of_nat (S n)) (processor st))
    as [[[d|] p'] out].
  2: { apply IH. }
  rewrite P_bind_assoc. apply P_bind_ext. intros st1 s. apply IH.
Qed.

(** The state of the driver when the loop returns. *)
Lemma for_lines_state (py_float : string → option float)
  (env : nat → line_env) (total_lines : nat) (lines : list string) :
  ∀ (line_count : nat) (st st' : locals) (self : Printer),
    outcome (for_lines py_float env total_lines lines line_count st self) = Py.Ok st' →
    let read := lines_read env lines line_count in
    processor st' =
      GCode.final (GCode.parse_lines py_float read (Z.of_nat (S line_count))
                     (processor st))
    ∧ current_x st' = List.last (axis_seen py_float "X" read) (current_x st)
    ∧ current_y st' = List.last (axis_seen py_float "Y" read) (current_y st)
    ∧ current_z st' = List.last (axis_seen py_float "Z" read) (current_z st).
Proof.
  induction lines as [|l rest IH]; intros n st st' self; cbn zeta.
  { intros [= <-]. done. }
  cbn [for_lines lines_read]. destruct (center_pressed (env (S n))).
  { intros [= <-]. done. }
  destruct (GCodeFacts.parse_lines_cons py_float l (lines_read env rest (S n))
              (Z.of_nat (S n)) (processor st)) as [-> _].
  replace (Z.of_nat (S n) + 1) with (Z.of_nat (S (S n))) by lia.
  unfold axis_seen. cbn [omap list_omap]. fold (axis_seen py_float).
  destruct (GCode.is_move l) eqn:Hm.
  - destruct (GCodeFacts.parse_line_move py_float l (Z.of_nat (S n))
                (processor st) Hm) as (Hr & _).
    unfold GCode.returned, GCode.final in *.
    destruct (GCode.parse_line py_float l (Z.of_nat (S n)) (processor st))
      as [[r p'] out]. cbn [fst snd] in *. subst r.
    set (d := {| GCode.command := _ |}).
    set (st0 := {| processor := p' |}).
    unfold mbind, P_bind.
    destruct (execute env total_lines (S n) d st0 self) as [[[st1|e] s] tr] eqn:Ee.
    2: { intros [=]. }
    pose proof (execute_outcome env total_lines (S n) d st0 st1 self) as He.
    rewrite Ee in He. specialize (He eq_refl).
    pose proof (IH (S n) st1 st' s) as IH1.
    destruct (for_lines py_float env total_lines rest (S n) st1 s) as [[r2 s2] tr2].
    intros Ho. specialize (IH1 Ho). cbn zeta in IH1.
    destruct IH1 as (Hp & Hx & Hy & Hz).
    subst st1 d st0. cbn [processor current_x current_y current_z
                          GCode.coord_X GCode.coord_Y GCode.coord_Z] in *.
    split; [exact Hp|].
    rewrite Hx, Hy, Hz.
    destruct (GCode.raw_params_of py_float l !! "X"%char),
             (GCode.raw_params_of py_float l !! "Y"%char),
             (GCode.raw_params_of py_float l !! "Z"%char);
      cbn [default]; unfold id; rewrite ?last_cons; done.
  - pose proof (GCodeFacts.parse_line_not_move py_float l (Z.of_nat (S n))
                  (processor st) Hm) as Hr.
    unfold GCode.returned, GCode.final in *.
    destruct (GCode.parse_line py_float l (Z.of_nat (S n)) (processor st))
      as [[r p'] out]. cbn [fst snd] in *. subst r.
    intros Ho. apply IH in Ho. exact Ho.
Qed.

(** X15: when every coordinate of the lines, and the position the loop
    starts from, has a position in degrees, the loop returns; the parser
    it hands on has read exactly the lines before the stop, and each of X,
    Y and Z is the last value that a G0 or G1 line among them gave it, or
    the starting one when none did. *)
Theorem position_follows_last_named_value (py_float : string → option float)
  (env : nat → line_env) (total_lines : nat) (self : Printer)
  (lines : list string) (line_count : nat) (st : locals) :
  Forall (λ l, line_converts py_float self l = true) lines →
  converts (x_mm_per_degree self) (current_x st) = true →
  converts (y_mm_per_degree self) (current_y st) = true →
  converts (z_mm_per_degree self) (current_z st) = true →
  let read := lines_read env lines line_count in
  ∃ st',
    outcome (for_lines py_float env total_lines lines line_count st self) = Py.Ok st'
    ∧ processor st' =
        GCode.final (GCode.parse_lines py_float read (Z.of_nat (S line_count))
                       (processor st))
    ∧ current_x st' = List.last (axis_seen py_float "X" read) (current_x st)
    ∧ current_y st' = List.last (axis_seen py_float "Y" read) (current_y st)
    ∧ current_z st' = List.last (axis_seen py_float "Z" read) (current_z st).
Proof.
  intros Hall Hx Hy Hz read.
  destruct (for_lines_returns py_float env total_lines self lines Hall line_count st self)
    as [st' Hst];
    [exists (extruding self); symmetry; apply with_extruding_same | assumption..|].
  exists st'. split; [exact Hst|].
  apply (for_lines_state py_float env total_lines lines line_count st st' self Hst).
Qed.

Lemma position_follows_last_named_value_witness :
  let lines := ["G1 X10 Y5 E1"; "G92 E0"; "G1 X20 Z0.2 E2"; "G1 X30"]%string in
  let env := λ n, {| center_pressed := Nat.eqb n 4; release_waits := 0;
                     motion := {| barrier_waits := 1; x_angle := 0; y_angle := 0 |} |} in
  let st := {| processor := GCode.__init__ 0;
               current_x := 0; current_y := 0; current_z := 0 |} in
  let read := lines_read env lines 0 in
  ∃ st',
    outcome (for_lines Py.float_of_string env 4 lines 0 st __init__) = Py.Ok st'
    ∧ processor st' =
        GCode.final (GCode.parse_lines Py.float_of_string read 1 (processor st))
    ∧ current_x st' = List.last (axis_seen Py.float_of_string "X" read) 0%float
    ∧ current_y st' = List.last (axis_seen Py.float_of_string "Y" read) 0%float
    ∧ current_z st' = List.last (axis_seen Py.float_of_string "Z" read) 0%float.
Proof.
  intros lines env st.
  apply (position_follows_last_named_value Py.float_of_string env 4 __init__
           lines 0 st).
  - repeat (constructor; [vm_compute; reflexivity|]). constructor.
  - vm_compute. reflexivity.
  - vm_compute. reflexivity.
  - vm_compute. reflexivity.
Defined.

End JobFacts.

(* ===================================================================== *)
(** * Finding the G-code files                                            *)
(* ===================================================================== *)

Module FilesFacts.
Import Files.

Section Facts.

Variable os_stat : string → option Z.
Variable os_listdir : string → option (list string).

Lemma _is_file_regular (v : Z) (path : string) :
  (_is_file os_stat v path).1 = regular os_stat path.
Proof.
  unfold _is_file, regular. destruct (os_stat path) as [m|]; [|reflexivity].
  unfold mbind, W_bind, mret, W_ret, _log.
  destruct (negb _); reflexivity.
Qed.

Lemma for_items_filter (self : GCodeProcessor) (items gcode_files : list string) :
  (for_items os_stat self items gcode_files).1 =
    gcode_files ++ List.filter (is_gcode_file os_stat self) items.
Proof.
  revert gcode_files. induction items as [|item rest IH]; intros acc.
  { cbn. rewrite app_nil_r. reflexivity. }
  cbn [for_items List.filter]. unfold is_gcode_file at 1.
  destruct (endswith (Py.lower item) (gcode_extension self)); cbn [andb].
  2: { apply IH. }
  rewrite <- _is_file_regular with (v := verbose self).
  unfold mbind, W_bind.
  destruct (_is_file os_stat (verbose self) (full_path self item)) as [[] out];
    cbn [fst].
  - unfold _log. specialize (IH (acc ++ [item])).
    destruct (for_items os_stat self rest (acc ++ [item])) as [r out'].
    cbn [fst] in *. rewrite IH, <- app_assoc. reflexivity.
  - specialize (IH acc).
    destruct (for_items os_stat self rest acc) as [r out']. exact IH.
Qed.

Lemma find_gcode_files_filter (self : GCodeProcessor) :
  (find_gcode_files os_stat os_listdir self).1 =
    if models_dir_valid self then
      match os_listdir (models_dir self) with
      | Some items => List.filter (is_gcode_file os_stat self) items
      | None => []
      end
    else [].
Proof.
  unfold find_gcode_files.
  destruct (models_dir_valid self); cbn [negb]; [|reflexivity].
  destruct (os_listdir (models_dir self)) as [items|]; [|reflexivity].
  pose proof (for_items_filter self items []) as H.
  unfold mbind, W_bind, mret, W_ret, _log.
  destruct (for_items os_stat self items []) as [r out]. cbn [fst app] in *.
  subst r. destruct (List.filter _ items); reflexivity.
Qed.

Lemma __init___fields (models_subdir gcode_extension : string) (v : Z) :
  let self := (__init__ os_stat models_subdir gcode_extension v).1 in
  Files.gcode_extension self = Py.lower gcode_extension
  ∧ models_dir self = models_subdir
  ∧ models_dir_valid self = directory os_stat models_subdir
  ∧ verbose self = v.
Proof.
  unfold __init__, _is_directory, directory.
  destruct (os_stat models_subdir) as [m|];
    unfold mbind, W_bind, mret, W_ret, _log; cbn [fst].
  - destruct (Z.land m 0xF000 =? 0x4000); done.
  - done.
Qed.

End Facts.

(** X16: [find_gcode_files] returns, in the order of the listing and with
    its repetitions, the items whose lower-cased name ends with the
    processor's extension and that [os.stat] shows as regular files; it
    returns the empty list when the models directory was not valid or
    cannot be listed.  A processor built by [__init__] is valid exactly
    when [os.stat] shows a directory at its path. *)
Theorem found_files_are_the_regular_files_with_the_extension
  (os_stat : string → option Z) (os_listdir : string → option (list string))
  (self : GCodeProcessor) (models_subdir gcode_extension : string) (v : Z) :
  (find_gcode_files os_stat os_listdir self).1 =
    (if models_dir_valid self then
       match os_listdir (models_dir self) with
       | Some items => List.filter (is_gcode_file os_stat self) items
       | None => []
       end
     else [])
  ∧ models_dir_valid (__init__ os_stat models_subdir gcode_extension v).1 =
      directory os_stat models_subdir.
Proof.
  split; [apply find_gcode_files_filter|].
  apply (__init___fields os_stat models_subdir gcode_extension v).
Qed.

Lemma substring_append (a b : string) (m : nat) :
  String.substring (String.length a) m (a ++ b) = String.substring 0 m b.
Proof. induction a as [|c a IH]; [reflexivity|exact IH]. Qed.

Lemma substring_all (b : string) : String.substring 0 (String.length b) b = b.
Proof. induction b as [|c b IH]; [reflexivity|]. simpl. f_equal. exact IH. Qed.

Lemma length_append (a b : string) :
  String.length (a ++ b) = (String.length a + String.length b)%nat.
Proof. induction a as [|c a IH]; [reflexivity|]. simpl. f_equal. exact IH. Qed.

Lemma endswith_append (a b : string) : endswith (a ++ b) b = true.
Proof.
  unfold endswith. rewrite length_append.
  replace (String.length a + String.length b - String.length b)%nat
    with (String.length a) by lia.
  rewrite substring_append, substring_all, String.eqb_refl.
  apply andb_true_intro. split; [|reflexivity]. apply Nat.leb_le. lia.
Qed.

Lemma lower_append (a b : string) : Py.lower (a ++ b) = (Py.lower a ++ Py.lower b)%string.
Proof. induction a as [|c a IH]; [reflexivity|]. simpl. rewrite IH. reflexivity. Qed.

(** X17: the extension is matched without regard to case, in the name of
    the file and in the extension that [__init__] was given: a listed
    regular file whose name ends with the extension in any mix of cases
    is returned. *)
Theorem extension_is_matched_in_any_case
  (os_stat : string → option Z) (os_listdir : string → option (list string))
  (models_subdir gcode_extension : string) (v : Z)
  (items : list string) (base ext : string) :
  let self := (__init__ os_stat models_subdir gcode_extension v).1 in
  directory os_stat models_subdir = true →
  os_listdir models_subdir = Some items →
  (base ++ ext)%string ∈ items →
  Py.lower ext = Py.lower gcode_extension →
  regular os_stat (full_path self (base ++ ext)) = true →
  (base ++ ext)%string ∈ (find_gcode_files os_stat os_listdir self).1.
Proof.
  intros self Hd Hl Hin He Hr.
  rewrite find_gcode_files_filter.
  destruct (__init___fields os_stat models_subdir gcode_extension v)
    as (Hx & Hm & Hv & _).
  fold self in Hx, Hm, Hv.
  rewrite Hv, Hd, Hm, Hl.
  apply list_elem_of_In, List.filter_In. split; [apply list_elem_of_In, Hin|].
  unfold is_gcode_file. rewrite Hr, Hx, lower_append, He, endswith_append.
  reflexivity.
Qed.

Lemma extension_is_matched_in_any_case_witness :
  "Ring.GCODE"%string ∈
    (find_gcode_files example_stat example_listdir
       (__init__ example_stat "models" ".GCode" 0).1).1.
Proof.
  apply (extension_is_matched_in_any_case example_stat example_listdir
           "models" ".GCode" 0
           ["cube.gcode"; "notes.txt"; "Ring.GCODE"; "old.gcode"; "gone.gcode"]%string
           "Ring" ".GCODE").
  - reflexivity.
  - reflexivity.
  - apply list_elem_of_In. cbn. tauto.
  - reflexivity.
  - reflexivity.
Defined.

(** What the example file system yields: the text file and the
    subdirectory are left out, and so is the name that cannot be
    examined, which alone is reported at verbosity 0. *)
Example find_in_example_directory :
  find_gcode_files example_stat example_listdir
    (__init__ example_stat "models" ".gcode" 0).1
  = (["cube.gcode"; "Ring.GCODE"]%string, [ErrorAccessingFile "models/gone.gcode"]).
Proof. reflexivity. Qed.

End FilesFacts.

(* ===================================================================== *)
(** * The screen and the file selector                                    *)
(* ===================================================================== *)

Module PanelFacts.
Import Panel.

(** X18: [draw_centered_text] never draws at a negative coordinate; a
    text that is no wider than the screen has its left and right margins
    equal or the right one larger by one pixel; and on line 0 a font that
    is no higher than the screen leaves margins above and below that are
    equal or the lower one larger by one pixel. *)
Theorem text_is_centered (screen_width screen_height font_size : Z)
  (text_width : string → option Z) (text : string) (line : Z) :
  let w := text_width_pixels text_width text in
  let p := text_position screen_width screen_height font_size text_width text line in
  let p0 := text_position screen_width screen_height font_size text_width text 0 in
  0 ≤ p.1 ∧ 0 ≤ p.2
  ∧ (w ≤ screen_width → 0 ≤ (screen_width - w - p.1) - p.1 ≤ 1)
  ∧ (font_size ≤ screen_height → 0 ≤ (screen_height - font_size - p0.2) - p0.2 ≤ 1).
Proof.
  unfold text_position. cbn [fst snd].
  split; [lia|]. split; [lia|]. split; intros H.
  - Z.div_mod_to_equations. lia.
  - Z.div_mod_to_equations. lia.
Qed.

Lemma text_is_centered_witness :
  let p := text_position 178 128 15 (λ _, None) "Printing..." (-1) in
  let p0 := text_position 178 128 15 (λ _, None) "Printing..." 0 in
  let q := text_position 178 128 15 (λ _, None)
             "A file name that is wider than the screen" (-9) in
  0 ≤ p.1 ∧ 0 ≤ p.2
  ∧ 0 ≤ (178 - 88 - p.1) - p.1 ≤ 1
  ∧ 0 ≤ (128 - 15 - p0.2) - p0.2 ≤ 1
  ∧ q = (0, 0).
Proof.
  intros p p0 q.
  destruct (text_is_centered 178 128 15 (λ _, None) "Printing..." (-1))
    as (H1 & H2 & H3 & H4).
  split; [exact H1|]. split; [exact H2|]. split; [|split].
  - apply H3. vm_compute. discriminate.
  - apply H4. lia.
  - reflexivity.
Defined.

Lemma getitem_in_range (available_files : list string) (i : Z) :
  0 ≤ i < Z.of_nat (length available_files) →
  ∃ file_name, getitem available_files i = Some file_name
               ∧ file_name ∈ available_files.
Proof.
  intros Hi. unfold getitem.
  replace (0 <=? i) with true by (symmetry; apply Z.leb_le; lia).
  replace (i <? Z.of_nat (length available_files)) with true
    by (symmetry; apply Z.ltb_lt; lia).
  cbn [andb].
  destruct (available_files !! Z.to_nat i) as [f|] eqn:E.
  - exists f. split; [reflexivity|]. eapply list_elem_of_lookup_2, E.
  - apply lookup_ge_None in E. lia.
Qed.

Section Selector.

Variable screen_width screen_height font_size : Z.
Variable text_width : string → option Z.

(** How the loop of the selector ends, from any index in range. *)
Lemma while_true_outcome (available_files : list string) (rounds : list round) :
  ∀ i, 0 ≤ i < Z.of_nat (length available_files) →
  (while_true screen_width screen_height font_size text_width
     available_files i rounds).1 =
    if existsb confirms rounds
    then Selected ((i + net_moves (before_confirm rounds))
                   mod Z.of_nat (length available_files))
    else Waiting.
Proof.
  induction rounds as [|r rest IH]; intros i Hi; [reflexivity|].
  set (len := Z.of_nat (length available_files)) in *.
  assert (Hturn : ∀ delta, moves r = delta → confirms r = false →
            (let idx := (i + delta) mod len in
             match getitem available_files idx with
             | Some file_name =>
                 let '(s, tr) :=
                   while_true screen_width screen_height font_size text_width
                     available_files idx rest in
                 (s, polls (idle_polls r)
                     ++ draw_file screen_width screen_height font_size text_width file_name
                     ++ polls (release_polls r) ++ tr)
             | None => (IndexError, polls (idle_polls r))
             end).1 =
            if existsb confirms (r :: rest)
            then Selected ((i + net_moves (before_confirm (r :: rest))) mod len)
            else Waiting).
  { intros delta Hm Hc. cbn zeta.
    assert (Hr : 0 ≤ (i + delta) mod len < len) by (apply Z.mod_pos_bound; lia).
    destruct (getitem_in_range available_files _ Hr) as (f & -> & _).
    specialize (IH _ Hr).
    destruct (while_true _ _ _ _ _ _ rest) as [s tr]. cbn [fst] in *.
    cbn [existsb before_confirm]. rewrite Hc. cbn [orb net_moves]. rewrite Hm.
    rewrite IH. destruct (existsb confirms rest); [|reflexivity].
    f_equal. rewrite Zplus_mod_idemp_l. f_equal. lia. }
  cbn [while_true]. fold len.
  replace (len =? 0) with false by (symmetry; apply Z.eqb_neq; lia).
  destruct (bool_decide (LEFT ∈ pressed_buttons r)) eqn:HL.
  { apply (Hturn (-1)); [unfold moves | unfold confirms]; rewrite HL; reflexivity. }
  destruct (bool_decide (RIGHT ∈ pressed_buttons r)) eqn:HR.
  { apply (Hturn 1); [unfold moves | unfold confirms]; rewrite HL, HR; reflexivity. }
  assert (Hm : moves r = 0) by (unfold moves; rewrite HL, HR; reflexivity).
  destruct (bool_decide (CENTER ∈ pressed_buttons r)) eqn:HC.
  - assert (Hc : confirms r = true)
      by (unfold confirms; rewrite HL, HR, HC; reflexivity).
    destruct (getitem_in_range available_files i Hi) as (f & -> & _).
    cbn [fst existsb before_confirm]. rewrite Hc. cbn [orb net_moves].
    f_equal. rewrite Z.add_0_r, Z.mod_small; [reflexivity|exact Hi].
  - assert (Hc : confirms r = false)
      by (unfold confirms; rewrite HL, HR, HC; reflexivity).
    specialize (IH i Hi).
    destruct (while_true _ _ _ _ _ _ rest) as [s tr]. cbn [fst] in *.
    cbn [existsb before_confirm]. rewrite Hc. cbn [orb net_moves]. rewrite Hm, IH.
    destruct (existsb confirms rest); reflexivity.
Qed.

Lemma file_selector_outcome (available_files : list string) (rounds : list round) :
  available_files ≠ [] →
  (file_selector screen_width screen_height font_size text_width
     available_files rounds).1 =
    if existsb confirms rounds
    then Selected (net_moves (before_confirm rounds)
                   mod Z.of_nat (length available_files))
    else Waiting.
Proof.
  intros Hne.
  assert (H0 : 0 ≤ 0 < Z.of_nat (length available_files)).
  { destruct available_files; [congruence|]. cbn [length]. lia. }
  unfold file_selector.
  destruct (getitem_in_range available_files 0 H0) as (f & -> & _).
  pose proof (while_true_outcome available_files rounds 0 H0) as H.
  destruct (while_true _ _ _ _ _ _ rounds) as [s tr]. cbn [fst] in *.
  rewrite H. reflexivity.
Qed.

End Selector.

(** X19: on a list of files that is not empty, [file_selector] returns
    at the first turn in which CENTER is pressed without LEFT and RIGHT,
    and waits on when there is none; the index it returns is the number
    of RIGHT turns minus the number of LEFT turns before, LEFT taking
    precedence, modulo the number of files, so it is a valid index. *)
Theorem selector_returns_net_moves (screen_width screen_height font_size : Z)
  (text_width : string → option Z) (available_files : list string)
  (rounds : list round) :
  available_files ≠ [] →
  let r := file_selector screen_width screen_height font_size text_width
             available_files rounds in
  let len := Z.of_nat (length available_files) in
  r.1 = (if existsb confirms rounds
         then Selected (net_moves (before_confirm rounds) mod len)
         else Waiting)
  ∧ ∀ i, r.1 = Selected i → 0 ≤ i < len.
Proof.
  intros Hne r len. subst r.
  rewrite file_selector_outcome by exact Hne. split; [reflexivity|].
  intros i. destruct (existsb confirms rounds); [|discriminate].
  intros [= <-]. apply Z.mod_pos_bound.
  subst len. destruct available_files; [congruence|]. cbn [length]. lia.
Qed.

Lemma selector_returns_net_moves_witness :
  let rounds :=
    [ {| idle_polls := 3; pressed_buttons := [LEFT]; release_polls := 1 |};
      {| idle_polls := 0; pressed_buttons := [LEFT; CENTER]; release_polls := 2 |};
      {| idle_polls := 5; pressed_buttons := []; release_polls := 0 |};
      {| idle_polls := 1; pressed_buttons := [CENTER]; release_polls := 1 |};
      {| idle_polls := 1; pressed_buttons := [RIGHT]; release_polls := 1 |} ] in
  let r := file_selector 178 128 15 (λ _, None)
             ["a.gcode"; "b.gcode"; "c.gcode"]%string rounds in
  r.1 = (if existsb confirms rounds
         then Selected (net_moves (before_confirm rounds) mod 3)
         else Waiting)
  ∧ ∀ i, r.1 = Selected i → 0 ≤ i < 3.
Proof.
  intros rounds.
  apply (selector_returns_net_moves 178 128 15 (λ _, None)
           ["a.gcode"; "b.gcode"; "c.gcode"]%string rounds).
  discriminate.
Defined.

(** Two presses of LEFT from the first of three files select the second. *)
Example selector_wraps_around :
  (file_selector 178 128 15 (λ _, None) ["a.gcode"; "b.gcode"; "c.gcode"]%string
     [ {| idle_polls := 3; pressed_buttons := [LEFT]; release_polls := 1 |};
       {| idle_polls := 0; pressed_buttons := [LEFT; CENTER]; release_polls := 2 |};
       {| idle_polls := 1; pressed_buttons := [CENTER]; release_polls := 1 |} ]).1
  = Selected 1.
Proof. reflexivity. Qed.

End PanelFacts.

(* ===================================================================== *)
(** * From the start of the script to the chosen file                     *)
(* ===================================================================== *)

Module StartupFacts.
Import Files Panel Startup FilesFacts PanelFacts.

(** X20: the script either ends at once, showing nothing, because no
    file was found, or is still in the selector, or has chosen one of
    the files found, with the path under the models directory.  The
    branch that shows that no files were found, the branch that refuses
    the index, and an exception in the selector are never reached. *)
Theorem script_chooses_a_found_file
  (os_stat : string → option Z) (os_listdir : string → option (list string))
  (screen_width screen_height font_size : Z) (text_width : string → option Z)
  (processor : Files.GCodeProcessor) (rounds : list round) (exit_polls : nat) :
  let available_files := (find_gcode_files os_stat os_listdir processor).1 in
  let r := choose os_stat os_listdir screen_width screen_height font_size
             text_width processor rounds exit_polls in
  match r.1 with
  | NothingFound => available_files = [] ∧ r.2 = []
  | StillSelecting => existsb confirms rounds = false
  | Chosen selected_file path =>
      selected_file ∈ available_files
      ∧ is_gcode_file os_stat processor selected_file = true
      ∧ path = Files.full_path processor selected_file
  | NoFilesShown | SelectorRaised | InvalidIndex => False
  end.
Proof.
  intros available_files r. subst r. unfold choose. fold available_files.
  pose proof (find_gcode_files_filter os_stat os_listdir processor) as Hfind.
  fold available_files in Hfind.
  destruct available_files as [|f0 fs] eqn:Ha; [done|].
  rewrite <- Ha in *.
  assert (Hne : available_files ≠ []) by (rewrite Ha; discriminate).
  assert (Hlen : 0 < Z.of_nat (length available_files)).
  { rewrite Ha. cbn [length]. lia. }
  replace (0 <? Z.of_nat (length available_files)) with true
    by (symmetry; apply Z.ltb_lt; exact Hlen).
  pose proof (file_selector_outcome screen_width screen_height font_size
                text_width available_files rounds Hne) as Hs.
  destruct (file_selector _ _ _ _ available_files rounds) as [s tr].
  cbn [fst] in Hs. subst s.
  destruct (existsb confirms rounds); [|reflexivity].
  set (i := net_moves (before_confirm rounds) mod Z.of_nat (length available_files)).
  assert (Hi : 0 ≤ i < Z.of_nat (length available_files))
    by (apply Z.mod_pos_bound; exact Hlen).
  replace (0 <=? i) with true by (symmetry; apply Z.leb_le; lia).
  replace (i <? Z.of_nat (length available_files)) with true
    by (symmetry; apply Z.ltb_lt; lia).
  cbn [andb].
  destruct (getitem_in_range available_files i Hi) as (f & -> & Hin).
  cbn [fst]. split; [exact Hin|]. split; [|reflexivity].
  rewrite Hfind in Hin.
  destruct (models_dir_valid processor); [|inversion Hin].
  destruct (os_listdir (models_dir processor)) as [items|]; [|inversion Hin].
  apply list_elem_of_In, List.filter_In in Hin. apply Hin.
Qed.

End StartupFacts.

(* ===================================================================== *)
(** * Priming the extruder                                                *)
(* ===================================================================== *)

Module PrimingFacts.
Import Panel Priming.

Lemma motor_events_app (a b : list event) :
  motor_events (a ++ b) = motor_events a ++ motor_events b.
Proof. unfold motor_events. apply omap_app. Qed.

Lemma motor_events_machine (tr : list Printer.event) :
  motor_events (map machine tr) = tr.
Proof. induction tr as [|e tr IH]; [reflexivity|]. cbn. f_equal. exact IH. Qed.

Lemma motor_events_polls (n : nat) : motor_events (polls n) = [].
Proof. induction n as [|n IH]; [reflexivity|exact IH]. Qed.

Lemma motor_events_draw (w h f : Z) (tw : string → option Z) (text : string)
  (do_clear : bool) (line : Z) :
  motor_events (draw_centered_text w h f tw text do_clear line) = [].
Proof. destruct do_clear; reflexivity. Qed.

Lemma motor_events_countdown (w h f : Z) (tw : string → option Z) (wait_time : Z)
  (env : priming_env) (remaining i : nat) :
  motor_events (countdown w h f tw wait_time env remaining i) = [].
Proof.
  revert i. induction remaining as [|n IH]; intros i; [reflexivity|].
  cbn [countdown]. rewrite !motor_events_app, !motor_events_draw.
  destruct (center_after env i); [reflexivity|]. cbn [app]. apply IH.
Qed.

(** X21: whatever the buttons do, [prime_extruder] leaves the printer's
    state as it found it; the extruder motor is driven onto the pen and
    back when RIGHT was pressed and only back otherwise, so the last
    command releases the pen, wherever it was before. *)
Theorem priming_leaves_the_pen_released (screen_width screen_height font_size : Z)
  (text_width : string → option Z) (wait_time : Z) (env : priming_env)
  (self : Printer.Printer) (pressed : bool) :
  let r := prime_extruder screen_width screen_height font_size text_width
             wait_time env self in
  r.1 = self
  ∧ motor_events r.2 =
      (if bool_decide (RIGHT ∈ ready_pressed env)
       then Printer.engage_sequence self ++ Printer.disengage_sequence self
       else Printer.disengage_sequence self)
  ∧ Motion.pen_pressed pressed (motor_events r.2) = false.
Proof.
  intros r.
  assert (H : r.1 = self
              ∧ motor_events r.2 =
                  (if bool_decide (RIGHT ∈ ready_pressed env)
                   then Printer.engage_sequence self ++ Printer.disengage_sequence self
                   else Printer.disengage_sequence self)).
  { subst r. unfold prime_extruder.
    destruct (bool_decide (RIGHT ∈ ready_pressed env)); cbn [fst snd].
    - split; [reflexivity|].
      rewrite !motor_events_app, !motor_events_draw, motor_events_polls,
        motor_events_machine, motor_events_countdown.
      cbn [app]. rewrite app_nil_r. reflexivity.
    - split; [reflexivity|].
      rewrite !motor_events_app, !motor_events_draw, motor_events_polls,
        motor_events_machine.
      cbn [app]. rewrite app_nil_r. reflexivity. }
  destruct H as [H1 H2]. split; [exact H1|]. split; [exact H2|].
  rewrite H2. destruct (bool_decide (RIGHT ∈ ready_pressed env)); reflexivity.
Qed.

End PrimingFacts.

(* ===================================================================== *)
(** * Manual control                                                      *)
(* ===================================================================== *)

Module ManualFacts.
Import Panel Manual.

Lemma settled_app (a b : list event) :
  ∀ powered, settled powered a = true → settled powered (a ++ b) = settled None b.
Proof.
  induction a as [|e a IH]; intros powered H.
  { destruct powered; [discriminate|reflexivity]. }
  cbn [app]. destruct powered as [m|].
  - destruct e as [| | | |e|]; try discriminate.
    + apply (IH (Some m)), H.
    + destruct e; try discriminate. cbn [settled] in *.
      apply andb_prop in H as [-> H]. apply (IH None), H.
  - destruct e as [| | | |e|m d];
      first [apply (IH None), H | apply (IH (Some m)), H].
Qed.

Lemma settled_polls10 (n : nat) (powered : option Printer.motor) (tr : list event) :
  settled powered (polls10 n ++ tr) = settled powered tr.
Proof.
  induction n as [|n IH]; [reflexivity|].
  cbn [polls10 repeat app settled]. destruct powered; exact IH.
Qed.

Lemma settled_jog (m : Printer.motor) (duty : Z) (release : nat) :
  settled None (jog m duty release) = true.
Proof.
  unfold jog. cbn [app settled]. rewrite settled_polls10.
  cbn [settled]. destruct m; reflexivity.
Qed.

Lemma settled_draw (w h f : Z) (tw : string → option Z) (text : string)
  (do_clear : bool) (line : Z) :
  settled None (draw_centered_text w h f tw text do_clear line) = true.
Proof. destruct do_clear; reflexivity. Qed.

Lemma settled_feedback (w h : Z) (tw : string → option Z) (m : mode) :
  settled None (feedback w h tw m) = true.
Proof.
  unfold feedback. destruct m;
    rewrite !settled_app by apply settled_draw; apply settled_draw.
Qed.

Lemma settled_nil_polls10 (n : nat) : settled None (polls10 n) = true.
Proof. rewrite <- (app_nil_r (polls10 n)), settled_polls10. reflexivity. Qed.

Lemma settled_turn (m : mode) (r : turn_env) : settled None (turn m r) = true.
Proof.
  unfold turn. rewrite settled_polls10.
  assert (Hc : settled None
                 (if bool_decide (CENTER ∈ pressed_buttons r)
                  then polls10 (center_release r) else []) = true).
  { destruct (bool_decide _); [apply settled_nil_polls10|reflexivity]. }
  destruct m.
  - rewrite settled_app; [exact Hc|].
    rewrite settled_app.
    + destruct (bool_decide (UP ∈ _)); [apply settled_jog|].
      destruct (bool_decide (DOWN ∈ _)); [apply settled_jog|reflexivity].
    + destruct (bool_decide (LEFT ∈ _)); [apply settled_jog|].
      destruct (bool_decide (RIGHT ∈ _)); [apply settled_jog|reflexivity].
  - rewrite settled_app; [exact Hc|].
    rewrite settled_app.
    + destruct (bool_decide (UP ∈ _)); [apply settled_jog|].
      destruct (bool_decide (DOWN ∈ _)); [apply settled_jog|reflexivity].
    + destruct (bool_decide (LEFT ∈ _)).
      { cbn [app settled]. apply settled_nil_polls10. }
      destruct (bool_decide (RIGHT ∈ _)); [|reflexivity].
      cbn [app settled]. apply settled_nil_polls10.
Qed.

Lemma commanded_polls10 (n : nat) :
  Forall (λ e, commanded e = None) (polls10 n).
Proof. apply List.Forall_forall. intros e He. apply repeat_spec in He. subst e. reflexivity. Qed.

Lemma commanded_draw (w h f : Z) (tw : string → option Z) (text : string)
  (do_clear : bool) (line : Z) (md : mode) :
  Forall (λ e, from_option (of_mode md) true (commanded e) = true)
    (draw_centered_text w h f tw text do_clear line).
Proof. destruct do_clear; repeat constructor. Qed.

Lemma mode_after_cons (m : mode) (r : turn_env) (turns : list turn_env) :
  mode_after m (r :: turns) = mode_after (if switches r then other m else m) turns.
Proof.
  unfold mode_after. cbn [List.filter].
  destruct (switches r); [|reflexivity].
  cbn [length]. rewrite Nat.even_succ, <- Nat.negb_even.
  destruct (Nat.even _), m; reflexivity.
Qed.

Lemma loops_app (w h : Z) (tw : string → option Z) (pre post : list turn_env) :
  ∀ m, loops w h tw m (pre ++ post) =
       loops w h tw m pre ++ loops w h tw (mode_after m pre) post.
Proof.
  induction pre as [|r pre IH]; intros m; [reflexivity|].
  rewrite mode_after_cons. cbn [app loops].
  destruct (switches r); rewrite IH, <- ?app_assoc; reflexivity.
Qed.

Lemma settled_loops (w h : Z) (tw : string → option Z) (turns : list turn_env) :
  ∀ m, settled None (loops w h tw m turns) = true.
Proof.
  induction turns as [|t rest IH]; intros md; [reflexivity|].
  cbn [loops]. rewrite settled_app by apply settled_turn.
  destruct (switches t); [|apply IH].
  rewrite settled_app by apply settled_feedback. apply IH.
Qed.

Lemma commanded_turn (m : mode) (r : turn_env) :
  Forall (λ e, from_option (of_mode m) true (commanded e) = true) (turn m r).
Proof.
  unfold turn, jog.
  assert (Hp : ∀ n, Forall (λ e, from_option (of_mode m) true (commanded e) = true)
                      (polls10 n)).
  { intros n. eapply List.Forall_impl; [|apply commanded_polls10].
    intros e ->. reflexivity. }
  apply List.Forall_app; split; [apply Hp|].
  apply List.Forall_app; split.
  2: { destruct (bool_decide (CENTER ∈ _)); [apply Hp|apply List.Forall_nil]. }
  destruct m; (apply List.Forall_app; split);
    repeat match goal with
           | |- context [bool_decide ?P] => destruct (bool_decide P)
           end;
    repeat first [ progress cbn [app]
                 | apply List.Forall_nil
                 | apply List.Forall_cons; [reflexivity|]
                 | apply Hp
                 | apply List.Forall_app; split ].
Qed.

(** X22: however the buttons are pressed during manual control, a motor
    is powered with [dc] only while the script waits for the release and
    is braked next: no two motors are powered at once, and none is left
    powered at the end of a turn.  The mode in force after some turns is
    X-Y when CENTER was read in an even number of them and E-Z otherwise;
    a turn in X-Y mode commands only the X and Y motors, a turn in E-Z
    mode only the extruder and Z motors. *)
Theorem manual_control_brakes_what_it_powers (screen_width screen_height : Z)
  (text_width : string → option Z) (pre post : list turn_env) (m : mode)
  (r : turn_env) :
  settled None (manual screen_width screen_height text_width pre) = true
  ∧ manual screen_width screen_height text_width (pre ++ post) =
      manual screen_width screen_height text_width pre
      ++ loops screen_width screen_height text_width (mode_after XY pre) post
  ∧ Forall (λ e, from_option (of_mode m) true (commanded e) = true) (turn m r).
Proof.
  split; [|split].
  - unfold manual. rewrite settled_app by apply settled_feedback.
    apply settled_loops.
  - unfold manual. rewrite loops_app, app_assoc. reflexivity.
  - apply commanded_turn.
Qed.

End ManualFacts.
